(** * Roommate task manager: rotation, task store and monthly reports

    A shallow embedding of the repository's core:

    - the rotation calculator [calculateMonthlyAssignments] of the two server
      files (a 4-task catalog in the JSON-file server, a 2-task catalog in
      the SQLite server; the function text is the same);
    - the SQLite task store and report aggregator of [database.js];
    - the JSON-file variant of [database.js];
    - [ensureMonthlyTasks] and the [/api/tasks/complete] handlers.

    Conventions.  JavaScript numbers that hold integers (ids, months, years,
    counts, rotation seeds) are [Z]; binary64 represents them exactly below
    2^53.  Numbers produced by a division ([completion_percentage]) are
    binary64 values, modelled with the kernel's primitive floats.  The wall
    clock ([CURRENT_TIMESTAMP], [new Date()], [Date.now()]) and
    [Math.random()] are explicit arguments.  A table is the list of its rows
    in rowid order; an [AUTOINCREMENT] key is a counter kept with the table.
    Storage errors (the [err] argument of a sqlite3 callback) are modelled
    where a statement of this file depends on them, namely in report
    generation and in [completeTask_with]; elsewhere a function describes
    what the statement does when the backend answers. *)

From Stdlib Require Import ZArith List Ascii String Bool Lia Permutation Sorted.
From Stdlib Require Import Floats Uint63.
Import ListNotations.
Open Scope string_scope.
Open Scope list_scope.
Open Scope Z_scope.

(** ** JavaScript values used by the sources *)

Module JS.

(** [a % b] on integers: the remainder takes the sign of the dividend. *)
Definition rem (a b : Z) : Z := Z.rem a b.

(** [arr[i]] for an integer [i]: [undefined] (here [None]) out of range. *)
Definition array_get {A : Type} (arr : list A) (i : Z) : option A :=
  if i <? 0 then None else nth_error arr (Z.to_nat i).

(** [arr.forEach((x, index) => ...)] visits the elements with their index. *)
Fixpoint indexed_from {A : Type} (start : Z) (arr : list A) : list (Z * A) :=
  match arr with
  | [] => []
  | x :: rest => (start, x) :: indexed_from (start + 1) rest
  end.

Definition indexed {A : Type} (arr : list A) : list (Z * A) := indexed_from 0 arr.

(** A plain object used as a map from string keys: its own properties in
    the order they were added.  (No key the sources add is [__proto__],
    whose assignment would not create an own property.) *)
Definition obj (V : Type) : Type := list (string * V).

Fixpoint obj_get {V : Type} (o : obj V) (k : string) : option V :=
  match o with
  | [] => None
  | (k', v) :: rest => if String.eqb k' k then Some v else obj_get rest k
  end.

(** [o[k] = v]: overwrite in place, or add the property at the end. *)
Fixpoint obj_set {V : Type} (o : obj V) (k : string) (v : V) : obj V :=
  match o with
  | [] => [(k, v)]
  | (k', v') :: rest =>
      if String.eqb k' k then (k', v) :: rest else (k', v') :: obj_set rest k v
  end.

(** Array indices: the canonical decimal strings of 0 .. 2^32 - 2. *)
Definition digit_of (c : Ascii.ascii) : option Z :=
  let n := Z.of_N (Ascii.N_of_ascii c) in
  if (48 <=? n) && (n <=? 57) then Some (n - 48) else None.

Fixpoint digits_value (s : string) (acc : Z) : option Z :=
  match s with
  | EmptyString => Some acc
  | String c rest =>
      match digit_of c with
      | Some d => digits_value rest (10 * acc + d)
      | None => None
      end
  end.

Definition array_index (k : string) : option Z :=
  match k with
  | EmptyString => None
  | String c _ =>
      match digits_value k 0 with
      | Some v =>
          if (String.eqb k "0" || negb (Ascii.eqb c "0"%char)) && (v <? 2 ^ 32 - 1)
          then Some v else None
      | None => None
      end
  end.

Definition is_array_index (k : string) : bool :=
  match array_index k with Some _ => true | None => false end.

Fixpoint insert_by_index {V : Type} (e : Z * (string * V))
  (l : list (Z * (string * V))) : list (Z * (string * V)) :=
  match l with
  | [] => [e]
  | e' :: rest =>
      if fst e <=? fst e' then e :: l else e' :: insert_by_index e rest
  end.

Definition index_entries {V : Type} (o : obj V) : list (Z * (string * V)) :=
  flat_map (fun e => match array_index (fst e) with
                     | Some i => [(i, e)]
                     | None => []
                     end) o.

(** [Object.entries(o)]: the array-index keys in ascending numeric order,
    then the other keys in insertion order. *)
Definition Object_entries {V : Type} (o : obj V) : list (string * V) :=
  map snd (fold_right insert_by_index [] (index_entries o))
  ++ filter (fun e => negb (is_array_index (fst e))) o.

Definition Object_values {V : Type} (o : obj V) : list V :=
  map snd (Object_entries o).

(** The property names every plain object inherits from [Object.prototype];
    reading one of them on a fresh object yields a truthy value. *)
Definition prototype_keys : list string :=
  ["constructor"; "__proto__"; "hasOwnProperty"; "isPrototypeOf";
   "propertyIsEnumerable"; "toLocaleString"; "toString"; "valueOf";
   "__defineGetter__"; "__defineSetter__"; "__lookupGetter__";
   "__lookupSetter__"].

Definition inherited (k : string) : bool := existsb (String.eqb k) prototype_keys.

Definition has_own {V : Type} (o : obj V) (k : string) : bool :=
  match obj_get o k with Some _ => true | None => false end.

(** Conversion of an integer to binary64: exact for |z| < 2^53, which covers
    the counts, percentages and clock values of this file. *)
Definition number_of_Z (z : Z) : float :=
  if z <? 0 then PrimFloat.opp (PrimFloat.of_uint63 (Uint63.of_Z (- z)))
  else PrimFloat.of_uint63 (Uint63.of_Z z).

(** [Math.round]: the integer closest to [x], ties towards +infinity;
    NaN, the infinities and the zeros are returned as they are, and a
    value in [-0.5, 0) gives -0.  A finite double is [+-m * 2^e]; the
    rounding is done on that exact value. *)
Definition Math_round (x : float) : float :=
  match Prim2SF x with
  | S754_finite s m e =>
      if 0 <=? e then x
      else
        let den := Z.shiftl 1 (- e) in
        let num := if s then - Z.pos m else Z.pos m in
        let n := (2 * num + den) / (2 * den) in
        if n =? 0 then (if s then PrimFloat.opp PrimFloat.zero else PrimFloat.zero)
        else number_of_Z n
  | _ => x
  end.

End JS.

(** ** Promises and the clock *)

(** How a promise-returning function ends: resolved with a value, rejected
    with [new Error(message)], or an exception thrown inside a callback
    (the promise then never settles). *)
Inductive result (A : Type) : Type :=
| Resolved (value : A)
| Rejected (message : string)
| Uncaught (message : string).
Arguments Resolved {A} value.
Arguments Rejected {A} message.
Arguments Uncaught {A} message.

(** One reading of the wall clock: [getMonth()] (0-based), [getFullYear()],
    [toISOString()], [Date.now()] and SQLite's [CURRENT_TIMESTAMP]. *)
Record instant : Type := {
  getMonth : Z;
  getFullYear : Z;
  toISOString : string;
  Date_now : Z;
  CURRENT_TIMESTAMP : string
}.

(** ** The server files: rotation and monthly task creation

    [calculateMonthlyAssignments] and [ensureMonthlyTasks] have the same text
    in the two server files; they differ by the catalog [TASKS] and by the
    [./database] module they import, which are the parameters here. *)

Definition ROOMMATES : list string := ["deepanshu"; "sonu"; "sachin"; "sintu"].

Module Server.
Section WithCatalogAndDatabase.

Variable TASKS : list string.
Variables DB Task : Type.
Variable getCurrentMonthTasks : instant -> DB -> list Task.
Variable createMonthlyTasks : Z -> Z -> JS.obj (option string) -> instant -> DB -> DB.

(** The body of [TASKS.forEach((task, taskIndex) => ...)]. *)
Definition assign_step (seed : Z) (assignments : JS.obj (option string))
  (entry : Z * string) : JS.obj (option string) :=
  let '(taskIndex, task) := entry in
  let roommateIndex := JS.rem (seed + taskIndex) (Z.of_nat (List.length ROOMMATES)) in
  JS.obj_set assignments task (JS.array_get ROOMMATES roommateIndex).

Definition calculateMonthlyAssignments (month year : Z) : JS.obj (option string) :=
  let seed := (year * 12) + month in
  fold_left (assign_step seed) (JS.indexed TASKS) [].

(** Create the month's tasks if none exists yet. *)
Definition ensureMonthlyTasks (now : instant) (d : DB) : DB :=
  let month := getMonth now + 1 in
  let year := getFullYear now in
  let existingTasks := getCurrentMonthTasks now d in
  if Z.of_nat (List.length existingTasks) =? 0
  then
    let assignments := calculateMonthlyAssignments month year in
    createMonthlyTasks month year assignments now d
  else d.

End WithCatalogAndDatabase.
Arguments ensureMonthlyTasks TASKS {DB Task} getCurrentMonthTasks createMonthlyTasks now d.
End Server.

(** ** The SQLite variant of database.js *)

Module Sqlite.

Module User.
Record row : Type := { id : Z; username : string; mobile_number : string }.
End User.

Module Task.
Record row : Type := {
  id : Z;
  name : string;
  assigned_to : string;
  month : Z;
  year : Z;
  completed : bool;                (* BOOLEAN DEFAULT 0, set to 1 *)
  completed_at : option string     (* DATETIME, NULL until completed *)
}.
End Task.

Module History.
Record row : Type := {
  id : Z; task_id : Z; username : string; action : string; timestamp : string
}.
End History.

(** What a report keeps of a task: [{ name, completed, completedAt }]. *)
Record task_view : Type := {
  view_name : string; view_completed : bool; view_completedAt : option string
}.

(** [report_data], in parsed form: [{ tasks, generatedAt }]. *)
Record report_data : Type := { rd_tasks : list task_view; generatedAt : string }.

Module Report.
Record row : Type := {
  id : Z;
  user_id : Z;
  username : string;
  month : Z;
  year : Z;
  tasks_assigned : Z;
  tasks_completed : Z;
  completion_percentage : float;   (* REAL *)
  data : report_data;
  created_at : string
}.
End Report.

(** The database: four tables, and the AUTOINCREMENT counters of the three
    tables the modelled functions insert into. *)
Record db : Type := {
  users : list User.row;
  tasks : list Task.row;
  task_history : list History.row;
  monthly_reports : list Report.row;
  tasks_seq : Z;
  task_history_seq : Z;
  monthly_reports_seq : Z
}.

Definition with_tasks (d : db) (ts : list Task.row) (seq : Z) : db :=
  {| users := users d; tasks := ts; task_history := task_history d;
     monthly_reports := monthly_reports d; tasks_seq := seq;
     task_history_seq := task_history_seq d;
     monthly_reports_seq := monthly_reports_seq d |}.

Definition with_history (d : db) (hs : list History.row) (seq : Z) : db :=
  {| users := users d; tasks := tasks d; task_history := hs;
     monthly_reports := monthly_reports d; tasks_seq := tasks_seq d;
     task_history_seq := seq;
     monthly_reports_seq := monthly_reports_seq d |}.

Definition with_reports (d : db) (rs : list Report.row) (seq : Z) : db :=
  {| users := users d; tasks := tasks d; task_history := task_history d;
     monthly_reports := rs; tasks_seq := tasks_seq d;
     task_history_seq := task_history_seq d;
     monthly_reports_seq := seq |}.

(** [WHERE month = ? AND year = ?] *)
Definition in_period (month year : Z) (t : Task.row) : bool :=
  (Task.month t =? month) && (Task.year t =? year).

(** [WHERE name = ? AND month = ? AND year = ?], the UNIQUE key of tasks. *)
Definition has_key (name : string) (month year : Z) (t : Task.row) : bool :=
  String.eqb (Task.name t) name && in_period month year t.

Definition getCurrentMonthTasks (now : instant) (d : db) : list Task.row :=
  let month := getMonth now + 1 in
  let year := getFullYear now in
  filter (in_period month year) (tasks d).

(** [INSERT OR IGNORE INTO tasks (name, assigned_to, month, year)]: the
    statement draws the next id from the table's AUTOINCREMENT counter, and
    the counter keeps it also when the row is then skipped, because it breaks
    UNIQUE(name, month, year) or because the assignee is missing (NOT NULL).
    A row that is not skipped is added with that id and the column
    defaults. *)
Definition insert_or_ignore_task (month year : Z) (d : db)
  (entry : string * option string) : db :=
  let '(taskName, assignee) := entry in
  let new_id := tasks_seq d + 1 in
  match assignee with
  | None => with_tasks d (tasks d) new_id
  | Some username =>
      if existsb (has_key taskName month year) (tasks d)
      then with_tasks d (tasks d) new_id
      else
        with_tasks d
          (tasks d ++ [ {| Task.id := new_id; Task.name := taskName;
                           Task.assigned_to := username; Task.month := month;
                           Task.year := year; Task.completed := false;
                           Task.completed_at := None |} ])
          new_id
  end.

Definition createMonthlyTasks (month year : Z)
  (assignments : JS.obj (option string)) (d : db) : db :=
  fold_left (insert_or_ignore_task month year) (JS.Object_entries assignments) d.

(** The WHERE clause of completeTask's UPDATE:
    [name = ? AND month = ? AND year = ? AND assigned_to = ?]. *)
Definition owned_by (taskName username : string) (month year : Z)
  (t : Task.row) : bool :=
  has_key taskName month year t && String.eqb (Task.assigned_to t) username.

(** [SET completed = 1, completed_at = CURRENT_TIMESTAMP] *)
Definition mark_completed (now : instant) (t : Task.row) : Task.row :=
  {| Task.id := Task.id t; Task.name := Task.name t;
     Task.assigned_to := Task.assigned_to t; Task.month := Task.month t;
     Task.year := Task.year t; Task.completed := true;
     Task.completed_at := Some (CURRENT_TIMESTAMP now) |}.

(** The UPDATE: the new rows and [this.changes], the number of rows the
    WHERE clause selected. *)
Definition update_completed (taskName username : string) (month year : Z)
  (now : instant) (ts : list Task.row) : list Task.row * Z :=
  (map (fun t => if owned_by taskName username month year t
                 then mark_completed now t else t) ts,
   Z.of_nat (List.length (filter (owned_by taskName username month year) ts))).

Definition not_owned_message : string := "Task not found or not assigned to you".

(** The three statements of completeTask, each of which may come back
    with an error from the backend: the UPDATE, the SELECT of the task's id
    and the INSERT into task_history. *)
Record complete_faults : Type := {
  update_err : option string;
  lookup_err : option string;
  log_err : option string
}.

Definition no_complete_faults : complete_faults :=
  {| update_err := None; lookup_err := None; log_err := None |}.

(** The statements run one after the other, outside any transaction: a
    rejection after the UPDATE leaves the rows it changed. *)
Definition completeTask_with (io : complete_faults) (taskName username : string)
  (month year : Z) (now : instant) (d : db) : result unit * db :=
  match update_err io with
  | Some err => (Rejected err, d)
  | None =>
      let '(ts, changes) :=
        update_completed taskName username month year now (tasks d) in
      let d1 := with_tasks d ts (tasks_seq d) in
      if changes =? 0 then (Rejected not_owned_message, d1)
      else
        (* Log to history *)
        match lookup_err io with
        | Some err => (Rejected err, d1)
        | None =>
            match find (has_key taskName month year) (tasks d1) with
            | None => (Uncaught "TypeError", d1)
            | Some task =>
                match log_err io with
                | Some err => (Rejected err, d1)
                | None =>
                    let new_id := task_history_seq d1 + 1 in
                    (Resolved tt,
                     with_history d1
                       (task_history d1 ++
                        [ {| History.id := new_id; History.task_id := Task.id task;
                             History.username := username;
                             History.action := "completed";
                             History.timestamp := CURRENT_TIMESTAMP now |} ])
                       new_id)
                end
            end
        end
  end.

(** completeTask on a backend that answers its three statements. *)
Definition completeTask (taskName username : string) (month year : Z)
  (now : instant) (d : db) : result unit * db :=
  completeTask_with no_complete_faults taskName username month year now d.

(** [ORDER BY u.username]: byte-wise order, as SQLite's BINARY collation. *)
Fixpoint insert_user (u : User.row) (l : list User.row) : list User.row :=
  match l with
  | [] => [u]
  | v :: rest =>
      if String.leb (User.username u) (User.username v) then u :: l
      else v :: insert_user u rest
  end.

Definition order_by_username (l : list User.row) : list User.row :=
  fold_right insert_user [] l.

(** A row of [users u LEFT JOIN tasks t ON t.assigned_to = u.username AND
    t.month = ? AND t.year = ?]: the task columns are NULL together when the
    user has no task in the period. *)
Record joined_row : Type := { jr_username : string; jr_task : option Task.row }.

Definition assigned_in (username : string) (month year : Z) (t : Task.row) : bool :=
  String.eqb (Task.assigned_to t) username && in_period month year t.

(** The order of one user's rows in the join.  The query orders by
    username only; SQLite finds the tasks of each user through an index it
    builds for the query on (assigned_to, month, year), which holds after
    these the other columns the query reads (name, completed, completed_at)
    and the rowid, so a user's tasks of the period come by name (byte-wise),
    then by completed, completed_at (NULL first) and id.  Under
    UNIQUE(name, month, year) the name alone decides. *)
Definition compare_completed_at (a b : option string) : comparison :=
  match a, b with
  | None, None => Eq
  | None, Some _ => Lt
  | Some _, None => Gt
  | Some x, Some y => String.compare x y
  end.

Definition index_compare (t t' : Task.row) : comparison :=
  match String.compare (Task.name t) (Task.name t') with
  | Eq =>
      match Bool.compare (Task.completed t) (Task.completed t') with
      | Eq =>
          match compare_completed_at (Task.completed_at t) (Task.completed_at t') with
          | Eq => Z.compare (Task.id t) (Task.id t')
          | c => c
          end
      | c => c
      end
  | c => c
  end.

Definition index_before (t t' : Task.row) : bool :=
  match index_compare t t' with
  | Gt => false
  | _ => true
  end.

Fixpoint insert_task (t : Task.row) (l : list Task.row) : list Task.row :=
  match l with
  | [] => [t]
  | v :: rest => if index_before t v then t :: l else v :: insert_task t rest
  end.

Definition order_by_index (l : list Task.row) : list Task.row :=
  fold_right insert_task [] l.

Definition left_join (month year : Z) (d : db) : list joined_row :=
  flat_map
    (fun u =>
       match order_by_index
               (filter (assigned_in (User.username u) month year) (tasks d)) with
       | [] => [ {| jr_username := User.username u; jr_task := None |} ]
       | matches =>
           map (fun t => {| jr_username := User.username u; jr_task := Some t |})
               matches
       end)
    (order_by_username (users d)).

Definition view_of (t : Task.row) : task_view :=
  {| view_name := Task.name t; view_completed := Task.completed t;
     view_completedAt := Task.completed_at t |}.

Record user_status : Type := { us_username : string; us_tasks : list task_view }.

(** The body of [rows.forEach(row => ...)] in getAllUsersStatus. *)
Definition group_step (acc : result (JS.obj user_status)) (row : joined_row)
  : result (JS.obj user_status) :=
  match acc with
  | Resolved userStatus =>
      let k := jr_username row in
      let userStatus1 :=
        if JS.has_own userStatus k || JS.inherited k then userStatus
        else JS.obj_set userStatus k {| us_username := k; us_tasks := [] |} in
      match jr_task row with
      | Some t =>
          if negb (String.eqb (Task.name t) "") then
            match JS.obj_get userStatus1 k with
            | Some entry =>
                Resolved (JS.obj_set userStatus1 k
                            {| us_username := us_username entry;
                               us_tasks := us_tasks entry ++ [view_of t] |})
            | None => Uncaught "TypeError"
            end
          else Resolved userStatus1
      | None => Resolved userStatus1
      end
  | other => other
  end.

Definition getAllUsersStatus (month year : Z) (d : db) : result (list user_status) :=
  match fold_left group_step (left_join month year d) (Resolved []) with
  | Resolved userStatus => Resolved (JS.Object_values userStatus)
  | Rejected m => Rejected m
  | Uncaught m => Uncaught m
  end.

(** *** Monthly reports *)

(** The two statements of generateMonthlyReport, either of which may come
    back with an error from the backend. *)
Record faults : Type := { select_err : option string; insert_err : option string }.

Definition no_faults : faults := {| select_err := None; insert_err := None |}.

(** The value generateMonthlyReport resolves with. *)
Record report : Type := {
  userId : Z;
  username : string;
  month : Z;
  year : Z;
  tasksAssigned : Z;
  tasksCompleted : Z;
  completionPercentage : float;
  reportData : report_data
}.

(** [tasksAssigned > 0 ? Math.round((tasksCompleted / tasksAssigned) * 100) : 0] *)
Definition completion_percentage_of (tasksAssigned tasksCompleted : Z) : float :=
  if tasksAssigned >? 0
  then JS.Math_round
         (PrimFloat.mul
            (PrimFloat.div (JS.number_of_Z tasksCompleted) (JS.number_of_Z tasksAssigned))
            (JS.number_of_Z 100))
  else JS.number_of_Z 0.

(** The UNIQUE(user_id, month, year) key of monthly_reports. *)
Definition report_key (userId month year : Z) (r : Report.row) : bool :=
  (Report.user_id r =? userId) && (Report.month r =? month) && (Report.year r =? year).

Definition generateMonthlyReport (io : faults) (now : instant) (userId : Z)
  (username : string) (month year : Z) (d : db) : result report * db :=
  match select_err io with
  | Some err => (Rejected err, d)
  | None =>
      (* Get user's tasks for the month *)
      let tasks := filter (assigned_in username month year) (tasks d) in
      let tasksAssigned := Z.of_nat (List.length tasks) in
      let tasksCompleted := Z.of_nat (List.length (filter Task.completed tasks)) in
      let completionPercentage := completion_percentage_of tasksAssigned tasksCompleted in
      let reportData :=
        {| rd_tasks := map view_of tasks; generatedAt := toISOString now |} in
      (* Insert or update report *)
      match insert_err io with
      | Some err => (Rejected err, d)
      | None =>
          let new_id := monthly_reports_seq d + 1 in
          let kept := filter (fun r => negb (report_key userId month year r))
                             (monthly_reports d) in
          (Resolved {| userId := userId; username := username; month := month;
                       year := year; tasksAssigned := tasksAssigned;
                       tasksCompleted := tasksCompleted;
                       completionPercentage := completionPercentage;
                       reportData := reportData |},
           with_reports d
             (kept ++
              [ {| Report.id := new_id; Report.user_id := userId;
                   Report.username := username; Report.month := month;
                   Report.year := year; Report.tasks_assigned := tasksAssigned;
                   Report.tasks_completed := tasksCompleted;
                   Report.completion_percentage := completionPercentage;
                   Report.data := reportData;
                   Report.created_at := CURRENT_TIMESTAMP now |} ])
             new_id)
      end
  end.

(** The body of [for (const user of users) { try { ... } catch { ... } }]:
    a rejected generation is logged and the loop goes on. *)
Definition report_step (io_of : User.row -> faults) (now : instant)
  (month year : Z) (acc : list report * db) (user : User.row) : list report * db :=
  let '(reports, d) := acc in
  match generateMonthlyReport (io_of user) now (User.id user) (User.username user)
          month year d with
  | (Resolved report, d') => (reports ++ [report], d')
  | (_, d') => (reports, d')
  end.

(** [users_err] is the error of [SELECT id, username FROM users], if any.
    The query names no order; SQLite answers it from the index of the
    UNIQUE username column, which holds both columns, so the users come in
    username order. *)
Definition generateAllMonthlyReports (users_err : option string)
  (io_of : User.row -> faults) (now : instant) (month year : Z) (d : db)
  : result (list report) * db :=
  match users_err with
  | Some err => (Rejected err, d)
  | None =>
      let users := order_by_username (users d) in
      let '(reports, d') :=
        fold_left (report_step io_of now month year) users ([], d) in
      (Resolved reports, d')
  end.

Definition getMonthlyReport (userId month year : Z) (d : db) : option Report.row :=
  find (report_key userId month year) (monthly_reports d).

End Sqlite.

(** ** The SQLite server file *)

(** What a request handler sends back: [res.json({ success, ... })],
    [res.status(code).json({ error })], or nothing when an exception escaped
    a database callback. *)
Inductive response : Type :=
| Json_success (success : bool)
| Json_error (status : Z) (error : string)
| No_response.

Module SqliteServer.

Definition TASKS : list string := ["Kachra Fekna"; "Pani Lana"].

Definition calculateMonthlyAssignments (month year : Z) : JS.obj (option string) :=
  Server.calculateMonthlyAssignments TASKS month year.

Definition ensureMonthlyTasks (now : instant) (d : Sqlite.db) : Sqlite.db :=
  Server.ensureMonthlyTasks TASKS Sqlite.getCurrentMonthTasks
    (fun month year assignments _ => Sqlite.createMonthlyTasks month year assignments)
    now d.

(** [POST /api/tasks/complete]; [session_user] is [req.session.user]'s
    username when the request is authenticated, [taskName] the body field. *)
Definition post_tasks_complete (session_user : option string)
  (taskName : option string) (now : instant) (d : Sqlite.db)
  : response * Sqlite.db :=
  match session_user with
  | None => (Json_error 401 "Authentication required", d)
  | Some username =>
      let month := getMonth now + 1 in
      let year := getFullYear now in
      match taskName with
      | None => (Json_error 400 "Task name required", d)
      | Some name =>
          if String.eqb name "" then (Json_error 400 "Task name required", d)
          else
            match Sqlite.completeTask name username month year now d with
            | (Resolved _, d') => (Json_success true, d')
            | (Rejected message, d') => (Json_error 400 message, d')
            | (Uncaught _, d') => (No_response, d')
            end
      end
  end.

End SqliteServer.

(** ** The JSON-file variant of database.js *)

Module JsonFile.

Module User.
Record row : Type := { id : Z; username : string; password_hash : string }.
End User.

(** [assigned_to] is absent ([None]) when the rotation produced [undefined];
    JSON.stringify drops such a property. *)
Module Task.
Record row : Type := {
  id : Z;
  name : string;
  assigned_to : option string;
  month : Z;
  year : Z;
  status : string;
  completed_at : option string
}.
End Task.

(** [report_data] is [JSON.stringify({ tasks: userTasks })], kept parsed. *)
Module Report.
Record row : Type := {
  id : float;
  user_id : Z;
  username : string;
  month : Z;
  year : Z;
  assigned_tasks : Z;
  completed_tasks : Z;
  completion_percentage : float;
  report_data : list Task.row;
  created_at : string
}.
End Report.

(** The content of data.json. *)
Record data : Type := {
  users : list User.row;
  tasks : list Task.row;
  monthly_reports : list Report.row
}.

Definition in_period (month year : Z) (t : Task.row) : bool :=
  (Task.month t =? month) && (Task.year t =? year).

Definition getCurrentMonthTasks (now : instant) (d : data) : list Task.row :=
  let month := getMonth now + 1 in
  let year := getFullYear now in
  filter (in_period month year) (tasks d).

Definition createMonthlyTasks (month year : Z)
  (assignments : JS.obj (option string)) (now : instant) (d : data)
  : list Task.row * data :=
  let newTasks :=
    map (fun '(index, (name, roommate)) =>
           {| Task.id := Date_now now + index; Task.name := name;
              Task.assigned_to := roommate; Task.month := month;
              Task.year := year; Task.status := "pending";
              Task.completed_at := None |})
        (JS.indexed (JS.Object_entries assignments)) in
  (newTasks,
   {| users := users d; tasks := tasks d ++ newTasks;
      monthly_reports := monthly_reports d |}).

(** [task.status = 'completed'; task.completed_at = new Date().toISOString()] *)
Definition mark_completed (now : instant) (t : Task.row) : Task.row :=
  {| Task.id := Task.id t; Task.name := Task.name t;
     Task.assigned_to := Task.assigned_to t; Task.month := Task.month t;
     Task.year := Task.year t; Task.status := "completed";
     Task.completed_at := Some (toISOString now) |}.

(** The mutation reaches the task that [find] returned: the first match. *)
Fixpoint set_completed (id : Z) (now : instant) (ts : list Task.row) : list Task.row :=
  match ts with
  | [] => []
  | t :: rest =>
      if Task.id t =? id then mark_completed now t :: rest
      else t :: set_completed id now rest
  end.

(** [taskId] is the value of [parseInt(taskId)]; [None] stands for NaN,
    which is equal to no id. *)
Definition completeTask (taskId : option Z) (now : instant) (d : data) : bool * data :=
  match taskId with
  | None => (false, d)
  | Some id =>
      match find (fun t => Task.id t =? id) (tasks d) with
      | Some _ =>
          (true,
           {| users := users d; tasks := set_completed id now (tasks d);
              monthly_reports := monthly_reports d |})
      | None => (false, d)
      end
  end.

Definition assigned_in (username : string) (month year : Z) (t : Task.row) : bool :=
  match Task.assigned_to t with
  | Some a => String.eqb a username
  | None => false
  end && (Task.month t =? month) && (Task.year t =? year).

(** [assignedCount > 0 ? (completedCount / assignedCount) * 100 : 100] *)
Definition completion_rate_of (assignedCount completedCount : Z) : float :=
  if assignedCount >? 0
  then PrimFloat.mul
         (PrimFloat.div (JS.number_of_Z completedCount) (JS.number_of_Z assignedCount))
         (JS.number_of_Z 100)
  else JS.number_of_Z 100.

(** The report built for one user; [rnd] is that call's [Math.random()]. *)
Definition report_for (month year : Z) (now : instant) (rnd : float)
  (all_tasks : list Task.row) (user : User.row) : Report.row :=
  let userTasks := filter (assigned_in (User.username user) month year) all_tasks in
  let assignedCount := Z.of_nat (List.length userTasks) in
  let completedCount :=
    Z.of_nat (List.length
                (filter (fun t => String.eqb (Task.status t) "completed") userTasks)) in
  let completionRate := completion_rate_of assignedCount completedCount in
  {| Report.id := PrimFloat.add (JS.number_of_Z (Date_now now)) rnd;
     Report.user_id := User.id user; Report.username := User.username user;
     Report.month := month; Report.year := year;
     Report.assigned_tasks := assignedCount;
     Report.completed_tasks := completedCount;
     Report.completion_percentage := completionRate;
     Report.report_data := userTasks;
     Report.created_at := toISOString now |}.

(** [random i] is the value [Math.random()] returns for the user at
    position [i].  Every report is pushed onto [data.monthly_reports]. *)
Definition generateAllMonthlyReports (month year : Z) (now : instant)
  (random : Z -> float) (d : data) : list Report.row * data :=
  let reports :=
    map (fun '(i, user) => report_for month year now (random i) (tasks d) user)
        (JS.indexed (users d)) in
  (reports,
   {| users := users d; tasks := tasks d;
      monthly_reports := monthly_reports d ++ reports |}).

Definition getMonthlyReport (userId month year : Z) (d : data) : option Report.row :=
  find (fun r => (Report.user_id r =? userId) && (Report.month r =? month)
                 && (Report.year r =? year))
       (monthly_reports d).

End JsonFile.

(** ** The JSON-file server file *)

Module JsonServer.

Definition TASKS : list string :=
  ["Kitchen Cleaning"; "Bathroom Cleaning"; "Hall Sweeping"; "Trash Removal"].

Definition calculateMonthlyAssignments (month year : Z) : JS.obj (option string) :=
  Server.calculateMonthlyAssignments TASKS month year.

Definition ensureMonthlyTasks (now : instant) (d : JsonFile.data) : JsonFile.data :=
  Server.ensureMonthlyTasks TASKS JsonFile.getCurrentMonthTasks
    (fun month year assignments now d =>
       snd (JsonFile.createMonthlyTasks month year assignments now d))
    now d.

(** [POST /api/tasks/complete]: the handler reads [taskId] from the body and
    passes nothing else; the session user only gates the route. *)
Definition post_tasks_complete (session_user : option string)
  (taskId : option Z) (now : instant) (d : JsonFile.data)
  : response * JsonFile.data :=
  match session_user with
  | None => (Json_error 401 "Authentication required", d)
  | Some _ =>
      let '(success, d') := JsonFile.completeTask taskId now d in
      (Json_success success, d')
  end.

End JsonServer.

(** ** Schema constraints of the SQLite tables *)

(** [UNIQUE(name, month, year)] on tasks. *)
Definition task_key (t : Sqlite.Task.row) : string * Z * Z :=
  (Sqlite.Task.name t, Sqlite.Task.month t, Sqlite.Task.year t).

Definition tasks_unique (d : Sqlite.db) : Prop :=
  NoDup (map task_key (Sqlite.tasks d)).

(** [UNIQUE(user_id, month, year)] on monthly_reports. *)
Definition report_key_of (r : Sqlite.Report.row) : Z * Z * Z :=
  (Sqlite.Report.user_id r, Sqlite.Report.month r, Sqlite.Report.year r).

Definition reports_unique (d : Sqlite.db) : Prop :=
  NoDup (map report_key_of (Sqlite.monthly_reports d)).

(** [username TEXT UNIQUE] on users. *)
Definition users_unique (d : Sqlite.db) : Prop :=
  NoDup (map Sqlite.User.username (Sqlite.users d)).

(** An entry whose INSERT OR IGNORE adds no row: its key is already in the
    table, or its assignee is missing. *)
Definition ignored_entry (month year : Z) (d : Sqlite.db)
  (entry : string * option string) : Prop :=
  match snd entry with
  | Some _ => existsb (Sqlite.has_key (fst entry) month year) (Sqlite.tasks d) = true
  | None => True
  end.

(** The database after INSERT OR IGNORE statements that added no row drew
    [n] ids: only the id counter of tasks moved. *)
Definition after_skipped (n : Z) (d : Sqlite.db) : Sqlite.db :=
  Sqlite.with_tasks d (Sqlite.tasks d) (Sqlite.tasks_seq d + n).

(** The same rows in every table; the id counters may differ. *)
Definition same_rows (d1 d2 : Sqlite.db) : Prop :=
  Sqlite.users d1 = Sqlite.users d2
  /\ Sqlite.tasks d1 = Sqlite.tasks d2
  /\ Sqlite.task_history d1 = Sqlite.task_history d2
  /\ Sqlite.monthly_reports d1 = Sqlite.monthly_reports d2.

(** Two clock readings in the same calendar month. *)
Definition same_period (now1 now2 : instant) : Prop :=
  getMonth now1 = getMonth now2 /\ getFullYear now1 = getFullYear now2.

(** The backend answered both statements of a report generation. *)
Definition succeeds (io : Sqlite.faults) : bool :=
  match Sqlite.select_err io, Sqlite.insert_err io with
  | None, None => true
  | _, _ => false
  end.

(** The aggregate numbers of a JSON-file report, with its key. *)
Definition json_numbers (r : JsonFile.Report.row) : Z * Z * Z * Z * Z * float :=
  (JsonFile.Report.user_id r, JsonFile.Report.month r, JsonFile.Report.year r,
   JsonFile.Report.assigned_tasks r, JsonFile.Report.completed_tasks r,
   JsonFile.Report.completion_percentage r).

(** ** The status listing as the specification words it *)

(** The period's tasks whose assigned-to is the user. *)
Definition spec_tasks (month year : Z) (d : Sqlite.db) (u : Sqlite.User.row)
  : list Sqlite.Task.row :=
  filter (fun t => String.eqb (Sqlite.Task.assigned_to t) (Sqlite.User.username u)
                   && (Sqlite.Task.month t =? month)
                   && (Sqlite.Task.year t =? year))
         (Sqlite.tasks d).

(** A task as an entry carries it: its name, completed flag and completion
    timestamp. *)
Definition spec_carried (t : Sqlite.Task.row) : Sqlite.task_view :=
  {| Sqlite.view_name := Sqlite.Task.name t;
     Sqlite.view_completed := Sqlite.Task.completed t;
     Sqlite.view_completedAt := Sqlite.Task.completed_at t |}.

(** The entry of a user: the user's name, and a task list that is exactly
    the user's tasks of the period, whatever their order. *)
Definition spec_entry (month year : Z) (d : Sqlite.db) (u : Sqlite.User.row)
  (entry : Sqlite.user_status) : Prop :=
  Sqlite.us_username entry = Sqlite.User.username u
  /\ Permutation (Sqlite.us_tasks entry) (map spec_carried (spec_tasks month year d u)).

(** [row.task_name] is truthy: the name is not the empty string. *)
Definition named (t : Sqlite.Task.row) : bool :=
  negb (String.eqb (Sqlite.Task.name t) "").

(** What the grouping loop builds for a user: the named tasks assigned to
    the user in the period, in the order of the join. *)
Definition grouped_status (month year : Z) (d : Sqlite.db) (u : Sqlite.User.row)
  : Sqlite.user_status :=
  {| Sqlite.us_username := Sqlite.User.username u;
     Sqlite.us_tasks :=
       map Sqlite.view_of
           (filter named
              (Sqlite.order_by_index
                 (filter (Sqlite.assigned_in (Sqlite.User.username u) month year)
                         (Sqlite.tasks d)))) |}.

(** The property the grouping loop keeps for user [k]. *)
Definition status_entry (k : string) (ts : list Sqlite.task_view)
  : string * Sqlite.user_status :=
  (k, {| Sqlite.us_username := k; Sqlite.us_tasks := ts |}).

(** ** Sample states: the roster's database in January 2026 *)

Definition jan5 : instant :=
  {| getMonth := 0; getFullYear := 2026;
     toISOString := "2026-01-05T10:00:00.000Z";
     Date_now := 1767607200000;
     CURRENT_TIMESTAMP := "2026-01-05 10:00:00" |}.

Definition jan9 : instant :=
  {| getMonth := 0; getFullYear := 2026;
     toISOString := "2026-01-09T18:30:00.000Z";
     Date_now := 1767983400000;
     CURRENT_TIMESTAMP := "2026-01-09 18:30:00" |}.

Definition sqlite_fresh : Sqlite.db :=
  {| Sqlite.users :=
       [ {| Sqlite.User.id := 1; Sqlite.User.username := "deepanshu";
            Sqlite.User.mobile_number := "7280892805" |};
         {| Sqlite.User.id := 2; Sqlite.User.username := "sonu";
            Sqlite.User.mobile_number := "8210658796" |};
         {| Sqlite.User.id := 3; Sqlite.User.username := "sachin";
            Sqlite.User.mobile_number := "9162130124" |};
         {| Sqlite.User.id := 4; Sqlite.User.username := "sintu";
            Sqlite.User.mobile_number := "9142018096" |} ];
     Sqlite.tasks := []; Sqlite.task_history := []; Sqlite.monthly_reports := [];
     Sqlite.tasks_seq := 0; Sqlite.task_history_seq := 0;
     Sqlite.monthly_reports_seq := 0 |}.

(** After the boot sequence of the SQLite server on 5 January 2026:
    "Kachra Fekna" is sonu's and "Pani Lana" is sachin's. *)
Definition sqlite_january : Sqlite.db :=
  Eval vm_compute in SqliteServer.ensureMonthlyTasks jan5 sqlite_fresh.

Definition json_fresh : JsonFile.data :=
  {| JsonFile.users :=
       [ {| JsonFile.User.id := 1; JsonFile.User.username := "deepanshu";
            JsonFile.User.password_hash := "$2b$10$deepanshu" |};
         {| JsonFile.User.id := 2; JsonFile.User.username := "sonu";
            JsonFile.User.password_hash := "$2b$10$sonu" |};
         {| JsonFile.User.id := 3; JsonFile.User.username := "sachin";
            JsonFile.User.password_hash := "$2b$10$sachin" |};
         {| JsonFile.User.id := 4; JsonFile.User.username := "sintu";
            JsonFile.User.password_hash := "$2b$10$sintu" |} ];
     JsonFile.tasks := []; JsonFile.monthly_reports := [] |}.

(** After the boot sequence of the JSON-file server on 5 January 2026: the
    four tasks go to sonu, sachin, sintu and deepanshu, in catalog order,
    with ids [Date.now() + index]. *)
Definition json_january : JsonFile.data :=
  Eval vm_compute in JsonServer.ensureMonthlyTasks jan5 json_fresh.

(** A hypothetical month in which sonu holds three tasks and has completed
    two of them (the rotation itself gives each roommate at most one). *)
Definition sonu_three : JS.obj (option string) :=
  [("Kitchen Cleaning", Some "sonu"); ("Bathroom Cleaning", Some "sonu");
   ("Hall Sweeping", Some "sonu")].

Definition sqlite_three_tasks : Sqlite.db :=
  Eval vm_compute in
    let d0 := Sqlite.createMonthlyTasks 1 2026 sonu_three sqlite_fresh in
    let d1 := snd (Sqlite.completeTask "Kitchen Cleaning" "sonu" 1 2026 jan5 d0) in
    snd (Sqlite.completeTask "Hall Sweeping" "sonu" 1 2026 jan9 d1).

Definition json_three_tasks : JsonFile.data :=
  Eval vm_compute in
    let d0 := snd (JsonFile.createMonthlyTasks 1 2026 sonu_three jan5 json_fresh) in
    let d1 := snd (JsonFile.completeTask (Some 1767607200000) jan5 d0) in
    snd (JsonFile.completeTask (Some 1767607200002) jan9 d1).

(** ** The completion percentage as the specification words it *)

(** [round(100 * completed / assigned)]: the nearest integer, a tie going
    up, computed on the exact quotient. *)
Definition spec_percentage (assigned completed : Z) : Z :=
  (200 * completed + assigned) / (2 * assigned).

(** The counts on which the binary64 computation is checked case by case:
    1 to 39 assigned tasks. *)
Definition percentage_cases : list (Z * Z) :=
  flat_map (fun a => map (fun c => (Z.of_nat a, Z.of_nat c)) (seq 0 (a + 1)))
           (seq 1 39).

(** ** The rotation as the specification words it *)

(** The assignee of the task at catalog index [i]:
    [roster[(seed + i) mod |roster|]] with [seed = year*12 + month]. *)
Definition spec_assignee (month year i : Z) : option string :=
  nth_error ROOMMATES
    (Z.to_nat ((year * 12 + month + i) mod Z.of_nat (List.length ROOMMATES))).

Definition spec_assignments (catalog : list string) (month year : Z)
  : JS.obj (option string) :=
  map (fun '(i, task) => (task, spec_assignee month year i)) (JS.indexed catalog).

(** The tasks a mapping gives to roommate [r]. *)
Definition tasks_of (assignments : JS.obj (option string)) (r : string) : list string :=
  map fst
    (filter (fun e => match snd e with
                      | Some u => String.eqb u r
                      | None => false
                      end) assignments).

(** ** The calendar step between two monthly runs *)

(** The (month, year) the clock gives one calendar month later. *)
Definition next_month (month year : Z) : Z * Z :=
  if month =? 12 then (1, year + 1) else (month + 1, year).

(** A list with its first element moved to the end. *)
Definition rotate_left {A : Type} (l : list A) : list A :=
  match l with
  | [] => []
  | x :: rest => rest ++ [x]
  end.

(** ** Row-level invariants of the SQLite tasks table *)

(** What may happen to a task row: its id, name, assignee and period stay,
    and a completed row stays completed. *)
Definition task_kept (t t' : Sqlite.Task.row) : Prop :=
  Sqlite.Task.id t' = Sqlite.Task.id t
  /\ Sqlite.Task.name t' = Sqlite.Task.name t
  /\ Sqlite.Task.assigned_to t' = Sqlite.Task.assigned_to t
  /\ Sqlite.Task.month t' = Sqlite.Task.month t
  /\ Sqlite.Task.year t' = Sqlite.Task.year t
  /\ (Sqlite.Task.completed t = true -> Sqlite.Task.completed t' = true).

(** The primary key of tasks under AUTOINCREMENT: distinct ids, none above
    the counter. *)
Definition task_ids_wf (d : Sqlite.db) : Prop :=
  NoDup (map Sqlite.Task.id (Sqlite.tasks d))
  /\ forall t, In t (Sqlite.tasks d) -> Sqlite.Task.id t <= Sqlite.tasks_seq d.

(** A row as INSERT OR IGNORE creates it in the given period. *)
Definition fresh_task (month year : Z) (t : Sqlite.Task.row) : Prop :=
  Sqlite.Task.month t = month /\ Sqlite.Task.year t = year
  /\ Sqlite.Task.completed t = false /\ Sqlite.Task.completed_at t = None.

(** ** The read queries of the SQLite variant *)

Module SqliteQueries.

(** [LIMIT n] for a 64-bit integer [n]: the first [n] rows; a negative [n]
    sets no limit. *)
Definition limit {A : Type} (n : Z) (rows : list A) : list A :=
  if n <? 0 then rows else firstn (Z.to_nat n) rows.

(** A JavaScript number bound to [LIMIT ?]: one with an integer value, or
    one that is no integer (a fraction, an infinity, NaN). *)
Inductive bound_number : Type :=
| Integer (n : Z)
| Not_integer.

(** LIMIT takes a 64-bit integer.  SQLite converts the bound number when
    that loses nothing and the value lies strictly between -2^63 and 2^63;
    any other number ends the statement with SQLITE_MISMATCH. *)
Definition limit_value (x : bound_number) : option Z :=
  match x with
  | Integer n => if (- 2 ^ 63 <? n) && (n <? 2 ^ 63) then Some n else None
  | Not_integer => None
  end.

Definition datatype_mismatch : string := "SQLITE_MISMATCH: datatype mismatch".

(** [ORDER BY]: [before x y] holds when [x] may stand before [y].  Rows the
    order does not separate, which SQL may return in any order, are kept
    here in the order they come in. *)
Fixpoint insert_by {A : Type} (before : A -> A -> bool) (x : A) (l : list A) : list A :=
  match l with
  | [] => [x]
  | y :: rest => if before x y then x :: l else y :: insert_by before x rest
  end.

Definition order_by {A : Type} (before : A -> A -> bool) (l : list A) : list A :=
  fold_right (insert_by before) [] l.

(** A row of getTaskHistory: [th.*, t.name as task_name, t.month, t.year]. *)
Record history_row : Type := {
  id : Z; task_id : Z; username : string; action : string; timestamp : string;
  task_name : string; month : Z; year : Z
}.

Definition join_row (th : Sqlite.History.row) (t : Sqlite.Task.row) : history_row :=
  {| id := Sqlite.History.id th; task_id := Sqlite.History.task_id th;
     username := Sqlite.History.username th; action := Sqlite.History.action th;
     timestamp := Sqlite.History.timestamp th;
     task_name := Sqlite.Task.name t; month := Sqlite.Task.month t;
     year := Sqlite.Task.year t |}.

(** [task_history th JOIN tasks t ON th.task_id = t.id] *)
Definition history_join (d : Sqlite.db) : list history_row :=
  flat_map
    (fun th =>
       map (join_row th)
           (filter (fun t => Sqlite.History.task_id th =? Sqlite.Task.id t)
                   (Sqlite.tasks d)))
    (Sqlite.task_history d).

(** [ORDER BY th.timestamp DESC] *)
Definition newer_first (a b : history_row) : bool :=
  String.leb (timestamp b) (timestamp a).

(** [n] is the limit as a 64-bit integer; the server passes 50. *)
Definition getTaskHistory (n : Z) (d : Sqlite.db) : list history_row :=
  limit n (order_by newer_first (history_join d)).

(** [ORDER BY year DESC, month DESC] *)
Definition later_period (a b : Sqlite.Report.row) : bool :=
  (Sqlite.Report.year b <? Sqlite.Report.year a)
  || ((Sqlite.Report.year b =? Sqlite.Report.year a)
      && (Sqlite.Report.month b <=? Sqlite.Report.month a)).

(** [limit] is what the caller passes, [parseInt(req.query.limit) || 12] in
    the server: any number a client chooses. *)
Definition getUserMonthlyReports (userId : Z) (limit : bound_number) (d : Sqlite.db)
  : result (list Sqlite.Report.row) :=
  match limit_value limit with
  | None => Rejected datatype_mismatch
  | Some n =>
      Resolved
        (SqliteQueries.limit n
           (order_by later_period
              (filter (fun r => Sqlite.Report.user_id r =? userId)
                      (Sqlite.monthly_reports d))))
  end.

(** [WHERE month = ? AND year = ?] on monthly_reports. *)
Definition report_in_period (month year : Z) (r : Sqlite.Report.row) : bool :=
  (Sqlite.Report.month r =? month) && (Sqlite.Report.year r =? year).

(** [ORDER BY completion_percentage DESC] *)
Definition higher_percentage (a b : Sqlite.Report.row) : bool :=
  PrimFloat.leb (Sqlite.Report.completion_percentage b)
                (Sqlite.Report.completion_percentage a).

Definition getAllMonthlyReports (month year : Z) (d : Sqlite.db)
  : list Sqlite.Report.row :=
  order_by higher_percentage
    (filter (report_in_period month year) (Sqlite.monthly_reports d)).

End SqliteQueries.

(** A monthly_reports row that reflects the task table [ts] for its user in
    the period, as generated at [now]. *)
Definition report_current (now : instant) (month year : Z)
  (ts : list Sqlite.Task.row) (r : Sqlite.Report.row) : Prop :=
  Sqlite.Report.month r = month /\ Sqlite.Report.year r = year
  /\ Sqlite.Report.tasks_assigned r
     = Z.of_nat (List.length
                   (filter (Sqlite.assigned_in (Sqlite.Report.username r) month year) ts))
  /\ Sqlite.Report.tasks_completed r
     = Z.of_nat (List.length
                   (filter Sqlite.Task.completed
                      (filter (Sqlite.assigned_in (Sqlite.Report.username r) month year)
                              ts)))
  /\ Sqlite.Report.completion_percentage r
     = Sqlite.completion_percentage_of (Sqlite.Report.tasks_assigned r)
         (Sqlite.Report.tasks_completed r)
  /\ Sqlite.Report.created_at r = CURRENT_TIMESTAMP now.

(** The database after one user's report is generated without fault. *)
Definition after_report (now : instant) (month year : Z) (d : Sqlite.db)
  (u : Sqlite.User.row) : Sqlite.db :=
  snd (Sqlite.generateMonthlyReport Sqlite.no_faults now (Sqlite.User.id u)
         (Sqlite.User.username u) month year d).

(** ** The calendar test of the end-of-month job *)

Module Calendar.

Definition leap (year : Z) : bool :=
  ((year mod 4 =? 0) && negb (year mod 100 =? 0)) || (year mod 400 =? 0).

(** Days of the month [month0] (0-based, as [getMonth()]) of [year]. *)
Definition days_in_month (year month0 : Z) : Z :=
  if month0 =? 1 then (if leap year then 29 else 28)
  else if (month0 =? 3) || (month0 =? 5) || (month0 =? 8) || (month0 =? 10)
       then 30 else 31.

(** [tomorrow.setDate(tomorrow.getDate() + 1); tomorrow.getDate()] for a
    date whose day of the month is [day]: a day past the month's end is
    carried into the next month. *)
Definition getDate_of_tomorrow (year month0 day : Z) : Z :=
  if day + 1 <=? days_in_month year month0 then day + 1
  else day + 1 - days_in_month year month0.

End Calendar.

(** ** More of the SQLite server file *)

Module SqliteRoutes.

(** What [GET /api/reports/current] answers: the stored row, a report just
    generated, or an error. *)
Inductive report_response : Type :=
| Stored (row : Sqlite.Report.row)
| Generated (report : Sqlite.report)
| Report_error (status : Z) (error : string)
| Report_no_response.

(** [session] is [req.session.user] as [(id, username)]. *)
Definition get_reports_current (session : option (Z * string)) (io : Sqlite.faults)
  (now : instant) (d : Sqlite.db) : report_response * Sqlite.db :=
  match session with
  | None => (Report_error 401 "Authentication required", d)
  | Some (userId, username) =>
      let month := getMonth now + 1 in
      let year := getFullYear now in
      match Sqlite.getMonthlyReport userId month year d with
      | Some report => (Stored report, d)
      | None =>
          (* If report doesn't exist, generate it *)
          match Sqlite.generateMonthlyReport io now userId username month year d with
          | (Resolved report, d') => (Generated report, d')
          | (Rejected message, d') => (Report_error 500 message, d')
          | (Uncaught _, d') => (Report_no_response, d')
          end
      end
  end.

(** The job scheduled at 23:55 on the days 28 to 31; [day] is
    [now.getDate()].  It returns what generateAllMonthlyReports gave when it
    ran, [None] when the day is not the month's last. *)
Definition monthly_report_job (day : Z) (users_err : option string)
  (io_of : Sqlite.User.row -> Sqlite.faults) (now : instant) (d : Sqlite.db)
  : option (result (list Sqlite.report)) * Sqlite.db :=
  if Calendar.getDate_of_tomorrow (getFullYear now) (getMonth now) day =? 1
  then
    let month := getMonth now + 1 in
    let year := getFullYear now in
    let '(reports, d') :=
      Sqlite.generateAllMonthlyReports users_err io_of now month year d in
    (Some reports, d')
  else (None, d).

End SqliteRoutes.

(** ** The runtime's string and bcrypt functions

    [toLowerCase] is String.prototype.toLowerCase; [bcrypt_hash password
    salt] is the hash bcrypt makes of a password with the salt it drew, and
    [bcrypt_compare password hash] is bcrypt.compare. *)
Record runtime : Type := {
  toLowerCase : string -> string;
  bcrypt_hash : string -> string -> string;
  bcrypt_compare : string -> string -> bool
}.

Definition invalid_login : string := "Invalid username or password".

(** ** More of the JSON-file variant of database.js *)

Module JsonQueries.

(** [{ id, username, password }] of [defaultUsers]. *)
Definition defaultUsers : list (Z * (string * string)) :=
  [(1, ("deepanshu", "deep123")); (2, ("sonu", "sonu123"));
   (3, ("sachin", "sachin123")); (4, ("sintu", "sintu123"))].

(** [genSalt index] is the salt drawn for the user at position [index]. *)
Definition createDefaultUsers (rt : runtime) (genSalt : Z -> string)
  (d : JsonFile.data) : JsonFile.data :=
  if Z.of_nat (List.length (JsonFile.users d)) >? 0 then d
  else
    {| JsonFile.users :=
         JsonFile.users d ++
         map (fun '(index, (id, (username, password))) =>
                {| JsonFile.User.id := id; JsonFile.User.username := username;
                   JsonFile.User.password_hash :=
                     bcrypt_hash rt password (genSalt index) |})
             (JS.indexed defaultUsers);
       JsonFile.tasks := JsonFile.tasks d;
       JsonFile.monthly_reports := JsonFile.monthly_reports d |}.

(** Resolves with [{ id, username }]. *)
Definition authenticateUser (rt : runtime) (username password : string)
  (d : JsonFile.data) : result (Z * string) :=
  match find (fun u => String.eqb (JsonFile.User.username u) (toLowerCase rt username))
             (JsonFile.users d) with
  | None => Rejected invalid_login
  | Some user =>
      if bcrypt_compare rt password (JsonFile.User.password_hash user)
      then Resolved (JsonFile.User.id user, JsonFile.User.username user)
      else Rejected invalid_login
  end.

Record user_counts : Type := {
  username : string;
  pendingTasks : Z;
  completedTasks : Z
}.

Definition has_status (s : string) (t : JsonFile.Task.row) : bool :=
  String.eqb (JsonFile.Task.status t) s.

Definition getAllUsersStatus (now : instant) (d : JsonFile.data) : list user_counts :=
  let month := getMonth now + 1 in
  let year := getFullYear now in
  map (fun user =>
         let userTasks :=
           filter (JsonFile.assigned_in (JsonFile.User.username user) month year)
                  (JsonFile.tasks d) in
         {| username := JsonFile.User.username user;
            pendingTasks :=
              Z.of_nat (List.length (filter (has_status "pending") userTasks));
            completedTasks :=
              Z.of_nat (List.length (filter (has_status "completed") userTasks)) |})
      (JsonFile.users d).

End JsonQueries.

(** ** More of the JSON-file server file *)

Module JsonRoutes.

Inductive login_response : Type :=
| Login_success (id : Z) (username : string)
| Login_error (status : Z) (error : string).

(** [POST /api/login]: the body fields are [None] when absent.  The second
    component is [req.session.user] after the request. *)
Definition post_login (rt : runtime) (username password : option string)
  (session : option (Z * string)) (d : JsonFile.data)
  : login_response * option (Z * string) :=
  match username, password with
  | Some name, Some pass =>
      if String.eqb name "" || String.eqb pass ""
      then (Login_error 400 "Username and password required", session)
      else
        match JsonQueries.authenticateUser rt name pass d with
        | Resolved user => (Login_success (fst user) (snd user), Some user)
        | Rejected message => (Login_error 401 message, session)
        | Uncaught message => (Login_error 401 message, session)
        end
  | _, _ => (Login_error 400 "Username and password required", session)
  end.

End JsonRoutes.

(** The calls of the JSON-file module that write data.json. *)
Inductive json_call : Type :=
| Call_createDefaultUsers (rt : runtime) (genSalt : Z -> string)
| Call_createMonthlyTasks (month year : Z) (assignments : JS.obj (option string))
    (now : instant)
| Call_completeTask (taskId : option Z) (now : instant)
| Call_generateAllMonthlyReports (month year : Z) (now : instant)
    (random : Z -> float).

Definition json_run (d : JsonFile.data) (call : json_call) : JsonFile.data :=
  match call with
  | Call_createDefaultUsers rt genSalt => JsonQueries.createDefaultUsers rt genSalt d
  | Call_createMonthlyTasks month year assignments now =>
      snd (JsonFile.createMonthlyTasks month year assignments now d)
  | Call_completeTask taskId now => snd (JsonFile.completeTask taskId now d)
  | Call_generateAllMonthlyReports month year now random =>
      snd (JsonFile.generateAllMonthlyReports month year now random d)
  end.

(** Every task is "pending" or "completed". *)
Definition status_wf (d : JsonFile.data) : Prop :=
  Forall (fun t => JsonFile.Task.status t = "pending"
                   \/ JsonFile.Task.status t = "completed")
         (JsonFile.tasks d).

(** A user's number of tasks with status [s] in a month, as
    getAllUsersStatus counts them. *)
Definition status_count (month year : Z) (s name : string)
  (ts : list JsonFile.Task.row) : Z :=
  Z.of_nat (List.length
              (filter (JsonQueries.has_status s)
                      (filter (JsonFile.assigned_in name month year) ts))).

(** The status entry of a user after one of the user's pending tasks was
    completed. *)
Definition one_completed (u : string) (e : JsonQueries.user_counts)
  : JsonQueries.user_counts :=
  if String.eqb (JsonQueries.username e) u
  then {| JsonQueries.username := JsonQueries.username e;
          JsonQueries.pendingTasks := JsonQueries.pendingTasks e - 1;
          JsonQueries.completedTasks := JsonQueries.completedTasks e + 1 |}
  else e.

(** A toy runtime for examples: ASCII lower-casing, and a "hash" that is the
    salt followed by the password. *)
Definition lower_ascii (c : ascii) : ascii :=
  let n := N_of_ascii c in
  if ((65 <=? n) && (n <=? 90))%N then ascii_of_N (n + 32) else c.

Fixpoint lower_string (s : string) : string :=
  match s with
  | EmptyString => EmptyString
  | String c rest => String (lower_ascii c) (lower_string rest)
  end.

Fixpoint ends_with (suffix s : string) : bool :=
  String.eqb s suffix
  || match s with
     | EmptyString => false
     | String _ rest => ends_with suffix rest
     end.

Definition toy_runtime : runtime :=
  {| toLowerCase := lower_string;
     bcrypt_hash := fun password salt => (salt ++ password)%string;
     bcrypt_compare := fun password hash => ends_with password hash |}.

(** ** Accounts in the SQLite variant of database.js

    The users table with its password_hash column (created_at is read by
    none of the functions and left out); [seq] is the table's AUTOINCREMENT
    counter. *)

Module SqliteAuth.

Record user_row : Type := {
  id : Z;
  username : string;
  mobile_number : string;
  password_hash : string
}.

Record users_table : Type := { rows : list user_row; seq : Z }.

Definition empty_table : users_table := {| rows := []; seq := 0 |}.

Fixpoint all_digits (s : string) : bool :=
  match s with
  | EmptyString => true
  | String c rest =>
      match JS.digit_of c with
      | Some _ => all_digits rest
      | None => false
      end
  end.

(** [/^[0-9]{10}$/.test(mobileNumber)] *)
Definition mobileRegex_test (mobileNumber : string) : bool :=
  (String.length mobileNumber =? 10)%nat && all_digits mobileNumber.

(** A row that breaks UNIQUE(username) or UNIQUE(mobile_number) for the
    values to be inserted. *)
Definition taken (name mobileNumber : string) (u : user_row) : bool :=
  String.eqb (username u) name || String.eqb (mobile_number u) mobileNumber.

Definition missing_input (username password mobileNumber : string) : bool :=
  String.eqb username "" || String.eqb password "" || String.eqb mobileNumber "".

(** [salt] is the salt bcrypt.hash draws.  Resolves with
    [{ id: this.lastID, username, mobileNumber }]. *)
Definition registerUser (rt : runtime) (salt : string)
  (username password mobileNumber : string) (t : users_table)
  : result (Z * (string * string)) * users_table :=
  if missing_input username password mobileNumber
  then (Rejected "Username, password, and mobile number are required", t)
  else if negb (mobileRegex_test mobileNumber)
  then (Rejected "Invalid mobile number format. Must be 10 digits.", t)
  else
    let name := toLowerCase rt username in
    if existsb (taken name mobileNumber) (rows t)
    then (Rejected "Username or mobile number already exists", t)
    else
      let lastID := seq t + 1 in
      (Resolved (lastID, (username, mobileNumber)),
       {| rows := rows t ++ [ {| id := lastID; username := name;
                                 mobile_number := mobileNumber;
                                 password_hash := bcrypt_hash rt password salt |} ];
          seq := lastID |}).

(** [SELECT * FROM users WHERE username = ?]; resolves with
    [{ id, username }]. *)
Definition authenticateUser (rt : runtime) (username password : string)
  (t : users_table) : result (Z * string) :=
  match find (fun u => String.eqb (SqliteAuth.username u) username) (rows t) with
  | None => Rejected invalid_login
  | Some user =>
      if bcrypt_compare rt password (password_hash user)
      then Resolved (id user, SqliteAuth.username user)
      else Rejected invalid_login
  end.

(** [{ username, mobile, password }] of [defaultUsers]. *)
Definition defaultUsers : list (string * (string * string)) :=
  [("deepanshu", ("7280892805", "deep123")); ("sonu", ("8210658796", "sonu123"));
   ("sachin", ("9162130124", "sachin123")); ("sintu", ("9142018096", "sintu123"))].

(** One turn of the loop: a rejected registration is skipped. *)
Definition register_default (rt : runtime) (salts : Z -> string) (t : users_table)
  (entry : Z * (string * (string * string))) : users_table :=
  let '(index, (username, (mobile, password))) := entry in
  snd (registerUser rt (salts index) username password mobile t).

Definition createDefaultUsers (rt : runtime) (salts : Z -> string)
  (t : users_table) : users_table :=
  fold_left (register_default rt salts) (JS.indexed defaultUsers) t.

Inductive login_response : Type :=
| Login_success (username : string) (mobileNumber : option string) (userId : Z)
| Login_error (status : Z) (error : string).

(** [POST /api/login] of the SQLite server: the body fields are [None] when
    absent; the answer's [mobileNumber] is [user.mobileNumber] of what
    authenticateUser resolved with.  The second component is
    [req.session.user] after the request. *)
Definition post_login (rt : runtime) (mobileNumber password : option string)
  (session : option (Z * string)) (t : users_table)
  : login_response * option (Z * string) :=
  match mobileNumber, password with
  | Some mobile, Some pass =>
      if String.eqb mobile "" || String.eqb pass ""
      then (Login_error 400 "Mobile number and password required", session)
      else
        match authenticateUser rt mobile pass t with
        | Resolved user => (Login_success (snd user) None (fst user), Some user)
        | Rejected message => (Login_error 401 message, session)
        | Uncaught message => (Login_error 401 message, session)
        end
  | _, _ => (Login_error 400 "Mobile number and password required", session)
  end.

End SqliteAuth.

(** A registration that changes nothing: the input is refused, or a row
    holds the name or the number. *)
Definition blocked (rt : runtime) (t : SqliteAuth.users_table)
  (entry : string * (string * string)) : bool :=
  let '(username, (mobile, password)) := entry in
  SqliteAuth.missing_input username password mobile
  || negb (SqliteAuth.mobileRegex_test mobile)
  || existsb (SqliteAuth.taken (toLowerCase rt username) mobile) (SqliteAuth.rows t).

(** Every stored username is in lower case. *)
Definition lowercased (rt : runtime) (t : SqliteAuth.users_table) : Prop :=
  forall row, In row (SqliteAuth.rows t) ->
    toLowerCase rt (SqliteAuth.username row) = SqliteAuth.username row.

Definition bcrypt_accepts_own_hash (rt : runtime) : Prop :=
  forall password salt, bcrypt_compare rt password (bcrypt_hash rt password salt) = true.

(** * Properties *)

(** ** JavaScript arithmetic *)

(** [Math.round] on halves and near them: ties go up, also below zero. *)
Example Math_round_examples :
  JS.Math_round 2.5%float = 3%float
  /\ JS.Math_round (-2.5)%float = (-2)%float
  /\ JS.Math_round 0x1.fffffffffffffp-2%float = 0%float
  /\ JS.Math_round 66.5%float = 67%float
  /\ JS.Math_round (PrimFloat.mul (PrimFloat.div 2%float 3%float) 100%float) = 67%float
  /\ JS.rem (-11) 4 = -3 /\ JS.rem 24313 4 = 1.
Proof. repeat split; reflexivity. Qed.

(** ** Rotation *)

Lemma obj_set_fresh {V : Type} (o : JS.obj V) (k : string) (v : V) :
  ~ In k (map fst o) -> JS.obj_set o k v = o ++ [(k, v)].
Proof.
  induction o as [|[k' v'] o IH]; simpl; intros Hk; [reflexivity|].
  destruct (String.eqb_spec k' k) as [->|_].
  - exfalso. apply Hk. now left.
  - f_equal. apply IH. intros H. apply Hk. now right.
Qed.

Lemma indexed_from_snd {A : Type} (l : list A) (start : Z) :
  map snd (JS.indexed_from start l) = l.
Proof.
  revert start. induction l as [|x l IH]; simpl; intros; [reflexivity|].
  now rewrite IH.
Qed.

(** The [forEach] loop adds one property per catalog entry, in catalog
    order, when the catalog has no repeated name. *)
Lemma fold_assign_step (seed : Z) (l : list string) :
  forall (start : Z) (acc : JS.obj (option string)),
    NoDup l ->
    (forall t, In t l -> ~ In t (map fst acc)) ->
    fold_left (Server.assign_step seed) (JS.indexed_from start l) acc
    = acc ++ map (fun '(i, task) =>
                    (task, JS.array_get ROOMMATES
                             (JS.rem (seed + i) (Z.of_nat (List.length ROOMMATES)))))
                 (JS.indexed_from start l).
Proof.
  induction l as [|t l IH]; intros start acc Hnd Hfresh; simpl.
  - now rewrite app_nil_r.
  - inversion Hnd as [|? ? Hnotin Hnd']; subst.
    rewrite obj_set_fresh by (apply Hfresh; now left).
    rewrite IH; [now rewrite <- app_assoc| assumption |].
    intros t' Hin. rewrite map_app, in_app_iff. simpl.
    intros [H|[H|[]]].
    + apply (Hfresh t'); [now right | assumption].
    + subst t'. contradiction.
Qed.

Lemma calculateMonthlyAssignments_js (catalog : list string) (month year : Z) :
  NoDup catalog ->
  Server.calculateMonthlyAssignments catalog month year
  = map (fun '(i, task) =>
           (task, JS.array_get ROOMMATES
                    (JS.rem (year * 12 + month + i) (Z.of_nat (List.length ROOMMATES)))))
        (JS.indexed catalog).
Proof.
  intros Hnd. unfold Server.calculateMonthlyAssignments, JS.indexed.
  rewrite fold_assign_step; [reflexivity | assumption | intros ? _ []].
Qed.

Lemma indexed_from_nonneg {A : Type} (l : list A) :
  forall start i x, 0 <= start -> In (i, x) (JS.indexed_from start l) -> 0 <= i.
Proof.
  induction l as [|y l IH]; simpl; intros start i x Hs; [intros []|].
  intros [H|H].
  - inversion H; subst; assumption.
  - apply (IH (start + 1) i x); [lia | assumption].
Qed.

(** On a non-negative seed JavaScript's [%] and array indexing agree with
    the mathematical [mod] and the roster lookup. *)
Lemma js_index_spec (month year i : Z) :
  0 <= year * 12 + month -> 0 <= i ->
  JS.array_get ROOMMATES
    (JS.rem (year * 12 + month + i) (Z.of_nat (List.length ROOMMATES)))
  = spec_assignee month year i.
Proof.
  intros Hs Hi. unfold JS.array_get, JS.rem, spec_assignee.
  rewrite Z.rem_mod_nonneg by (simpl; lia).
  assert (H : 0 <= (year * 12 + month + i) mod Z.of_nat (List.length ROOMMATES))
    by (apply Z.mod_pos_bound; simpl; lia).
  destruct (Z.ltb_spec ((year * 12 + month + i) mod Z.of_nat (List.length ROOMMATES)) 0);
    [lia | reflexivity].
Qed.

Lemma calculateMonthlyAssignments_spec (catalog : list string) (month year : Z) :
  NoDup catalog -> 0 <= year * 12 + month ->
  Server.calculateMonthlyAssignments catalog month year
  = spec_assignments catalog month year.
Proof.
  intros Hnd Hs. rewrite calculateMonthlyAssignments_js by assumption.
  unfold spec_assignments. apply map_ext_in. intros [i task] Hin.
  f_equal. apply js_index_spec; [assumption|].
  eapply indexed_from_nonneg; [|exact Hin]. lia.
Qed.

Lemma NoDup_JsonServer_TASKS : NoDup JsonServer.TASKS.
Proof.
  unfold JsonServer.TASKS.
  repeat (constructor; [simpl; intros H; repeat destruct H as [H|H]; discriminate || exact H|]).
  constructor.
Qed.

Lemma NoDup_SqliteServer_TASKS : NoDup SqliteServer.TASKS.
Proof.
  unfold SqliteServer.TASKS.
  repeat (constructor; [simpl; intros H; repeat destruct H as [H|H]; discriminate || exact H|]).
  constructor.
Qed.

(** C3.  calculateMonthlyAssignments is a function of (month, year) alone:
    with seed = year*12 + month, the task at catalog index i is mapped to
    ROOMMATES[(seed + i) % 4] (for both catalogs, first conjunct); on every
    non-negative seed, hence for every month 1..12 of every year from 0 on,
    that is roster[(seed + i) mod |roster|] as the specification words it
    (second conjunct); and for month 1 of 2026 the seed is 24313, the task at
    index 0 goes to roster[1] = sonu and the task at index 1 to
    roster[2] = sachin. *)
Theorem C3_rotation_is_seed_plus_index_mod_roster :
  (forall month year : Z,
      JsonServer.calculateMonthlyAssignments month year
      = map (fun '(i, task) =>
               (task, JS.array_get ROOMMATES (JS.rem (year * 12 + month + i) 4)))
            (JS.indexed JsonServer.TASKS)
      /\ SqliteServer.calculateMonthlyAssignments month year
         = map (fun '(i, task) =>
                  (task, JS.array_get ROOMMATES (JS.rem (year * 12 + month + i) 4)))
               (JS.indexed SqliteServer.TASKS))
  /\ (forall month year : Z,
         0 <= year * 12 + month ->
         JsonServer.calculateMonthlyAssignments month year
         = spec_assignments JsonServer.TASKS month year
         /\ SqliteServer.calculateMonthlyAssignments month year
            = spec_assignments SqliteServer.TASKS month year)
  /\ 2026 * 12 + 1 = 24313
  /\ JS.rem 24313 4 = 1 /\ JS.rem 24314 4 = 2
  /\ JS.array_get JsonServer.TASKS 0 = Some "Kitchen Cleaning"
  /\ JS.array_get JsonServer.TASKS 1 = Some "Bathroom Cleaning"
  /\ JS.obj_get (JsonServer.calculateMonthlyAssignments 1 2026) "Kitchen Cleaning"
     = Some (Some "sonu")
  /\ JS.obj_get (JsonServer.calculateMonthlyAssignments 1 2026) "Bathroom Cleaning"
     = Some (Some "sachin").
Proof.
  split; [|split].
  - intros month year. split.
    + apply (calculateMonthlyAssignments_js JsonServer.TASKS month year
               NoDup_JsonServer_TASKS).
    + apply (calculateMonthlyAssignments_js SqliteServer.TASKS month year
               NoDup_SqliteServer_TASKS).
  - intros month year Hseed. split.
    + apply calculateMonthlyAssignments_spec;
        [exact NoDup_JsonServer_TASKS | assumption].
    + apply calculateMonthlyAssignments_spec;
        [exact NoDup_SqliteServer_TASKS | assumption].
  - repeat split; reflexivity.
Qed.

Lemma C3_rotation_witness :
  0 <= 2026 * 12 + 1
  /\ JsonServer.calculateMonthlyAssignments 1 2026
     = [("Kitchen Cleaning", Some "sonu"); ("Bathroom Cleaning", Some "sachin");
        ("Hall Sweeping", Some "sintu"); ("Trash Removal", Some "deepanshu")].
Proof.
  split; [lia|].
  rewrite (proj1 (proj1 (proj2 C3_rotation_is_seed_plus_index_mod_roster)
                    1 2026 ltac:(lia))).
  reflexivity.
Defined.

(** The four consecutive residues starting at [r] give the four roommates. *)
Lemma spec_assignee_shift (month year i : Z) :
  spec_assignee month year i
  = nth_error ROOMMATES (Z.to_nat (((year * 12 + month) mod 4 + i) mod 4)).
Proof.
  unfold spec_assignee. simpl (Z.of_nat _).
  now rewrite Z.add_mod_idemp_l by lia.
Qed.

(** C10.  With the 4-entry roster and the 4-entry catalog of the JSON-file
    server, every month's mapping (on a non-negative seed, i.e. for every
    month of every year from 0 on) hands the four tasks to four pairwise
    distinct roommates: the assignees are a permutation of the roster, and
    each roommate receives exactly one task. *)
Theorem C10_each_roommate_gets_exactly_one_task (month year : Z) :
  0 <= year * 12 + month ->
  let assignments := JsonServer.calculateMonthlyAssignments month year in
  List.length assignments = 4%nat
  /\ NoDup (map snd assignments)
  /\ Permutation (map snd assignments) (map Some ROOMMATES)
  /\ forall r, In r ROOMMATES -> List.length (tasks_of assignments r) = 1%nat.
Proof.
  intros Hseed assignments. subst assignments.
  unfold JsonServer.calculateMonthlyAssignments.
  rewrite (calculateMonthlyAssignments_spec _ _ _ NoDup_JsonServer_TASKS Hseed).
  unfold spec_assignments, JsonServer.TASKS, JS.indexed. simpl JS.indexed_from.
  cbv beta iota zeta delta [map].
  rewrite !spec_assignee_shift.
  assert (Hr : 0 <= (year * 12 + month) mod 4 < 4) by (apply Z.mod_pos_bound; lia).
  set (r := (year * 12 + month) mod 4) in *.
  assert (Hcases : r = 0 \/ r = 1 \/ r = 2 \/ r = 3) by lia.
  clearbody r.
  destruct Hcases as [-> | [-> | [-> | ->]]]; vm_compute;
    (split; [reflexivity|]);
    (split; [repeat (constructor;
                     [simpl; intros H; repeat destruct H as [H|H];
                      discriminate || exact H|]); constructor|]);
    (split; [|intros r' Hin; repeat destruct Hin as [Hin|Hin];
              try subst r'; try reflexivity; contradiction]).
  - apply Permutation_refl.
  - eapply perm_trans; [|apply Permutation_sym, Permutation_cons_append]. simpl.
    apply Permutation_refl.
  - change [Some "sachin"; Some "sintu"; Some "deepanshu"; Some "sonu"]
      with ([Some "sachin"; Some "sintu"] ++ [Some "deepanshu"; Some "sonu"]).
    apply Permutation_app_comm.
  - apply (Permutation_cons_append [Some "deepanshu"; Some "sonu"; Some "sachin"]
             (Some "sintu")).
Qed.

Lemma C10_witness_january_2026 :
  0 <= 2026 * 12 + 1
  /\ Permutation (map snd (JsonServer.calculateMonthlyAssignments 1 2026))
                 (map Some ROOMMATES).
Proof.
  split; [lia|].
  exact (proj1 (proj2 (proj2
           (C10_each_roommate_gets_exactly_one_task 1 2026 ltac:(lia))))).
Defined.

(** Outside the calendar, on a negative seed, [%] yields negative indices
    and the roster lookup yields [undefined]. *)
Example negative_seed_assignments :
  JsonServer.calculateMonthlyAssignments 1 (-1)
  = [("Kitchen Cleaning", None); ("Bathroom Cleaning", None);
     ("Hall Sweeping", None); ("Trash Removal", Some "deepanshu")].
Proof. reflexivity. Qed.

(** ** The task store: completion *)

Lemma with_tasks_same (d : Sqlite.db) :
  Sqlite.with_tasks d (Sqlite.tasks d) (Sqlite.tasks_seq d) = d.
Proof. destruct d; reflexivity. Qed.

Lemma has_key_true (n : string) (m y : Z) (t : Sqlite.Task.row) :
  Sqlite.has_key n m y t = true <-> task_key t = (n, m, y).
Proof.
  unfold Sqlite.has_key, Sqlite.in_period, task_key.
  rewrite !andb_true_iff, String.eqb_eq, !Z.eqb_eq. split.
  - intros (-> & -> & ->). reflexivity.
  - intros H. inversion H. auto.
Qed.

Lemma has_key_self (t : Sqlite.Task.row) :
  Sqlite.has_key (Sqlite.Task.name t) (Sqlite.Task.month t) (Sqlite.Task.year t) t = true.
Proof. now apply has_key_true. Qed.

Lemma NoDup_map_eq {A B : Type} (f : A -> B) (l : list A) (a b : A) :
  NoDup (map f l) -> In a l -> In b l -> f a = f b -> a = b.
Proof.
  induction l as [|x l IH]; simpl; intros Hnd Ha Hb Hf; [contradiction|].
  inversion Hnd as [|? ? Hx Hnd']; subst.
  destruct Ha as [->|Ha], Hb as [->|Hb].
  - reflexivity.
  - exfalso. apply Hx. rewrite Hf. now apply in_map.
  - exfalso. apply Hx. rewrite <- Hf. now apply in_map.
  - now apply IH.
Qed.

Lemma map_if_none {A : Type} (p : A -> bool) (f : A -> A) (l : list A) :
  (forall x, In x l -> p x = false) ->
  map (fun x => if p x then f x else x) l = l.
Proof.
  induction l as [|x l IH]; simpl; intros H; [reflexivity|].
  rewrite (H x) by now left. f_equal. apply IH. intros; apply H; now right.
Qed.

Lemma filter_none {A : Type} (p : A -> bool) (l : list A) :
  (forall x, In x l -> p x = false) -> filter p l = [].
Proof.
  induction l as [|x l IH]; simpl; intros H; [reflexivity|].
  rewrite (H x) by now left. apply IH. intros; apply H; now right.
Qed.

(** Under the UNIQUE constraint, a row of another assignee is not selected
    by the UPDATE of completeTask. *)
Lemma not_owned_by_other (d : Sqlite.db) (t : Sqlite.Task.row) (actor : string) :
  tasks_unique d -> In t (Sqlite.tasks d) -> actor <> Sqlite.Task.assigned_to t ->
  forall x, In x (Sqlite.tasks d) ->
    Sqlite.owned_by (Sqlite.Task.name t) actor (Sqlite.Task.month t)
      (Sqlite.Task.year t) x = false.
Proof.
  intros Hu Ht Hne x Hx. unfold Sqlite.owned_by.
  destruct (Sqlite.has_key _ _ _ x) eqn:Hk; [|reflexivity]. simpl.
  apply has_key_true in Hk.
  assert (x = t) as -> by (eapply NoDup_map_eq; eauto).
  apply String.eqb_neq. congruence.
Qed.

Lemma completeTask_rejects_other_user (d : Sqlite.db) (t : Sqlite.Task.row)
  (actor : string) (now : instant) :
  tasks_unique d -> In t (Sqlite.tasks d) -> actor <> Sqlite.Task.assigned_to t ->
  Sqlite.completeTask (Sqlite.Task.name t) actor (Sqlite.Task.month t)
    (Sqlite.Task.year t) now d
  = (Rejected Sqlite.not_owned_message, d).
Proof.
  intros Hu Ht Hne. unfold Sqlite.completeTask, Sqlite.completeTask_with, Sqlite.update_completed.
  cbn [Sqlite.no_complete_faults Sqlite.update_err Sqlite.lookup_err Sqlite.log_err].
  pose proof (not_owned_by_other d t actor Hu Ht Hne) as Hnone.
  rewrite (map_if_none _ _ _ Hnone), (filter_none _ _ Hnone). simpl.
  now rewrite with_tasks_same.
Qed.

Lemma find_set_completed (id : Z) (now : instant) (ts : list JsonFile.Task.row)
  (t : JsonFile.Task.row) :
  find (fun x => JsonFile.Task.id x =? id) ts = Some t ->
  find (fun x => JsonFile.Task.id x =? id) (JsonFile.set_completed id now ts)
  = Some (JsonFile.mark_completed now t).
Proof.
  induction ts as [|x ts IH]; simpl; [discriminate|].
  destruct (JsonFile.Task.id x =? id) eqn:E; simpl.
  - intros H; inversion H; subst. now rewrite E.
  - rewrite E. exact IH.
Qed.

Lemma json_completeTask_found (id : Z) (now : instant) (d : JsonFile.data)
  (t : JsonFile.Task.row) :
  find (fun x => JsonFile.Task.id x =? id) (JsonFile.tasks d) = Some t ->
  exists d',
    JsonFile.completeTask (Some id) now d = (true, d')
    /\ find (fun x => JsonFile.Task.id x =? id) (JsonFile.tasks d')
       = Some (JsonFile.mark_completed now t).
Proof.
  intros Hf. unfold JsonFile.completeTask. rewrite Hf.
  eexists; split; [reflexivity|]. simpl. now apply find_set_completed.
Qed.

Example sqlite_january_tasks :
  map (fun t => (Sqlite.Task.id t, Sqlite.Task.name t, Sqlite.Task.assigned_to t,
                 Sqlite.Task.completed t, Sqlite.Task.completed_at t))
      (Sqlite.tasks sqlite_january)
  = [(1, "Kachra Fekna", "sonu", false, None);
     (2, "Pani Lana", "sachin", false, None)].
Proof. reflexivity. Qed.

Example json_january_tasks :
  map (fun t => (JsonFile.Task.id t, JsonFile.Task.name t,
                 JsonFile.Task.assigned_to t, JsonFile.Task.status t))
      (JsonFile.tasks json_january)
  = [(1767607200000, "Kitchen Cleaning", Some "sonu", "pending");
     (1767607200001, "Bathroom Cleaning", Some "sachin", "pending");
     (1767607200002, "Hall Sweeping", Some "sintu", "pending");
     (1767607200003, "Trash Removal", Some "deepanshu", "pending")].
Proof. reflexivity. Qed.

Lemma sqlite_january_unique : tasks_unique sqlite_january.
Proof.
  unfold tasks_unique. simpl.
  repeat (constructor; [simpl; intros H; repeat destruct H as [H|H];
                        discriminate || exact H|]).
  constructor.
Qed.

(** C1, as the claim states it, fails on the JSON-file variant: deepanshu,
    logged in, posts the id of "Kitchen Cleaning", which is sonu's task; the
    handler answers success and the task is completed and stamped. *)
Lemma C1_counterexample_json_completes_for_any_user :
  map JsonFile.Task.assigned_to (JsonFile.tasks json_january)
  = [Some "sonu"; Some "sachin"; Some "sintu"; Some "deepanshu"]
  /\ fst (JsonServer.post_tasks_complete (Some "deepanshu") (Some 1767607200000)
            jan9 json_january)
     = Json_success true
  /\ map (fun t => (JsonFile.Task.status t, JsonFile.Task.completed_at t))
         (JsonFile.tasks
            (snd (JsonServer.post_tasks_complete (Some "deepanshu")
                    (Some 1767607200000) jan9 json_january)))
     = [("completed", Some "2026-01-09T18:30:00.000Z"); ("pending", None);
        ("pending", None); ("pending", None)].
Proof. repeat split; reflexivity. Qed.

(** C1 (amended).  SQLite variant: for every task t, the only row with its
    (name, month, year), and every actor other than t's assignee,
    completeTask rejects with "Task not found or not assigned to you" and
    the database is left as it was (so t keeps its completed flag and its
    completion timestamp); the handler of POST /api/tasks/complete answers
    400 with that message.  JSON-file variant: completeTask takes a task id
    and no actor; whoever the logged-in user is, posting the id of an
    existing task answers success and the first task with that id becomes
    completed, stamped with the current time. *)
Theorem C1_completion_by_another_user :
  (forall (d : Sqlite.db) (t : Sqlite.Task.row) (actor : string) (now : instant),
      tasks_unique d -> In t (Sqlite.tasks d) ->
      actor <> Sqlite.Task.assigned_to t ->
      Sqlite.completeTask (Sqlite.Task.name t) actor (Sqlite.Task.month t)
        (Sqlite.Task.year t) now d
      = (Rejected "Task not found or not assigned to you", d))
  /\ (forall (d : Sqlite.db) (t : Sqlite.Task.row) (actor : string) (now : instant),
         tasks_unique d -> In t (Sqlite.tasks d) ->
         actor <> Sqlite.Task.assigned_to t ->
         Sqlite.Task.name t <> "" ->
         Sqlite.Task.month t = getMonth now + 1 ->
         Sqlite.Task.year t = getFullYear now ->
         SqliteServer.post_tasks_complete (Some actor) (Some (Sqlite.Task.name t)) now d
         = (Json_error 400 "Task not found or not assigned to you", d))
  /\ (forall (d : JsonFile.data) (t : JsonFile.Task.row) (actor : string)
             (now : instant),
         find (fun x => JsonFile.Task.id x =? JsonFile.Task.id t) (JsonFile.tasks d)
         = Some t ->
         exists d',
           JsonServer.post_tasks_complete (Some actor) (Some (JsonFile.Task.id t)) now d
           = (Json_success true, d')
           /\ find (fun x => JsonFile.Task.id x =? JsonFile.Task.id t)
                   (JsonFile.tasks d')
              = Some (JsonFile.mark_completed now t)).
Proof.
  split; [|split].
  - intros d t actor now Hu Ht Hne.
    now apply completeTask_rejects_other_user.
  - intros d t actor now Hu Ht Hne Hname Hm Hy.
    unfold SqliteServer.post_tasks_complete.
    apply String.eqb_neq in Hname. rewrite Hname, <- Hm, <- Hy.
    now rewrite (completeTask_rejects_other_user d t actor now Hu Ht Hne).
  - intros d t actor now Hf.
    destruct (json_completeTask_found _ now d t Hf) as (d' & Hc & Hd').
    exists d'. split; [|exact Hd'].
    unfold JsonServer.post_tasks_complete. now rewrite Hc.
Qed.

Lemma C1_witness_sonu_task_sachin_actor :
  tasks_unique sqlite_january
  /\ "sachin" <> "sonu"
  /\ Sqlite.completeTask "Kachra Fekna" "sachin" 1 2026 jan9 sqlite_january
     = (Rejected "Task not found or not assigned to you", sqlite_january).
Proof.
  pose proof sqlite_january_unique as Hu.
  split; [exact Hu|]. split; [discriminate|].
  exact (proj1 C1_completion_by_another_user sqlite_january
           {| Sqlite.Task.id := 1; Sqlite.Task.name := "Kachra Fekna";
              Sqlite.Task.assigned_to := "sonu"; Sqlite.Task.month := 1;
              Sqlite.Task.year := 2026; Sqlite.Task.completed := false;
              Sqlite.Task.completed_at := None |}
           "sachin" jan9 Hu (or_introl eq_refl) ltac:(discriminate)).
Defined.

Lemma find_map_preserving {A : Type} (p : A -> bool) (f : A -> A) (l : list A) :
  (forall x, p (f x) = p x) -> find p (map f l) = option_map f (find p l).
Proof.
  intros Hp. induction l as [|x l IH]; simpl; [reflexivity|].
  rewrite Hp. destruct (p x); [reflexivity | exact IH].
Qed.

Lemma find_unique_key (d : Sqlite.db) (t : Sqlite.Task.row) :
  tasks_unique d -> In t (Sqlite.tasks d) ->
  find (Sqlite.has_key (Sqlite.Task.name t) (Sqlite.Task.month t) (Sqlite.Task.year t))
       (Sqlite.tasks d) = Some t.
Proof.
  intros Hu Ht.
  destruct (find _ (Sqlite.tasks d)) as [x|] eqn:Hf.
  - apply find_some in Hf as [Hx Hk]. apply has_key_true in Hk.
    f_equal. eapply NoDup_map_eq; eauto.
  - exfalso. pose proof (find_none _ _ Hf t Ht) as H.
    now rewrite has_key_self in H.
Qed.

Lemma filter_length_pos {A : Type} (p : A -> bool) (l : list A) (x : A) :
  In x l -> p x = true -> (0 < List.length (filter p l))%nat.
Proof.
  intros Hin Hp.
  assert (H : In x (filter p l)) by (apply filter_In; auto).
  destruct (filter p l); [contradiction | simpl; lia].
Qed.

(** completeTask called by the assignee: it resolves whatever the task's
    completion state is, marks the row and logs one history entry. *)
Lemma completeTask_by_assignee (d : Sqlite.db) (t : Sqlite.Task.row) (now : instant) :
  tasks_unique d -> In t (Sqlite.tasks d) ->
  let n := Sqlite.Task.name t in
  let u := Sqlite.Task.assigned_to t in
  let m := Sqlite.Task.month t in
  let y := Sqlite.Task.year t in
  exists d',
    Sqlite.completeTask n u m y now d = (Resolved tt, d')
    /\ tasks_unique d'
    /\ In (Sqlite.mark_completed now t) (Sqlite.tasks d')
    /\ find (Sqlite.has_key n m y) (Sqlite.tasks d') = Some (Sqlite.mark_completed now t)
    /\ Sqlite.task_history d'
       = Sqlite.task_history d ++
         [ {| Sqlite.History.id := Sqlite.task_history_seq d + 1;
              Sqlite.History.task_id := Sqlite.Task.id t;
              Sqlite.History.username := u;
              Sqlite.History.action := "completed";
              Sqlite.History.timestamp := CURRENT_TIMESTAMP now |} ]
    /\ Sqlite.task_history_seq d' = Sqlite.task_history_seq d + 1.
Proof.
  intros Hu Ht n u m y.
  assert (Hown : Sqlite.owned_by n u m y t = true).
  { unfold Sqlite.owned_by. subst n u m y.
    now rewrite has_key_self, String.eqb_refl. }
  assert (Hkeep : forall x,
             Sqlite.has_key n m y
               (if Sqlite.owned_by n u m y x then Sqlite.mark_completed now x else x)
             = Sqlite.has_key n m y x).
  { intros x. destruct (Sqlite.owned_by n u m y x); reflexivity. }
  assert (Hfind : find (Sqlite.has_key n m y)
                    (map (fun x => if Sqlite.owned_by n u m y x
                                   then Sqlite.mark_completed now x else x)
                         (Sqlite.tasks d))
                  = Some (Sqlite.mark_completed now t)).
  { rewrite find_map_preserving by exact Hkeep.
    subst n u m y. rewrite (find_unique_key d t Hu Ht). simpl.
    now rewrite Hown. }
  unfold Sqlite.completeTask, Sqlite.completeTask_with, Sqlite.update_completed.
  cbn [Sqlite.no_complete_faults Sqlite.update_err Sqlite.lookup_err Sqlite.log_err].
  pose proof (filter_length_pos _ _ t Ht Hown) as Hpos.
  destruct (Z.eqb_spec (Z.of_nat (List.length
              (filter (Sqlite.owned_by n u m y) (Sqlite.tasks d)))) 0) as [H0|_];
    [lia|].
  unfold Sqlite.with_tasks at 1. cbn [Sqlite.tasks]. rewrite Hfind.
  eexists. split; [reflexivity|].
  unfold Sqlite.with_history, Sqlite.with_tasks.
  cbn [Sqlite.tasks Sqlite.task_history Sqlite.task_history_seq
       Sqlite.Task.id Sqlite.mark_completed].
  repeat split.
  - unfold tasks_unique in *. unfold Sqlite.with_history, Sqlite.with_tasks.
    cbn [Sqlite.tasks]. rewrite map_map.
    erewrite map_ext; [exact Hu|].
    intros x. destruct (Sqlite.owned_by n u m y x); reflexivity.
  - apply in_map_iff. exists t. now rewrite Hown.
  - exact Hfind.
Qed.

(** C2, as the claim states it, fails: sonu completes "Kachra Fekna" on
    5 January and the call resolves; sonu's second call on 9 January resolves
    too (no error), replaces the completion timestamp and logs a second
    history entry. *)
Lemma C2_counterexample_second_completion_restamps :
  let first := Sqlite.completeTask "Kachra Fekna" "sonu" 1 2026 jan5 sqlite_january in
  let second := Sqlite.completeTask "Kachra Fekna" "sonu" 1 2026 jan9 (snd first) in
  fst first = Resolved tt
  /\ map (fun t => (Sqlite.Task.completed t, Sqlite.Task.completed_at t))
         (Sqlite.tasks (snd first))
     = [(true, Some "2026-01-05 10:00:00"); (false, None)]
  /\ fst second = Resolved tt
  /\ map (fun t => (Sqlite.Task.completed t, Sqlite.Task.completed_at t))
         (Sqlite.tasks (snd second))
     = [(true, Some "2026-01-09 18:30:00"); (false, None)]
  /\ List.length (Sqlite.task_history (snd second)) = 2%nat.
Proof. repeat split; reflexivity. Qed.

(** C2 (amended).  Completing a task as its assignee succeeds whether the
    task is pending or already completed.  SQLite variant: the first call
    resolves, sets the flag and stamps the time; a second call by the
    assignee resolves as well, keeps the flag set, overwrites the completion
    timestamp with the time of the second call and appends a second history
    entry.  JSON-file variant: both calls return true and the second
    overwrites [completed_at]. *)
Theorem C2_completion_by_assignee_repeats :
  (forall (d : Sqlite.db) (t : Sqlite.Task.row) (now1 now2 : instant),
      tasks_unique d -> In t (Sqlite.tasks d) ->
      let n := Sqlite.Task.name t in
      let u := Sqlite.Task.assigned_to t in
      let m := Sqlite.Task.month t in
      let y := Sqlite.Task.year t in
      exists d1 d2,
        Sqlite.completeTask n u m y now1 d = (Resolved tt, d1)
        /\ find (Sqlite.has_key n m y) (Sqlite.tasks d1)
           = Some (Sqlite.mark_completed now1 t)
        /\ Sqlite.completeTask n u m y now2 d1 = (Resolved tt, d2)
        /\ find (Sqlite.has_key n m y) (Sqlite.tasks d2)
           = Some (Sqlite.mark_completed now2 t)
        /\ Sqlite.Task.completed (Sqlite.mark_completed now2 t) = true
        /\ Sqlite.Task.completed_at (Sqlite.mark_completed now2 t)
           = Some (CURRENT_TIMESTAMP now2)
        /\ Sqlite.task_history d2
           = Sqlite.task_history d ++
             [ {| Sqlite.History.id := Sqlite.task_history_seq d + 1;
                  Sqlite.History.task_id := Sqlite.Task.id t;
                  Sqlite.History.username := u;
                  Sqlite.History.action := "completed";
                  Sqlite.History.timestamp := CURRENT_TIMESTAMP now1 |};
               {| Sqlite.History.id := Sqlite.task_history_seq d + 1 + 1;
                  Sqlite.History.task_id := Sqlite.Task.id t;
                  Sqlite.History.username := u;
                  Sqlite.History.action := "completed";
                  Sqlite.History.timestamp := CURRENT_TIMESTAMP now2 |} ])
  /\ (forall (d : JsonFile.data) (t : JsonFile.Task.row) (now1 now2 : instant),
         find (fun x => JsonFile.Task.id x =? JsonFile.Task.id t) (JsonFile.tasks d)
         = Some t ->
         exists d1 d2,
           JsonFile.completeTask (Some (JsonFile.Task.id t)) now1 d = (true, d1)
           /\ find (fun x => JsonFile.Task.id x =? JsonFile.Task.id t)
                   (JsonFile.tasks d1)
              = Some (JsonFile.mark_completed now1 t)
           /\ JsonFile.completeTask (Some (JsonFile.Task.id t)) now2 d1 = (true, d2)
           /\ find (fun x => JsonFile.Task.id x =? JsonFile.Task.id t)
                   (JsonFile.tasks d2)
              = Some (JsonFile.mark_completed now2 t)
           /\ JsonFile.Task.completed_at (JsonFile.mark_completed now2 t)
              = Some (toISOString now2)).
Proof.
  split.
  - intros d t now1 now2 Hu Ht n u m y.
    destruct (completeTask_by_assignee d t now1 Hu Ht)
      as (d1 & Hc1 & Hu1 & Hin1 & Hf1 & Hh1 & Hs1).
    destruct (completeTask_by_assignee d1 (Sqlite.mark_completed now1 t) now2 Hu1 Hin1)
      as (d2 & Hc2 & _ & _ & Hf2 & Hh2 & _).
    cbn [Sqlite.mark_completed Sqlite.Task.name Sqlite.Task.assigned_to
         Sqlite.Task.month Sqlite.Task.year Sqlite.Task.id] in Hc2, Hf2, Hh2.
    exists d1, d2. repeat split; try assumption.
    rewrite Hh2, Hh1, Hs1, <- app_assoc. reflexivity.
  - intros d t now1 now2 Hf.
    destruct (json_completeTask_found _ now1 d t Hf) as (d1 & Hc1 & Hf1).
    destruct (json_completeTask_found _ now2 d1 _ Hf1) as (d2 & Hc2 & Hf2).
    exists d1, d2. repeat split; assumption.
Qed.

Lemma C2_witness_sonu_completes_twice :
  tasks_unique sqlite_january
  /\ exists d1 d2,
       Sqlite.completeTask "Kachra Fekna" "sonu" 1 2026 jan5 sqlite_january
       = (Resolved tt, d1)
       /\ Sqlite.completeTask "Kachra Fekna" "sonu" 1 2026 jan9 d1 = (Resolved tt, d2).
Proof.
  pose proof sqlite_january_unique as Hu.
  split; [exact Hu|].
  destruct (proj1 C2_completion_by_assignee_repeats sqlite_january
              {| Sqlite.Task.id := 1; Sqlite.Task.name := "Kachra Fekna";
                 Sqlite.Task.assigned_to := "sonu"; Sqlite.Task.month := 1;
                 Sqlite.Task.year := 2026; Sqlite.Task.completed := false;
                 Sqlite.Task.completed_at := None |}
              jan5 jan9 Hu (or_introl eq_refl))
    as (d1 & d2 & H1 & _ & H2 & _).
  exists d1, d2. split; assumption.
Defined.

(** ** Enumeration of an object's properties *)

Lemma insert_by_index_perm {V : Type} (e : Z * (string * V)) (l : list (Z * (string * V))) :
  Permutation (JS.insert_by_index e l) (e :: l).
Proof.
  induction l as [|x l IH]; simpl; [apply Permutation_refl|].
  destruct (fst e <=? fst x); [apply Permutation_refl|].
  eapply perm_trans; [apply perm_skip, IH | apply perm_swap].
Qed.

Lemma sort_by_index_perm {V : Type} (l : list (Z * (string * V))) :
  Permutation (fold_right JS.insert_by_index [] l) l.
Proof.
  induction l as [|x l IH]; simpl; [constructor|].
  eapply perm_trans; [apply insert_by_index_perm | now apply perm_skip].
Qed.

Lemma index_entries_filter {V : Type} (o : JS.obj V) :
  map snd (JS.index_entries o) = filter (fun e => JS.is_array_index (fst e)) o.
Proof.
  unfold JS.index_entries, JS.is_array_index.
  induction o as [|e o IH]; simpl; [reflexivity|].
  destruct (JS.array_index (fst e)); simpl; now rewrite IH.
Qed.

Lemma filter_split_perm {A : Type} (p : A -> bool) (l : list A) :
  Permutation (filter p l ++ filter (fun x => negb (p x)) l) l.
Proof.
  induction l as [|x l IH]; simpl; [constructor|].
  destruct (p x); simpl.
  - now apply perm_skip.
  - apply Permutation_sym, Permutation_cons_app, Permutation_sym, IH.
Qed.

Lemma Object_entries_perm {V : Type} (o : JS.obj V) :
  Permutation (JS.Object_entries o) o.
Proof.
  unfold JS.Object_entries.
  eapply perm_trans; [|apply (filter_split_perm (fun e => JS.is_array_index (fst e)))].
  apply Permutation_app_tail.
  rewrite <- index_entries_filter.
  apply Permutation_map, sort_by_index_perm.
Qed.

Lemma Object_entries_In {V : Type} (o : JS.obj V) (e : string * V) :
  In e (JS.Object_entries o) <-> In e o.
Proof.
  split; apply Permutation_in;
    [apply Object_entries_perm | apply Permutation_sym, Object_entries_perm].
Qed.

(** ** The task store: monthly creation *)

Section InsertOrIgnore.

Variables month year : Z.

Lemma after_skipped_twice (n n' : Z) (d : Sqlite.db) :
  after_skipped n' (after_skipped n d) = after_skipped (n + n') d.
Proof.
  unfold after_skipped, Sqlite.with_tasks. cbn [Sqlite.tasks Sqlite.tasks_seq
    Sqlite.users Sqlite.task_history Sqlite.monthly_reports Sqlite.task_history_seq
    Sqlite.monthly_reports_seq].
  now rewrite Z.add_assoc.
Qed.

Lemma after_skipped_none (d : Sqlite.db) : after_skipped 0 d = d.
Proof. unfold after_skipped. rewrite Z.add_0_r. apply with_tasks_same. Qed.

Lemma insert_covered (d : Sqlite.db) (e : string * option string) :
  ignored_entry month year d e ->
  Sqlite.insert_or_ignore_task month year d e = after_skipped 1 d.
Proof.
  destruct e as [n [u|]]; unfold ignored_entry; simpl; [|reflexivity].
  now intros ->.
Qed.

Lemma insert_extends (d : Sqlite.db) (e : string * option string) :
  exists l, Sqlite.tasks (Sqlite.insert_or_ignore_task month year d e)
            = Sqlite.tasks d ++ l.
Proof.
  destruct e as [n [u|]]; simpl.
  - destruct (existsb _ _).
    + exists []. simpl. now rewrite app_nil_r.
    + eexists. reflexivity.
  - exists []. now rewrite app_nil_r.
Qed.

Lemma covered_insert_mono (d : Sqlite.db) (e e' : string * option string) :
  ignored_entry month year d e ->
  ignored_entry month year (Sqlite.insert_or_ignore_task month year d e') e.
Proof.
  unfold ignored_entry. destruct (snd e); [|trivial].
  destruct (insert_extends d e') as [l ->].
  rewrite existsb_app. now intros ->.
Qed.

Lemma covered_after_insert (d : Sqlite.db) (e : string * option string) :
  ignored_entry month year (Sqlite.insert_or_ignore_task month year d e) e.
Proof.
  destruct e as [n [u|]]; unfold ignored_entry; simpl; [|trivial].
  destruct (existsb (Sqlite.has_key n month year) (Sqlite.tasks d)) eqn:E; [exact E|].
  simpl. rewrite existsb_app. simpl.
  unfold Sqlite.has_key at 2, Sqlite.in_period. simpl.
  now rewrite String.eqb_refl, !Z.eqb_refl, orb_true_r.
Qed.

Lemma covered_after_fold (l : list (string * option string)) :
  forall (d : Sqlite.db) (e : string * option string),
    In e l \/ ignored_entry month year d e ->
    ignored_entry month year (fold_left (Sqlite.insert_or_ignore_task month year) l d) e.
Proof.
  induction l as [|x l IH]; simpl; intros d e [Hin|Hc]; try contradiction; auto.
  - apply IH. destruct Hin as [->|Hin]; [right; apply covered_after_insert | now left].
  - apply IH. right. now apply covered_insert_mono.
Qed.

(** Statements that all add no row: each draws an id, nothing else moves. *)
Lemma fold_covered_skips (l : list (string * option string)) (d : Sqlite.db) :
  (forall e, In e l -> ignored_entry month year d e) ->
  fold_left (Sqlite.insert_or_ignore_task month year) l d
  = after_skipped (Z.of_nat (List.length l)) d.
Proof.
  revert d. induction l as [|x l IH]; intros d H.
  - cbn [fold_left List.length Z.of_nat]. now rewrite after_skipped_none.
  - cbn [fold_left]. rewrite insert_covered by (apply H; now left).
    rewrite IH.
    + rewrite after_skipped_twice. f_equal. cbn [List.length]. lia.
    + intros e He. exact (H e (or_intror He)).
Qed.

Lemma createMonthlyTasks_twice (a : JS.obj (option string)) (d : Sqlite.db) :
  Sqlite.createMonthlyTasks month year a (Sqlite.createMonthlyTasks month year a d)
  = after_skipped (Z.of_nat (List.length a)) (Sqlite.createMonthlyTasks month year a d).
Proof.
  unfold Sqlite.createMonthlyTasks.
  rewrite <- (Permutation_length (Object_entries_perm a)).
  apply fold_covered_skips.
  intros e He. apply covered_after_fold. now left.
Qed.

Lemma existsb_has_key_false (d : Sqlite.db) (n : string) :
  existsb (Sqlite.has_key n month year) (Sqlite.tasks d) = false ->
  ~ In (n, month, year) (map task_key (Sqlite.tasks d)).
Proof.
  intros E Hin. apply in_map_iff in Hin as (t & Hk & Ht).
  apply has_key_true in Hk.
  assert (existsb (Sqlite.has_key n month year) (Sqlite.tasks d) = true)
    by (apply existsb_exists; eauto).
  congruence.
Qed.

Lemma insert_keeps_unique (d : Sqlite.db) (e : string * option string) :
  tasks_unique d -> tasks_unique (Sqlite.insert_or_ignore_task month year d e).
Proof.
  unfold tasks_unique. destruct e as [n [u|]]; simpl; [|auto].
  destruct (existsb _ _) eqn:E; [auto|]. intros Hu. simpl.
  rewrite map_app. simpl.
  apply (Permutation_NoDup (Permutation_cons_append _ _)).
  constructor; [now apply existsb_has_key_false | exact Hu].
Qed.

Lemma createMonthlyTasks_keeps_unique (a : JS.obj (option string)) (d : Sqlite.db) :
  tasks_unique d -> tasks_unique (Sqlite.createMonthlyTasks month year a d).
Proof.
  unfold Sqlite.createMonthlyTasks. revert d.
  induction (JS.Object_entries a) as [|x l IH]; simpl; intros d Hu; [exact Hu|].
  apply IH. now apply insert_keeps_unique.
Qed.

End InsertOrIgnore.

(** ** ensureMonthlyTasks *)

Lemma sqlite_current_same_period (now1 now2 : instant) (d : Sqlite.db) :
  same_period now1 now2 ->
  Sqlite.getCurrentMonthTasks now2 d = Sqlite.getCurrentMonthTasks now1 d.
Proof. intros [Hm Hy]. unfold Sqlite.getCurrentMonthTasks. now rewrite Hm, Hy. Qed.

Lemma same_rows_after_skipped (n : Z) (d : Sqlite.db) : same_rows (after_skipped n d) d.
Proof. repeat split. Qed.

Lemma sqlite_ensure_twice (catalog : list string) (now1 now2 : instant) (d : Sqlite.db) :
  same_period now1 now2 ->
  let ensure :=
    Server.ensureMonthlyTasks catalog Sqlite.getCurrentMonthTasks
      (fun month year assignments _ => Sqlite.createMonthlyTasks month year assignments) in
  same_rows (ensure now2 (ensure now1 d)) (ensure now1 d).
Proof.
  intros Hp ensure. subst ensure. unfold Server.ensureMonthlyTasks.
  destruct (Z.of_nat (List.length (Sqlite.getCurrentMonthTasks now1 d)) =? 0) eqn:E.
  - destruct Hp as [Hm Hy]. rewrite <- Hm, <- Hy.
    match goal with
    | |- same_rows (if ?c then _ else _) _ => destruct c; [|repeat split]
    end.
    rewrite createMonthlyTasks_twice. apply same_rows_after_skipped.
  - rewrite (sqlite_current_same_period now1 now2 d Hp), E. repeat split.
Qed.

(** A month that has a task row is left alone. *)
Lemma sqlite_ensure_found (catalog : list string) (now : instant) (d : Sqlite.db) :
  Sqlite.getCurrentMonthTasks now d <> [] ->
  Server.ensureMonthlyTasks catalog Sqlite.getCurrentMonthTasks
    (fun month year assignments _ => Sqlite.createMonthlyTasks month year assignments)
    now d
  = d.
Proof.
  intros Hsome. unfold Server.ensureMonthlyTasks.
  destruct (Sqlite.getCurrentMonthTasks now d); [now destruct Hsome | reflexivity].
Qed.

Lemma spec_assignee_some (month year i : Z) :
  exists r, spec_assignee month year i = Some r.
Proof.
  unfold spec_assignee.
  destruct (nth_error ROOMMATES _) as [r|] eqn:E; [now exists r|].
  apply nth_error_None in E.
  pose proof (Z.mod_pos_bound (year * 12 + month + i)
                (Z.of_nat (List.length ROOMMATES)) ltac:(simpl; lia)) as H.
  lia.
Qed.

(** After ensureMonthlyTasks (SQLite store, a catalog without repetition and
    a non-negative seed) the month has a task row, which is what the next
    call detects. *)
Lemma sqlite_ensure_detected (t : string) (rest : list string)
  (now1 now2 : instant) (d : Sqlite.db) :
  same_period now1 now2 -> NoDup (t :: rest) ->
  0 <= getFullYear now1 * 12 + (getMonth now1 + 1) ->
  Sqlite.getCurrentMonthTasks now2
    (Server.ensureMonthlyTasks (t :: rest) Sqlite.getCurrentMonthTasks
       (fun month year assignments _ => Sqlite.createMonthlyTasks month year assignments)
       now1 d)
  <> [].
Proof.
  intros Hp Hnd Hseed. rewrite (sqlite_current_same_period now1 now2 _ Hp).
  unfold Server.ensureMonthlyTasks.
  destruct (Z.of_nat (List.length (Sqlite.getCurrentMonthTasks now1 d)) =? 0) eqn:E.
  - rewrite (calculateMonthlyAssignments_spec _ _ _ Hnd Hseed).
    destruct (spec_assignee_some (getMonth now1 + 1) (getFullYear now1) 0) as [r Hr].
    pose proof (covered_after_fold (getMonth now1 + 1) (getFullYear now1)
                  (JS.Object_entries
                     (spec_assignments (t :: rest) (getMonth now1 + 1) (getFullYear now1)))
                  d (t, Some r)) as Hc.
    unfold ignored_entry in Hc. simpl fst in Hc. simpl snd in Hc.
    assert (Hex : existsb (Sqlite.has_key t (getMonth now1 + 1) (getFullYear now1))
                    (Sqlite.tasks
                       (Sqlite.createMonthlyTasks (getMonth now1 + 1) (getFullYear now1)
                          (spec_assignments (t :: rest) (getMonth now1 + 1)
                             (getFullYear now1)) d)) = true).
    { apply Hc. left. apply Object_entries_In.
      unfold spec_assignments, JS.indexed. simpl. left. now rewrite Hr. }
    apply existsb_exists in Hex as (x & Hx & Hk).
    unfold Sqlite.has_key in Hk. apply andb_true_iff in Hk as [_ Hk].
    intros Hnil.
    assert (Hin : In x (Sqlite.getCurrentMonthTasks now1
                          (Sqlite.createMonthlyTasks (getMonth now1 + 1)
                             (getFullYear now1)
                             (spec_assignments (t :: rest) (getMonth now1 + 1)
                                (getFullYear now1)) d)))
      by (unfold Sqlite.getCurrentMonthTasks; apply filter_In; auto).
    rewrite Hnil in Hin. contradiction.
  - intros Hnil. rewrite Hnil in E. discriminate.
Qed.

Lemma json_current_same_period (now1 now2 : instant) (d : JsonFile.data) :
  same_period now1 now2 ->
  JsonFile.getCurrentMonthTasks now2 d = JsonFile.getCurrentMonthTasks now1 d.
Proof. intros [Hm Hy]. unfold JsonFile.getCurrentMonthTasks. now rewrite Hm, Hy. Qed.

Lemma JsonServer_assignments_js (month year : Z) :
  JsonServer.calculateMonthlyAssignments month year
  = map (fun '(i, task) =>
           (task, JS.array_get ROOMMATES (JS.rem (year * 12 + month + i) 4)))
        (JS.indexed JsonServer.TASKS).
Proof.
  apply (calculateMonthlyAssignments_js JsonServer.TASKS month year
           NoDup_JsonServer_TASKS).
Qed.

Lemma json_ensure_twice (now1 now2 : instant) (d : JsonFile.data) :
  same_period now1 now2 ->
  JsonServer.ensureMonthlyTasks now2 (JsonServer.ensureMonthlyTasks now1 d)
  = JsonServer.ensureMonthlyTasks now1 d.
Proof.
  intros Hp. unfold JsonServer.ensureMonthlyTasks, Server.ensureMonthlyTasks.
  destruct (Z.of_nat (List.length (JsonFile.getCurrentMonthTasks now1 d)) =? 0) eqn:E.
  - rewrite (json_current_same_period now1 now2 _ Hp).
    fold (JsonServer.calculateMonthlyAssignments (getMonth now1 + 1) (getFullYear now1)).
    rewrite JsonServer_assignments_js.
    unfold JsonFile.createMonthlyTasks, JsonFile.getCurrentMonthTasks.
    cbn [snd JsonFile.tasks]. rewrite filter_app.
    match goal with
    | |- (if Z.of_nat (List.length (?l1 ++ ?l2)) =? 0 then _ else _) = _ =>
        assert (Hlen : List.length l2 = 4%nat)
    end.
    { unfold JsonFile.in_period. simpl. now rewrite !Z.eqb_refl. }
    rewrite length_app, Hlen.
    destruct (Z.eqb_spec (Z.of_nat (List.length
                (filter (JsonFile.in_period (getMonth now1 + 1) (getFullYear now1))
                        (JsonFile.tasks d)) + 4)) 0); [lia | reflexivity].
  - now rewrite (json_current_same_period now1 now2 d Hp), E.
Qed.

(** C4, as the claim states it, fails at the storage layer of the JSON-file
    variant: createMonthlyTasks called again for January 2026, whose four
    tasks exist, is neither rejected nor ignored; it appends four more rows,
    and the store then holds two rows for each (name, month, year). *)
Lemma C4_counterexample_json_createMonthlyTasks_duplicates :
  let again :=
    snd (JsonFile.createMonthlyTasks 1 2026
           (JsonServer.calculateMonthlyAssignments 1 2026) jan9 json_january) in
  List.length (JsonFile.tasks json_january) = 4%nat
  /\ List.length (JsonFile.tasks again) = 8%nat
  /\ map (fun t => (JsonFile.Task.name t, JsonFile.Task.month t, JsonFile.Task.year t,
                    JsonFile.Task.id t))
         (filter (fun t => String.eqb (JsonFile.Task.name t) "Kitchen Cleaning")
                 (JsonFile.tasks again))
     = [("Kitchen Cleaning", 1, 2026, 1767607200000);
        ("Kitchen Cleaning", 1, 2026, 1767983400000)].
Proof. repeat split. Qed.

(** C4 (amended).  ensureMonthlyTasks run a second time in the same
    calendar month leaves the rows of every table as the first run left
    them, for any catalog over the SQLite store (first conjunct); with the
    SQLite server's catalog and a non-negative seed the month has task rows
    after a run, so the second run finds them and changes nothing at all
    (second conjunct); the JSON-file server's second run changes nothing
    either (third conjunct).  At the storage layer of the SQLite store an
    INSERT OR IGNORE of an existing (name, month, year) key adds and changes
    no row, only the id counter of tasks advances; createMonthlyTasks run
    again leaves the rows of the first run and advances the counter by one
    per assignment; and it keeps the rows unique by (name, month, year)
    (fourth to sixth conjunct).  The JSON-file store has no such guard: its
    createMonthlyTasks always appends one row per assignment (last
    conjunct). *)
Theorem C4_ensureMonthlyTasks_idempotent_on_rows :
  (forall (catalog : list string) (now1 now2 : instant) (d : Sqlite.db),
      same_period now1 now2 ->
      let ensure :=
        Server.ensureMonthlyTasks catalog Sqlite.getCurrentMonthTasks
          (fun month year assignments _ =>
             Sqlite.createMonthlyTasks month year assignments) in
      same_rows (ensure now2 (ensure now1 d)) (ensure now1 d))
  /\ (forall (now1 now2 : instant) (d : Sqlite.db),
         same_period now1 now2 ->
         0 <= getFullYear now1 * 12 + (getMonth now1 + 1) ->
         Sqlite.getCurrentMonthTasks now2 (SqliteServer.ensureMonthlyTasks now1 d) <> []
         /\ SqliteServer.ensureMonthlyTasks now2 (SqliteServer.ensureMonthlyTasks now1 d)
            = SqliteServer.ensureMonthlyTasks now1 d)
  /\ (forall (now1 now2 : instant) (d : JsonFile.data),
         same_period now1 now2 ->
         JsonServer.ensureMonthlyTasks now2 (JsonServer.ensureMonthlyTasks now1 d)
         = JsonServer.ensureMonthlyTasks now1 d)
  /\ (forall (month year : Z) (d : Sqlite.db) (taskName : string)
             (assignee : option string),
         existsb (Sqlite.has_key taskName month year) (Sqlite.tasks d) = true ->
         Sqlite.insert_or_ignore_task month year d (taskName, assignee)
         = after_skipped 1 d)
  /\ (forall (month year : Z) (assignments : JS.obj (option string)) (d : Sqlite.db),
         Sqlite.createMonthlyTasks month year assignments
           (Sqlite.createMonthlyTasks month year assignments d)
         = after_skipped (Z.of_nat (List.length assignments))
             (Sqlite.createMonthlyTasks month year assignments d))
  /\ (forall (month year : Z) (assignments : JS.obj (option string)) (d : Sqlite.db),
         tasks_unique d ->
         tasks_unique (Sqlite.createMonthlyTasks month year assignments d))
  /\ (forall (month year : Z) (assignments : JS.obj (option string)) (now : instant)
             (d : JsonFile.data),
         let created := JsonFile.createMonthlyTasks month year assignments now d in
         JsonFile.tasks (snd created) = JsonFile.tasks d ++ fst created
         /\ List.length (fst created) = List.length assignments
         /\ (forall t, In t (fst created) ->
               JsonFile.in_period month year t = true
               /\ exists assignee, In (JsonFile.Task.name t, assignee) assignments)).
Proof.
  split; [|split; [|split; [|split; [|split; [|split]]]]].
  - intros catalog now1 now2 d Hp. now apply sqlite_ensure_twice.
  - intros now1 now2 d Hp Hseed.
    assert (Hsome : Sqlite.getCurrentMonthTasks now2
                      (SqliteServer.ensureMonthlyTasks now1 d) <> [])
      by (apply sqlite_ensure_detected;
          [assumption | exact NoDup_SqliteServer_TASKS | assumption]).
    split; [exact Hsome|].
    exact (sqlite_ensure_found SqliteServer.TASKS now2 _ Hsome).
  - intros now1 now2 d Hp. now apply json_ensure_twice.
  - intros month year d taskName assignee Hex.
    apply insert_covered. unfold ignored_entry. simpl.
    destruct assignee; [exact Hex | exact I].
  - intros. apply createMonthlyTasks_twice.
  - intros. now apply createMonthlyTasks_keeps_unique.
  - intros month year assignments now d created. subst created.
    unfold JsonFile.createMonthlyTasks. cbn [fst snd JsonFile.tasks].
    split; [reflexivity|]. split.
    + rewrite length_map. unfold JS.indexed.
      rewrite <- (length_map snd), indexed_from_snd.
      apply Permutation_length, Object_entries_perm.
    + intros t Ht. apply in_map_iff in Ht. destruct Ht as ([i [n r]] & <- & Hin).
      split.
      * unfold JsonFile.in_period. cbn [JsonFile.Task.month JsonFile.Task.year].
        now rewrite !Z.eqb_refl.
      * exists r. cbn [JsonFile.Task.name]. apply Object_entries_In.
        unfold JS.indexed in Hin.
        rewrite <- (indexed_from_snd (JS.Object_entries assignments) 0).
        apply in_map_iff. exists (i, (n, r)). split; [reflexivity | exact Hin].
Qed.

Lemma C4_witness_restart_in_january :
  same_period jan5 jan9
  /\ 0 <= getFullYear jan5 * 12 + (getMonth jan5 + 1)
  /\ SqliteServer.ensureMonthlyTasks jan9 (SqliteServer.ensureMonthlyTasks jan5 sqlite_fresh)
     = sqlite_january
  /\ Sqlite.tasks_seq
       (Sqlite.createMonthlyTasks 1 2026 (SqliteServer.calculateMonthlyAssignments 1 2026)
          sqlite_january) = 4
  /\ tasks_unique
       (Sqlite.createMonthlyTasks 1 2026 (SqliteServer.calculateMonthlyAssignments 1 2026)
          sqlite_january).
Proof.
  assert (Hp : same_period jan5 jan9) by (split; reflexivity).
  assert (Hs : 0 <= getFullYear jan5 * 12 + (getMonth jan5 + 1)) by (simpl; lia).
  split; [exact Hp|]. split; [exact Hs|]. split; [|split].
  - rewrite (proj2 (proj1 (proj2 C4_ensureMonthlyTasks_idempotent_on_rows)
                      jan5 jan9 sqlite_fresh Hp Hs)).
    reflexivity.
  - reflexivity.
  - apply (proj1 (proj2 (proj2 (proj2 (proj2 (proj2
             C4_ensureMonthlyTasks_idempotent_on_rows)))))).
    exact sqlite_january_unique.
Defined.

(** ** Completion percentage *)

(** [spec_percentage] is the integer nearest to 100*c/a, ties up:
    k - 1/2 <= 100*c/a < k + 1/2. *)
Lemma spec_percentage_nearest (a c : Z) :
  0 < a ->
  2 * spec_percentage a c * a - a <= 200 * c < 2 * spec_percentage a c * a + a.
Proof.
  intros Ha. unfold spec_percentage.
  pose proof (Z.div_mod (200 * c + a) (2 * a) ltac:(lia)) as Hd.
  pose proof (Z.mod_pos_bound (200 * c + a) (2 * a) ltac:(lia)) as Hm.
  nia.
Qed.

Lemma spec_percentage_range (a c : Z) :
  0 < a -> 0 <= c <= a -> 0 <= spec_percentage a c <= 100.
Proof.
  intros Ha Hc. pose proof (spec_percentage_nearest a c Ha) as H.
  split; nia.
Qed.

Lemma percentage_cases_complete (a c : Z) :
  0 < a < 40 -> 0 <= c <= a -> In (a, c) percentage_cases.
Proof.
  intros Ha Hc. unfold percentage_cases. apply in_flat_map.
  exists (Z.to_nat a). split.
  - apply in_seq. lia.
  - apply in_map_iff. exists (Z.to_nat c). split.
    + f_equal; lia.
    + apply in_seq. lia.
Qed.

Lemma map_eq_In {A B : Type} (f g : A -> B) (l : list A) (x : A) :
  map f l = map g l -> In x l -> f x = g x.
Proof.
  induction l as [|y l IH]; simpl; intros H Hin; [contradiction|].
  inversion H. destruct Hin as [->|Hin]; auto.
Qed.

(** The binary64 evaluation of [Math.round((c / a) * 100)], checked on every
    pair of counts with at most 39 assigned tasks. *)
Lemma sqlite_percentage_table :
  map (fun p => Sqlite.completion_percentage_of (fst p) (snd p)) percentage_cases
  = map (fun p => JS.number_of_Z (spec_percentage (fst p) (snd p))) percentage_cases.
Proof. vm_compute. reflexivity. Qed.

Lemma sqlite_percentage_rounds (a c : Z) :
  0 < a < 40 -> 0 <= c <= a ->
  Sqlite.completion_percentage_of a c = JS.number_of_Z (spec_percentage a c).
Proof.
  intros Ha Hc.
  apply (map_eq_In (fun p => Sqlite.completion_percentage_of (fst p) (snd p))
           (fun p => JS.number_of_Z (spec_percentage (fst p) (snd p)))
           percentage_cases (a, c) sqlite_percentage_table).
  now apply percentage_cases_complete.
Qed.

(** From 40 assigned tasks on the binary64 product can fall just under a
    half: 23 of 40 is 57.5 exactly, the code computes 57.49999999999999 and
    rounds it to 57. *)
Example sqlite_percentage_23_of_40 :
  Sqlite.completion_percentage_of 40 23 = JS.number_of_Z 57
  /\ spec_percentage 40 23 = 58.
Proof. split; vm_compute; reflexivity. Qed.

Lemma filter_length_le {A : Type} (p : A -> bool) (l : list A) :
  (List.length (filter p l) <= List.length l)%nat.
Proof.
  induction l as [|x l IH]; simpl; [lia|]. destruct (p x); simpl; lia.
Qed.

(** What generateMonthlyReport resolves with and stores when the backend
    answers both statements. *)
Lemma generateMonthlyReport_resolved (io : Sqlite.faults) (now : instant)
  (userId : Z) (username : string) (month year : Z) (d d' : Sqlite.db)
  (r : Sqlite.report) :
  Sqlite.generateMonthlyReport io now userId username month year d = (Resolved r, d') ->
  let ts := filter (Sqlite.assigned_in username month year) (Sqlite.tasks d) in
  Sqlite.tasksAssigned r = Z.of_nat (List.length ts)
  /\ Sqlite.tasksCompleted r = Z.of_nat (List.length (filter Sqlite.Task.completed ts))
  /\ Sqlite.completionPercentage r
     = Sqlite.completion_percentage_of (Sqlite.tasksAssigned r) (Sqlite.tasksCompleted r)
  /\ Sqlite.userId r = userId /\ Sqlite.username r = username
  /\ Sqlite.month r = month /\ Sqlite.year r = year
  /\ Sqlite.rd_tasks (Sqlite.reportData r) = map Sqlite.view_of ts
  /\ Sqlite.tasks d' = Sqlite.tasks d
  /\ Sqlite.users d' = Sqlite.users d
  /\ exists row,
       Sqlite.monthly_reports d'
       = filter (fun x => negb (Sqlite.report_key userId month year x))
                (Sqlite.monthly_reports d) ++ [row]
       /\ Sqlite.report_key userId month year row = true
       /\ Sqlite.Report.tasks_assigned row = Sqlite.tasksAssigned r
       /\ Sqlite.Report.tasks_completed row = Sqlite.tasksCompleted r
       /\ Sqlite.Report.completion_percentage row = Sqlite.completionPercentage r
       /\ Sqlite.Report.created_at row = CURRENT_TIMESTAMP now.
Proof.
  unfold Sqlite.generateMonthlyReport.
  destruct (Sqlite.select_err io); [discriminate|].
  destruct (Sqlite.insert_err io); [discriminate|].
  intros H; inversion H; subst; clear H. simpl.
  repeat split.
  eexists. split; [reflexivity|]. simpl.
  unfold Sqlite.report_key. simpl. now rewrite !Z.eqb_refl.
Qed.

Example three_task_states :
  map (fun t => (Sqlite.Task.assigned_to t, Sqlite.Task.completed t))
      (Sqlite.tasks sqlite_three_tasks)
  = [("sonu", true); ("sonu", false); ("sonu", true)]
  /\ map (fun t => (JsonFile.Task.assigned_to t, JsonFile.Task.status t))
         (JsonFile.tasks json_three_tasks)
     = [(Some "sonu", "completed"); (Some "sonu", "pending");
        (Some "sonu", "completed")].
Proof. split; reflexivity. Qed.

(** C6, as the claim states it, fails on the JSON-file variant: for sonu with
    3 assigned tasks of which 2 are completed, generateAllMonthlyReports
    stores the unrounded (2 / 3) * 100, a number strictly between 66 and 67,
    and not 67. *)
Lemma C6_counterexample_json_percentage_unrounded :
  match find (fun r => String.eqb (JsonFile.Report.username r) "sonu")
             (fst (JsonFile.generateAllMonthlyReports 1 2026 jan9
                     (fun _ => 0.5%float) json_three_tasks)) with
  | Some report =>
      JsonFile.Report.assigned_tasks report = 3
      /\ JsonFile.Report.completed_tasks report = 2
      /\ PrimFloat.ltb (JS.number_of_Z 66)
                       (JsonFile.Report.completion_percentage report) = true
      /\ PrimFloat.ltb (JsonFile.Report.completion_percentage report)
                       (JS.number_of_Z 67) = true
      /\ PrimFloat.eqb (JsonFile.Report.completion_percentage report)
                       (JS.number_of_Z 67) = false
  | None => False
  end.
Proof. vm_compute. repeat split; reflexivity. Qed.

(** C6 (amended).  SQLite variant: a report generated for 1 to 39 assigned
    tasks carries, and stores, the integer nearest to 100 * completed /
    assigned (ties up), which lies in 0..100; 2 completed out of 3 gives 67.
    JSON-file variant: the stored percentage is the unrounded binary64 value
    of (completed / assigned) * 100, which for 2 out of 3 lies strictly
    between 66 and 67. *)
Theorem C6_percentage_is_rounded_in_sqlite_only :
  (forall (io : Sqlite.faults) (now : instant) (userId : Z) (username : string)
          (month year : Z) (d d' : Sqlite.db) (r : Sqlite.report),
      Sqlite.generateMonthlyReport io now userId username month year d
      = (Resolved r, d') ->
      0 < Sqlite.tasksAssigned r < 40 ->
      let pct := spec_percentage (Sqlite.tasksAssigned r) (Sqlite.tasksCompleted r) in
      Sqlite.completionPercentage r = JS.number_of_Z pct
      /\ 0 <= pct <= 100
      /\ (Sqlite.tasksAssigned r = 3 -> Sqlite.tasksCompleted r = 2 -> pct = 67)
      /\ exists row,
           In row (Sqlite.monthly_reports d')
           /\ Sqlite.report_key userId month year row = true
           /\ Sqlite.Report.completion_percentage row = JS.number_of_Z pct)
  /\ Sqlite.completion_percentage_of 3 2 = JS.number_of_Z 67
  /\ PrimFloat.ltb (JS.number_of_Z 66) (JsonFile.completion_rate_of 3 2) = true
  /\ PrimFloat.ltb (JsonFile.completion_rate_of 3 2) (JS.number_of_Z 67) = true
  /\ (forall (month year : Z) (now : instant) (rnd : float)
             (ts : list JsonFile.Task.row) (user : JsonFile.User.row),
         JsonFile.Report.completion_percentage
           (JsonFile.report_for month year now rnd ts user)
         = JsonFile.completion_rate_of
             (JsonFile.Report.assigned_tasks
                (JsonFile.report_for month year now rnd ts user))
             (JsonFile.Report.completed_tasks
                (JsonFile.report_for month year now rnd ts user))).
Proof.
  split; [|repeat split; reflexivity].
  intros io now userId username month year d d' r Hgen Ha pct.
  destruct (generateMonthlyReport_resolved _ _ _ _ _ _ _ _ _ Hgen)
    as (HA & HC & HP & _ & _ & _ & _ & _ & _ & _ & row & Hrows & Hkey & _ & _ & Hrp & _).
  assert (Hc : 0 <= Sqlite.tasksCompleted r <= Sqlite.tasksAssigned r).
  { rewrite HA, HC. split; [lia|]. apply inj_le, filter_length_le. }
  assert (Hpct : Sqlite.completionPercentage r = JS.number_of_Z pct).
  { rewrite HP. now apply sqlite_percentage_rounds. }
  split; [exact Hpct|]. split; [apply spec_percentage_range; lia|]. split.
  - intros H3 H2. subst pct. rewrite H3, H2. reflexivity.
  - exists row. split; [|split; [exact Hkey|congruence]].
    rewrite Hrows. apply in_app_iff. right. now left.
Qed.

Lemma C6_witness_sonu_two_of_three :
  exists r d',
    Sqlite.generateMonthlyReport Sqlite.no_faults jan9 2 "sonu" 1 2026 sqlite_three_tasks
    = (Resolved r, d')
    /\ 0 < Sqlite.tasksAssigned r < 40
    /\ Sqlite.tasksAssigned r = 3 /\ Sqlite.tasksCompleted r = 2
    /\ Sqlite.completionPercentage r = JS.number_of_Z 67.
Proof.
  eexists. eexists. split; [reflexivity|].
  split; [simpl; lia|]. split; [reflexivity|]. split; [reflexivity|].
  exact (proj1 (proj1 C6_percentage_is_rounded_in_sqlite_only
                  Sqlite.no_faults jan9 2 "sonu" 1 2026 sqlite_three_tasks _ _
                  eq_refl ltac:(simpl; lia))).
Defined.

(** C7.  With no task assigned to the user in the period, the SQLite
    variant's generateMonthlyReport reports 0 per cent and the JSON-file
    variant's generateAllMonthlyReports reports 100 per cent; the two values
    differ.  On the freshly seeded stores (the roster, no task yet) the
    SQLite batch yields 0 for every user and the JSON-file batch 100. *)
Theorem C7_zero_assigned_defaults_diverge :
  (forall (io : Sqlite.faults) (now : instant) (userId : Z) (username : string)
          (month year : Z) (d d' : Sqlite.db) (r : Sqlite.report),
      Sqlite.generateMonthlyReport io now userId username month year d
      = (Resolved r, d') ->
      filter (Sqlite.assigned_in username month year) (Sqlite.tasks d) = [] ->
      Sqlite.tasksAssigned r = 0
      /\ Sqlite.completionPercentage r = JS.number_of_Z 0)
  /\ (forall (month year : Z) (now : instant) (random : Z -> float)
             (d : JsonFile.data) (i : Z) (user : JsonFile.User.row),
         In (i, user) (JS.indexed (JsonFile.users d)) ->
         filter (JsonFile.assigned_in (JsonFile.User.username user) month year)
                (JsonFile.tasks d) = [] ->
         let report := JsonFile.report_for month year now (random i) (JsonFile.tasks d) user in
         In report (fst (JsonFile.generateAllMonthlyReports month year now random d))
         /\ JsonFile.Report.assigned_tasks report = 0
         /\ JsonFile.Report.completion_percentage report = JS.number_of_Z 100)
  /\ PrimFloat.eqb (JS.number_of_Z 0) (JS.number_of_Z 100) = false
  /\ (forall r,
         In r (match fst (Sqlite.generateAllMonthlyReports None (fun _ => Sqlite.no_faults)
                            jan5 1 2026 sqlite_fresh) with
               | Resolved reports => reports
               | _ => []
               end) ->
         Sqlite.completionPercentage r = JS.number_of_Z 0)
  /\ (forall r,
         In r (fst (JsonFile.generateAllMonthlyReports 1 2026 jan5
                      (fun _ => 0.5%float) json_fresh)) ->
         JsonFile.Report.completion_percentage r = JS.number_of_Z 100).
Proof.
  split; [|split; [|split; [|split]]].
  - intros io now userId username month year d d' r Hgen Hnone.
    destruct (generateMonthlyReport_resolved _ _ _ _ _ _ _ _ _ Hgen)
      as (HA & HC & HP & _).
    rewrite Hnone in HA, HC. simpl in HA, HC.
    split; [exact HA|]. rewrite HP, HA, HC. reflexivity.
  - intros month year now random d i user Hin Hnone report. subst report.
    split; [|split].
    + unfold JsonFile.generateAllMonthlyReports. cbn [fst].
      apply in_map_iff. exists (i, user). split; [reflexivity | exact Hin].
    + unfold JsonFile.report_for. cbn [JsonFile.Report.assigned_tasks].
      now rewrite Hnone.
    + unfold JsonFile.report_for. cbn [JsonFile.Report.completion_percentage].
      rewrite Hnone. reflexivity.
  - reflexivity.
  - vm_compute. intros r H. repeat destruct H as [H|H]; subst; try reflexivity.
    contradiction.
  - vm_compute. intros r H. repeat destruct H as [H|H]; subst; try reflexivity.
    contradiction.
Qed.

Lemma C7_witness_deepanshu_without_tasks :
  filter (Sqlite.assigned_in "deepanshu" 1 2026) (Sqlite.tasks sqlite_january) = []
  /\ exists r d',
       Sqlite.generateMonthlyReport Sqlite.no_faults jan9 1 "deepanshu" 1 2026
         sqlite_january = (Resolved r, d')
       /\ Sqlite.completionPercentage r = JS.number_of_Z 0.
Proof.
  split; [reflexivity|].
  eexists. eexists. split; [reflexivity|].
  exact (proj2 (proj1 C7_zero_assigned_defaults_diverge
                  Sqlite.no_faults jan9 1 "deepanshu" 1 2026 sqlite_january _ _
                  eq_refl eq_refl)).
Defined.

(** The username order is a reordering of the table. *)
Lemma insert_user_perm (u : Sqlite.User.row) (l : list Sqlite.User.row) :
  Permutation (Sqlite.insert_user u l) (u :: l).
Proof.
  induction l as [|v l IH]; simpl; [apply Permutation_refl|].
  destruct (String.leb _ _); [apply Permutation_refl|].
  eapply perm_trans; [apply perm_skip, IH | apply perm_swap].
Qed.

Lemma order_by_username_perm (l : list Sqlite.User.row) :
  Permutation (Sqlite.order_by_username l) l.
Proof.
  induction l as [|u l IH]; simpl; [constructor|].
  eapply perm_trans; [apply insert_user_perm | now apply perm_skip].
Qed.

(** ** Report generation *)

Section Reports.

Variable now : instant.
Variables month year : Z.

Lemma generateMonthlyReport_succeeds (io : Sqlite.faults) (userId : Z)
  (username : string) (d : Sqlite.db) :
  succeeds io = true ->
  exists r d',
    Sqlite.generateMonthlyReport io now userId username month year d = (Resolved r, d')
    /\ Resolved r
       = fst (Sqlite.generateMonthlyReport Sqlite.no_faults now userId username
                month year d)
    /\ Sqlite.tasks d' = Sqlite.tasks d /\ Sqlite.users d' = Sqlite.users d.
Proof.
  unfold succeeds, Sqlite.generateMonthlyReport.
  destruct (Sqlite.select_err io); [discriminate|].
  destruct (Sqlite.insert_err io); [discriminate|].
  intros _. eexists. eexists. repeat split.
Qed.

Lemma generateMonthlyReport_fails (io : Sqlite.faults) (userId : Z)
  (username : string) (d : Sqlite.db) :
  succeeds io = false ->
  exists err,
    Sqlite.generateMonthlyReport io now userId username month year d = (Rejected err, d).
Proof.
  unfold succeeds, Sqlite.generateMonthlyReport.
  destruct (Sqlite.select_err io) as [e|]; [intros _; now exists e|].
  destruct (Sqlite.insert_err io) as [e|]; [intros _; now exists e|].
  discriminate.
Qed.

(** The resolved report depends on the task table only. *)
Lemma generateMonthlyReport_reads_tasks (io : Sqlite.faults) (userId : Z)
  (username : string) (d1 d2 : Sqlite.db) :
  Sqlite.tasks d1 = Sqlite.tasks d2 ->
  fst (Sqlite.generateMonthlyReport io now userId username month year d1)
  = fst (Sqlite.generateMonthlyReport io now userId username month year d2).
Proof.
  intros H. unfold Sqlite.generateMonthlyReport.
  destruct (Sqlite.select_err io); [reflexivity|].
  destruct (Sqlite.insert_err io); [reflexivity|].
  simpl. now rewrite H.
Qed.

(** The loop of generateAllMonthlyReports, from any point of the batch. *)
Lemma report_loop (io_of : Sqlite.User.row -> Sqlite.faults) (d : Sqlite.db)
  (us : list Sqlite.User.row) :
  forall (acc : list Sqlite.report) (d0 : Sqlite.db),
    Sqlite.tasks d0 = Sqlite.tasks d ->
    exists rs d1,
      fold_left (Sqlite.report_step io_of now month year) us (acc, d0) = (acc ++ rs, d1)
      /\ Sqlite.tasks d1 = Sqlite.tasks d
      /\ Sqlite.users d1 = Sqlite.users d0
      /\ map (@Resolved Sqlite.report) rs
         = map (fun u => fst (Sqlite.generateMonthlyReport Sqlite.no_faults now
                                (Sqlite.User.id u) (Sqlite.User.username u)
                                month year d))
               (filter (fun u => succeeds (io_of u)) us).
Proof.
  induction us as [|u us IH]; intros acc d0 Ht; simpl.
  - exists [], d0. now rewrite app_nil_r.
  - destruct (succeeds (io_of u)) eqn:Hs.
    + destruct (generateMonthlyReport_succeeds (io_of u) (Sqlite.User.id u)
                  (Sqlite.User.username u) d0 Hs) as (r & d0' & Hg & Hr & Ht' & Hu').
      rewrite Hg.
      destruct (IH (acc ++ [r]) d0' ltac:(congruence)) as (rs & d1 & Hf & Ht1 & Hu1 & Hm).
      exists (r :: rs), d1. rewrite Hf, <- app_assoc. simpl.
      repeat split; try congruence.
      rewrite Hm, Hr.
      now rewrite (generateMonthlyReport_reads_tasks Sqlite.no_faults _ _ d0 d Ht).
    + destruct (generateMonthlyReport_fails (io_of u) (Sqlite.User.id u)
                  (Sqlite.User.username u) d0 Hs) as (err & Hg).
      rewrite Hg. apply IH. exact Ht.
Qed.

End Reports.

Lemma resolved_reports_fields (now : instant) (month year : Z) (d : Sqlite.db)
  (us : list Sqlite.User.row) :
  forall rs : list Sqlite.report,
    map (@Resolved Sqlite.report) rs
    = map (fun u => fst (Sqlite.generateMonthlyReport Sqlite.no_faults now
                           (Sqlite.User.id u) (Sqlite.User.username u) month year d))
          us ->
    map Sqlite.username rs = map Sqlite.User.username us
    /\ map Sqlite.userId rs = map Sqlite.User.id us.
Proof.
  induction us as [|u us IH]; intros [|r rs] H; simpl in H; try discriminate.
  - split; reflexivity.
  - inversion H as [[Hr Hrs]]. destruct (IH rs Hrs) as [Hn Hi].
    simpl. now rewrite Hn, Hi.
Qed.

(** C8.  generateAllMonthlyReports goes through every user of the users
    table, in the order the users query answers (by username), and generates
    that user's report; generating a user's report succeeds exactly when the
    backend answers its two statements; a user whose generation is rejected
    is skipped and the batch goes on.  The batch resolves with the reports
    of exactly the users whose generation succeeded, each being the report
    generateMonthlyReport computes for that user from the task table.  Only
    a failure of the users query itself rejects the batch. *)
Theorem C8_batch_skips_failed_users (io_of : Sqlite.User.row -> Sqlite.faults)
  (now : instant) (month year : Z) (d : Sqlite.db) :
  (forall (u : Sqlite.User.row) (d0 : Sqlite.db),
      (exists r d1,
          Sqlite.generateMonthlyReport (io_of u) now (Sqlite.User.id u)
            (Sqlite.User.username u) month year d0 = (Resolved r, d1))
      <-> succeeds (io_of u) = true)
  /\ (exists reports d',
         let visited := Sqlite.order_by_username (Sqlite.users d) in
         Sqlite.generateAllMonthlyReports None io_of now month year d
         = (Resolved reports, d')
         /\ Permutation visited (Sqlite.users d)
         /\ map (@Resolved Sqlite.report) reports
            = map (fun u => fst (Sqlite.generateMonthlyReport Sqlite.no_faults now
                                   (Sqlite.User.id u) (Sqlite.User.username u)
                                   month year d))
                  (filter (fun u => succeeds (io_of u)) visited)
         /\ map Sqlite.username reports
            = map Sqlite.User.username (filter (fun u => succeeds (io_of u)) visited)
         /\ map Sqlite.userId reports
            = map Sqlite.User.id (filter (fun u => succeeds (io_of u)) visited)
         /\ Sqlite.tasks d' = Sqlite.tasks d
         /\ Sqlite.users d' = Sqlite.users d)
  /\ (forall err,
         Sqlite.generateAllMonthlyReports (Some err) io_of now month year d
         = (Rejected err, d)).
Proof.
  split; [|split].
  - intros u d0. split.
    + intros (r & d1 & Hg).
      destruct (succeeds (io_of u)) eqn:Hs; [reflexivity|].
      destruct (generateMonthlyReport_fails now month year (io_of u)
                  (Sqlite.User.id u) (Sqlite.User.username u) d0 Hs) as (err & He).
      rewrite He in Hg. discriminate.
    + intros Hs.
      destruct (generateMonthlyReport_succeeds now month year (io_of u)
                  (Sqlite.User.id u) (Sqlite.User.username u) d0 Hs)
        as (r & d1 & Hg & _).
      now exists r, d1.
  - destruct (report_loop now month year io_of d
                (Sqlite.order_by_username (Sqlite.users d)) [] d eq_refl)
      as (rs & d1 & Hf & Ht & Hu & Hm).
    exists rs, d1. cbn zeta. unfold Sqlite.generateAllMonthlyReports.
    cbn zeta. rewrite Hf. cbn [app].
    destruct (resolved_reports_fields now month year d _ rs Hm) as [Hn Hi].
    repeat split; try assumption. apply order_by_username_perm.
  - intros err. reflexivity.
Qed.

(** The backend fails the SELECT of sonu's tasks: the batch resolves with
    the reports of the three other users. *)
Lemma C8_witness_sonu_fails :
  let io_of := fun u =>
    if String.eqb (Sqlite.User.username u) "sonu"
    then {| Sqlite.select_err := Some "SQLITE_BUSY"; Sqlite.insert_err := None |}
    else Sqlite.no_faults in
  exists reports d',
    Sqlite.generateAllMonthlyReports None io_of jan9 1 2026 sqlite_january
    = (Resolved reports, d')
    /\ map Sqlite.username reports = ["deepanshu"; "sachin"; "sintu"].
Proof.
  intros io_of.
  destruct (proj1 (proj2 (C8_batch_skips_failed_users io_of jan9 1 2026 sqlite_january)))
    as (reports & d' & Hg & _ & _ & Hn & _).
  exists reports, d'. split; [exact Hg | exact Hn].
Defined.

(** The users table holds deepanshu, sonu, sachin, sintu in rowid order;
    the batch reports on them in username order. *)
Example batch_visits_in_username_order :
  map Sqlite.User.username (Sqlite.users sqlite_january)
  = ["deepanshu"; "sonu"; "sachin"; "sintu"]
  /\ match fst (Sqlite.generateAllMonthlyReports None (fun _ => Sqlite.no_faults)
                  jan9 1 2026 sqlite_january) with
     | Resolved reports => map Sqlite.username reports
     | _ => []
     end = ["deepanshu"; "sachin"; "sintu"; "sonu"].
Proof. split; reflexivity. Qed.

(** Dropping rows keeps the remaining keys distinct. *)
Lemma NoDup_keys_filter {Row Key : Type} (key : Row -> Key) (keep : Row -> bool) :
  forall rows : list Row,
    NoDup (map key rows) -> NoDup (map key (filter keep rows)).
Proof.
  intros rows. induction rows as [|row rows IH]; simpl; intros Hnd; [constructor|].
  apply NoDup_cons_iff in Hnd as [Hrow Hnd].
  destruct (keep row); simpl; [|auto].
  apply NoDup_cons; [|auto].
  intros Hin. apply Hrow. apply in_map_iff in Hin as (other & Hkey & Hin).
  apply filter_In in Hin as [Hin _]. rewrite <- Hkey. now apply in_map.
Qed.

Lemma report_key_true (userId month year : Z) (r : Sqlite.Report.row) :
  Sqlite.report_key userId month year r = true <-> report_key_of r = (userId, month, year).
Proof.
  unfold Sqlite.report_key, report_key_of.
  rewrite !andb_true_iff, !Z.eqb_eq. split.
  - intros [[-> ->] ->]. reflexivity.
  - intros H. inversion H. auto.
Qed.

Lemma filter_key_after_replace (userId month year : Z) (row : Sqlite.Report.row)
  (rs : list Sqlite.Report.row) :
  Sqlite.report_key userId month year row = true ->
  filter (Sqlite.report_key userId month year)
         (filter (fun x => negb (Sqlite.report_key userId month year x)) rs ++ [row])
  = [row].
Proof.
  intros Hk. rewrite filter_app. simpl. rewrite Hk.
  rewrite filter_none; [reflexivity|].
  intros x Hx. apply filter_In in Hx as [_ Hx].
  now destruct (Sqlite.report_key userId month year x).
Qed.

Lemma find_after_replace (userId month year : Z) (row : Sqlite.Report.row)
  (rs : list Sqlite.Report.row) :
  Sqlite.report_key userId month year row = true ->
  find (Sqlite.report_key userId month year)
       (filter (fun x => negb (Sqlite.report_key userId month year x)) rs ++ [row])
  = Some row.
Proof.
  intros Hk. induction rs as [|x rs IH]; simpl; [now rewrite Hk|].
  destruct (Sqlite.report_key userId month year x) eqn:E; simpl; [exact IH|].
  now rewrite E.
Qed.

Lemma unique_after_replace (userId month year : Z) (row : Sqlite.Report.row)
  (rs : list Sqlite.Report.row) :
  Sqlite.report_key userId month year row = true ->
  NoDup (map report_key_of rs) ->
  NoDup (map report_key_of
           (filter (fun x => negb (Sqlite.report_key userId month year x)) rs ++ [row])).
Proof.
  intros Hk Hnd. rewrite map_app. simpl.
  apply (Permutation_NoDup (Permutation_cons_append _ _)).
  constructor; [|now apply NoDup_keys_filter].
  intros Hin. apply in_map_iff in Hin as (x & Hx & Hin).
  apply filter_In in Hin as [_ Hneg].
  apply report_key_true in Hk.
  assert (Sqlite.report_key userId month year x = true)
    by (apply report_key_true; congruence).
  destruct (Sqlite.report_key userId month year x); discriminate.
Qed.

Lemma filter_twice {A : Type} (p : A -> bool) (l : list A) :
  filter p (filter p l) = filter p l.
Proof.
  induction l as [|x l IH]; simpl; [reflexivity|].
  destruct (p x) eqn:E; simpl; [rewrite E; now f_equal | exact IH].
Qed.

(** One generation, when the backend answers: the numbers come from the
    task table and the key ends up with exactly one row. *)
Lemma generateMonthlyReport_upserts (now : instant) (userId : Z) (username : string)
  (month year : Z) (d : Sqlite.db) :
  exists r d',
    Sqlite.generateMonthlyReport Sqlite.no_faults now userId username month year d
    = (Resolved r, d')
    /\ Sqlite.tasks d' = Sqlite.tasks d
    /\ List.length (filter (Sqlite.report_key userId month year)
                           (Sqlite.monthly_reports d')) = 1%nat
    /\ (reports_unique d -> reports_unique d')
    /\ List.length (Sqlite.monthly_reports d')
       = S (List.length (filter (fun x => negb (Sqlite.report_key userId month year x))
                                (Sqlite.monthly_reports d)))
    /\ filter (fun x => negb (Sqlite.report_key userId month year x))
              (Sqlite.monthly_reports d')
       = filter (fun x => negb (Sqlite.report_key userId month year x))
                (Sqlite.monthly_reports d)
    /\ exists row,
         Sqlite.getMonthlyReport userId month year d' = Some row
         /\ Sqlite.Report.tasks_assigned row = Sqlite.tasksAssigned r
         /\ Sqlite.Report.tasks_completed row = Sqlite.tasksCompleted r
         /\ Sqlite.Report.completion_percentage row = Sqlite.completionPercentage r
         /\ Sqlite.Report.created_at row = CURRENT_TIMESTAMP now.
Proof.
  destruct (generateMonthlyReport_succeeds now month year Sqlite.no_faults userId
              username d eq_refl) as (r & d' & Hg & _ & Ht & _).
  exists r, d'. split; [exact Hg|]. split; [exact Ht|].
  destruct (generateMonthlyReport_resolved _ _ _ _ _ _ _ _ _ Hg)
    as (_ & _ & _ & _ & _ & _ & _ & _ & _ & _ & row & Hrows & Hkey & Hra & Hrc & Hrp & Hrt).
  unfold reports_unique, Sqlite.getMonthlyReport. rewrite Hrows.
  split; [|split; [|split; [|split]]].
  - now rewrite filter_key_after_replace.
  - now apply unique_after_replace.
  - rewrite length_app. simpl. lia.
  - rewrite filter_app. simpl. rewrite Hkey. simpl.
    now rewrite app_nil_r, filter_twice.
  - exists row. rewrite find_after_replace by exact Hkey. repeat split; assumption.
Qed.

(** Whatever the backend answers, a generation keeps monthly_reports unique
    by (user_id, month, year); so does the batch. *)
Lemma generateMonthlyReport_keeps_unique (io : Sqlite.faults) (now : instant)
  (userId : Z) (username : string) (month year : Z) (d : Sqlite.db) :
  reports_unique d ->
  reports_unique
    (snd (Sqlite.generateMonthlyReport io now userId username month year d)).
Proof.
  intros Hu. unfold Sqlite.generateMonthlyReport.
  destruct (Sqlite.select_err io); [exact Hu|].
  destruct (Sqlite.insert_err io); [exact Hu|].
  unfold reports_unique. cbn [snd Sqlite.with_reports Sqlite.monthly_reports].
  apply unique_after_replace; [|exact Hu].
  unfold Sqlite.report_key. simpl. now rewrite !Z.eqb_refl.
Qed.

Lemma report_loop_keeps_unique (io_of : Sqlite.User.row -> Sqlite.faults)
  (now : instant) (month year : Z) (us : list Sqlite.User.row) :
  forall acc : list Sqlite.report * Sqlite.db,
    reports_unique (snd acc) ->
    reports_unique (snd (fold_left (Sqlite.report_step io_of now month year) us acc)).
Proof.
  induction us as [|u us IH]; intros [reports d] Hu; [exact Hu|].
  cbn [fold_left]. apply IH. unfold Sqlite.report_step.
  pose proof (generateMonthlyReport_keeps_unique (io_of u) now (Sqlite.User.id u)
                (Sqlite.User.username u) month year d Hu) as Hstep.
  destruct (Sqlite.generateMonthlyReport (io_of u) now (Sqlite.User.id u)
              (Sqlite.User.username u) month year d) as [[r|e|e] d']; exact Hstep.
Qed.

(** C5, as the claim states it, fails on the JSON-file variant: after two
    batches for January 2026 on an unchanged task list, monthly_reports holds
    two rows for sonu (user 2), and getMonthlyReport returns the older one.
    The aggregate numbers of the two rows are the same. *)
Lemma C5_counterexample_json_duplicates_reports :
  let first := JsonFile.generateAllMonthlyReports 1 2026 jan5 (fun _ => 0.25%float)
                 json_january in
  let second := JsonFile.generateAllMonthlyReports 1 2026 jan9 (fun _ => 0.75%float)
                  (snd first) in
  map (fun r => (json_numbers r, JsonFile.Report.created_at r))
      (filter (fun r => (JsonFile.Report.user_id r =? 2) && (JsonFile.Report.month r =? 1)
                        && (JsonFile.Report.year r =? 2026))
              (JsonFile.monthly_reports (snd second)))
  = [((2, 1, 2026, 1, 0, 0%float), "2026-01-05T10:00:00.000Z");
     ((2, 1, 2026, 1, 0, 0%float), "2026-01-09T18:30:00.000Z")]
  /\ option_map JsonFile.Report.created_at (JsonFile.getMonthlyReport 2 1 2026 (snd second))
     = Some "2026-01-05T10:00:00.000Z".
Proof. split; reflexivity. Qed.

Lemma json_report_numbers (month year : Z) (now1 now2 : instant) (rnd1 rnd2 : float)
  (ts : list JsonFile.Task.row) (user : JsonFile.User.row) :
  json_numbers (JsonFile.report_for month year now1 rnd1 ts user)
  = json_numbers (JsonFile.report_for month year now2 rnd2 ts user).
Proof. reflexivity. Qed.

(** C5 (amended).  SQLite variant: generateMonthlyReport called twice for
    the same (user, month, year) on an unchanged task table resolves with
    the same assigned count, completed count and percentage (and the same
    task snapshot); each call leaves exactly one monthly_reports row for the
    key, the second replacing the first without adding a row (getMonthlyReport
    then returns the row of the second call), and a table that is unique by
    (user_id, month, year) stays so, also through generateAllMonthlyReports.  JSON-file variant:
    the two batches compute the same aggregate numbers, but every batch
    appends one new row per user to monthly_reports. *)
Theorem C5_regeneration_replaces_in_sqlite_appends_in_json :
  (forall (now1 now2 : instant) (userId : Z) (username : string) (month year : Z)
          (d : Sqlite.db),
      exists r1 d1 r2 d2,
        Sqlite.generateMonthlyReport Sqlite.no_faults now1 userId username month year d
        = (Resolved r1, d1)
        /\ Sqlite.generateMonthlyReport Sqlite.no_faults now2 userId username month year d1
           = (Resolved r2, d2)
        /\ Sqlite.tasksAssigned r1 = Sqlite.tasksAssigned r2
        /\ Sqlite.tasksCompleted r1 = Sqlite.tasksCompleted r2
        /\ Sqlite.completionPercentage r1 = Sqlite.completionPercentage r2
        /\ Sqlite.rd_tasks (Sqlite.reportData r1) = Sqlite.rd_tasks (Sqlite.reportData r2)
        /\ List.length (filter (Sqlite.report_key userId month year)
                               (Sqlite.monthly_reports d1)) = 1%nat
        /\ List.length (filter (Sqlite.report_key userId month year)
                               (Sqlite.monthly_reports d2)) = 1%nat
        /\ List.length (Sqlite.monthly_reports d2) = List.length (Sqlite.monthly_reports d1)
        /\ (exists row,
              Sqlite.getMonthlyReport userId month year d2 = Some row
              /\ Sqlite.Report.tasks_assigned row = Sqlite.tasksAssigned r2
              /\ Sqlite.Report.tasks_completed row = Sqlite.tasksCompleted r2
              /\ Sqlite.Report.completion_percentage row = Sqlite.completionPercentage r2
              /\ Sqlite.Report.created_at row = CURRENT_TIMESTAMP now2)
        /\ (reports_unique d -> reports_unique d1 /\ reports_unique d2))
  /\ (forall (users_err : option string) (io_of : Sqlite.User.row -> Sqlite.faults)
             (now : instant) (month year : Z) (d : Sqlite.db),
         reports_unique d ->
         reports_unique
           (snd (Sqlite.generateAllMonthlyReports users_err io_of now month year d)))
  /\ (forall (month year : Z) (now1 now2 : instant) (random1 random2 : Z -> float)
             (d : JsonFile.data),
         let first := JsonFile.generateAllMonthlyReports month year now1 random1 d in
         let second :=
           JsonFile.generateAllMonthlyReports month year now2 random2 (snd first) in
         map json_numbers (fst first) = map json_numbers (fst second)
         /\ List.length (fst first) = List.length (JsonFile.users d)
         /\ JsonFile.monthly_reports (snd second)
            = JsonFile.monthly_reports d ++ fst first ++ fst second).
Proof.
  split; [|split].
  - intros now1 now2 userId username month year d.
    destruct (generateMonthlyReport_upserts now1 userId username month year d)
      as (r1 & d1 & Hg1 & Ht1 & Hone1 & Hu1 & Hlen1 & Hrest1 & _).
    destruct (generateMonthlyReport_upserts now2 userId username month year d1)
      as (r2 & d2 & Hg2 & Ht2 & Hone2 & Hu2 & Hlen2 & Hrest2 & Hrow2).
    exists r1, d1, r2, d2.
    destruct (generateMonthlyReport_resolved _ _ _ _ _ _ _ _ _ Hg1)
      as (HA1 & HC1 & HP1 & _ & _ & _ & _ & HD1 & _).
    destruct (generateMonthlyReport_resolved _ _ _ _ _ _ _ _ _ Hg2)
      as (HA2 & HC2 & HP2 & _ & _ & _ & _ & HD2 & _).
    rewrite Ht1 in HA2, HC2, HD2.
    assert (EA : Sqlite.tasksAssigned r1 = Sqlite.tasksAssigned r2) by congruence.
    assert (EC : Sqlite.tasksCompleted r1 = Sqlite.tasksCompleted r2) by congruence.
    repeat split; try assumption; try congruence; auto.
  - intros users_err io_of now month year d Hu.
    unfold Sqlite.generateAllMonthlyReports.
    destruct users_err; [exact Hu|].
    pose proof (report_loop_keeps_unique io_of now month year
                  (Sqlite.order_by_username (Sqlite.users d)) ([], d) Hu) as Hloop.
    cbn zeta. destruct (fold_left _ _ _) as [reports d']. exact Hloop.
  - intros month year now1 now2 random1 random2 d first second.
    subst first second. unfold JsonFile.generateAllMonthlyReports.
    cbn [fst snd JsonFile.users JsonFile.tasks JsonFile.monthly_reports].
    split; [|split].
    + rewrite !map_map. apply map_ext. intros [i user]. apply json_report_numbers.
    + rewrite length_map. unfold JS.indexed.
      rewrite <- (indexed_from_snd (JsonFile.users d) 0) at 2.
      now rewrite length_map.
    + now rewrite <- app_assoc.
Qed.

Lemma C5_witness_sonu_report_twice :
  reports_unique sqlite_january
  /\ exists r1 d1 r2 d2,
       Sqlite.generateMonthlyReport Sqlite.no_faults jan5 2 "sonu" 1 2026 sqlite_january
       = (Resolved r1, d1)
       /\ Sqlite.generateMonthlyReport Sqlite.no_faults jan9 2 "sonu" 1 2026 d1
          = (Resolved r2, d2)
       /\ Sqlite.completionPercentage r1 = Sqlite.completionPercentage r2
       /\ List.length (Sqlite.monthly_reports d2) = 1%nat
       /\ reports_unique d2.
Proof.
  assert (Hu : reports_unique sqlite_january) by constructor.
  split; [exact Hu|].
  destruct (proj1 C5_regeneration_replaces_in_sqlite_appends_in_json
              jan5 jan9 2 "sonu" 1 2026 sqlite_january)
    as (r1 & d1 & r2 & d2 & H1 & H2 & _ & _ & HP & _ & _ & _ & Hlen & _ & Hun).
  exists r1, d1, r2, d2. split; [exact H1|]. split; [exact H2|]. split; [exact HP|].
  split; [|exact (proj2 (Hun Hu))].
  rewrite Hlen. vm_compute in H1. inversion H1. reflexivity.
Defined.

(** ** getAllUsersStatus *)

Lemma obj_get_fresh {V : Type} (o : JS.obj V) (k : string) :
  ~ In k (map fst o) -> JS.obj_get o k = None.
Proof.
  induction o as [|[k' v'] o IH]; simpl; intros Hk; [reflexivity|].
  destruct (String.eqb_spec k' k) as [->|_]; [exfalso; auto|].
  apply IH. auto.
Qed.

Lemma obj_get_last {V : Type} (o : JS.obj V) (k : string) (v : V) :
  ~ In k (map fst o) -> JS.obj_get (o ++ [(k, v)]) k = Some v.
Proof.
  induction o as [|[k' v'] o IH]; simpl; intros Hk.
  - now rewrite String.eqb_refl.
  - destruct (String.eqb_spec k' k) as [->|_]; [exfalso; auto|].
    apply IH. auto.
Qed.

Lemma obj_set_last {V : Type} (o : JS.obj V) (k : string) (v v' : V) :
  ~ In k (map fst o) -> JS.obj_set (o ++ [(k, v)]) k v' = o ++ [(k, v')].
Proof.
  induction o as [|[k' w] o IH]; simpl; intros Hk.
  - now rewrite String.eqb_refl.
  - destruct (String.eqb_spec k' k) as [->|_]; [exfalso; auto|].
    f_equal. apply IH. auto.
Qed.

Section Grouping.

Variable acc : JS.obj Sqlite.user_status.
Variable k : string.
Hypothesis k_fresh : ~ In k (map fst acc).
Hypothesis k_plain : JS.inherited k = false.

(** A row of a user whose entry exists: the task is pushed when it has a
    name. *)
Lemma group_step_push (ts : list Sqlite.task_view) (t : Sqlite.Task.row) :
  Sqlite.group_step (Resolved (acc ++ [status_entry k ts]))
    {| Sqlite.jr_username := k; Sqlite.jr_task := Some t |}
  = Resolved (acc ++ [status_entry k (ts ++ map Sqlite.view_of (filter named [t]))]).
Proof.
  unfold Sqlite.group_step, status_entry, JS.has_own. cbn [Sqlite.jr_username Sqlite.jr_task].
  rewrite (obj_get_last acc k _ k_fresh). cbn [orb].
  unfold named. simpl filter.
  destruct (negb (String.eqb (Sqlite.Task.name t) "")).
  - rewrite (obj_get_last acc k _ k_fresh), (obj_set_last acc k _ _ k_fresh).
    reflexivity.
  - simpl. now rewrite app_nil_r.
Qed.

Lemma fold_push (ms : list Sqlite.Task.row) :
  forall ts,
    fold_left Sqlite.group_step
      (map (fun t => {| Sqlite.jr_username := k; Sqlite.jr_task := Some t |}) ms)
      (Resolved (acc ++ [status_entry k ts]))
    = Resolved (acc ++ [status_entry k (ts ++ map Sqlite.view_of (filter named ms))]).
Proof.
  induction ms as [|t ms IH]; intros ts; cbn [map fold_left filter].
  - now rewrite app_nil_r.
  - rewrite group_step_push, IH. cbn [filter].
    destruct (named t); simpl; [now rewrite <- app_assoc | now rewrite app_nil_r].
Qed.

(** The first row of a user creates the entry. *)
Lemma group_step_init (task : option Sqlite.Task.row) :
  Sqlite.group_step (Resolved acc) {| Sqlite.jr_username := k; Sqlite.jr_task := task |}
  = Sqlite.group_step (Resolved (acc ++ [status_entry k []]))
      {| Sqlite.jr_username := k; Sqlite.jr_task := task |}.
Proof.
  unfold Sqlite.group_step, status_entry, JS.has_own. cbn [Sqlite.jr_username Sqlite.jr_task].
  rewrite (obj_get_fresh acc k k_fresh), k_plain. cbn [orb].
  rewrite (obj_set_fresh acc k _ k_fresh).
  rewrite (obj_get_last acc k _ k_fresh). cbn [orb].
  rewrite ?(obj_get_last acc k _ k_fresh). reflexivity.
Qed.

Lemma fold_user (ms : list Sqlite.Task.row) :
  fold_left Sqlite.group_step
    (match ms with
     | [] => [ {| Sqlite.jr_username := k; Sqlite.jr_task := None |} ]
     | t :: rest =>
         map (fun t => {| Sqlite.jr_username := k; Sqlite.jr_task := Some t |})
             (t :: rest)
     end)
    (Resolved acc)
  = Resolved (acc ++ [status_entry k (map Sqlite.view_of (filter named ms))]).
Proof.
  destruct ms as [|t ms].
  - cbn [fold_left map filter]. rewrite group_step_init.
    unfold Sqlite.group_step, status_entry, JS.has_own. cbn [Sqlite.jr_username Sqlite.jr_task].
    now rewrite (obj_get_last acc k _ k_fresh).
  - cbn [map fold_left]. rewrite group_step_init.
    apply (fold_push (t :: ms) []).
Qed.

End Grouping.

Lemma fold_users (month year : Z) (d : Sqlite.db) (us : list Sqlite.User.row) :
  forall acc : JS.obj Sqlite.user_status,
    NoDup (map Sqlite.User.username us) ->
    (forall u, In u us ->
       ~ In (Sqlite.User.username u) (map fst acc)
       /\ JS.inherited (Sqlite.User.username u) = false) ->
    fold_left Sqlite.group_step
      (flat_map
         (fun u =>
            match Sqlite.order_by_index
                    (filter (Sqlite.assigned_in (Sqlite.User.username u) month year)
                            (Sqlite.tasks d)) with
            | [] => [ {| Sqlite.jr_username := Sqlite.User.username u;
                         Sqlite.jr_task := None |} ]
            | matches =>
                map (fun t => {| Sqlite.jr_username := Sqlite.User.username u;
                                 Sqlite.jr_task := Some t |}) matches
            end) us)
      (Resolved acc)
    = Resolved (acc ++ map (fun u => (Sqlite.User.username u,
                                      grouped_status month year d u)) us).
Proof.
  induction us as [|u us IH]; intros acc Hnd Hok; cbn [flat_map].
  - simpl. now rewrite app_nil_r.
  - inversion Hnd as [|? ? Hu Hnd']; subst.
    destruct (Hok u (or_introl eq_refl)) as [Hfresh Hplain].
    rewrite fold_left_app.
    pose proof (fold_user acc (Sqlite.User.username u) Hfresh Hplain
                  (Sqlite.order_by_index
                     (filter (Sqlite.assigned_in (Sqlite.User.username u) month year)
                             (Sqlite.tasks d)))) as Hstep.
    unfold status_entry in Hstep. rewrite Hstep. rewrite IH; [| exact Hnd' |].
    + now rewrite <- app_assoc.
    + intros v Hv. destruct (Hok v (or_intror Hv)) as [Hvf Hvp].
      split; [|exact Hvp]. rewrite map_app, in_app_iff. cbn [map fst In].
      intros [H|[H|[]]]; [now apply Hvf | apply Hu; rewrite H; now apply in_map].
Qed.

Lemma filter_all {A : Type} (p : A -> bool) (l : list A) :
  (forall x, In x l -> p x = true) -> filter p l = l.
Proof.
  induction l as [|x l IH]; simpl; intros H; [reflexivity|].
  rewrite (H x) by now left. f_equal. apply IH. intros; apply H; now right.
Qed.

(** getAllUsersStatus resolves with one entry per row of the users table
    (whose usernames are unique and are not names inherited from
    Object.prototype); an entry lists the named tasks assigned to the user in
    the period, in the order of the join. *)
Lemma getAllUsersStatus_groups (month year : Z) (d : Sqlite.db) :
  users_unique d ->
  (forall u, In u (Sqlite.users d) -> JS.inherited (Sqlite.User.username u) = false) ->
  exists entries,
    Sqlite.getAllUsersStatus month year d = Resolved entries
    /\ Permutation entries (map (grouped_status month year d) (Sqlite.users d)).
Proof.
  intros Hu Hplain.
  pose proof (order_by_username_perm (Sqlite.users d)) as Hperm.
  assert (Hres : Sqlite.getAllUsersStatus month year d
                 = Resolved (JS.Object_values
                               (map (fun u => (Sqlite.User.username u,
                                               grouped_status month year d u))
                                    (Sqlite.order_by_username (Sqlite.users d))))).
  { unfold Sqlite.getAllUsersStatus.
    match goal with
    | |- context [fold_left ?f ?l ?a] =>
        assert (Hfold : fold_left f l a
                        = Resolved (map (fun u => (Sqlite.User.username u,
                                                   grouped_status month year d u))
                                        (Sqlite.order_by_username (Sqlite.users d))))
    end.
    { unfold Sqlite.left_join.
      apply (fold_users month year d (Sqlite.order_by_username (Sqlite.users d)) []).
      - apply (Permutation_NoDup (Permutation_map _ (Permutation_sym Hperm))). exact Hu.
      - intros u Hin. split; [intros []|].
        apply Hplain. eapply Permutation_in; [exact Hperm | exact Hin]. }
    now rewrite Hfold. }
  eexists. split; [exact Hres|]. unfold JS.Object_values.
  eapply perm_trans; [apply Permutation_map, Object_entries_perm|].
  rewrite map_map. simpl.
  now apply Permutation_map.
Qed.

(** The order of the join is a reordering, by name. *)
Lemma insert_task_perm (t : Sqlite.Task.row) (l : list Sqlite.Task.row) :
  Permutation (Sqlite.insert_task t l) (t :: l).
Proof.
  induction l as [|v l IH]; cbn [Sqlite.insert_task]; [apply Permutation_refl|].
  destruct (Sqlite.index_before t v); [apply Permutation_refl|].
  eapply perm_trans; [apply perm_skip, IH | apply perm_swap].
Qed.

Lemma order_by_index_perm (l : list Sqlite.Task.row) :
  Permutation (Sqlite.order_by_index l) l.
Proof.
  induction l as [|t l IH]; cbn [Sqlite.order_by_index fold_right]; [constructor|].
  eapply perm_trans; [apply insert_task_perm | now apply perm_skip].
Qed.

Lemma index_compare_antisym (t t' : Sqlite.Task.row) :
  Sqlite.index_compare t' t = CompOpp (Sqlite.index_compare t t').
Proof.
  unfold Sqlite.index_compare.
  rewrite (String.compare_antisym (Sqlite.Task.name t') (Sqlite.Task.name t)).
  destruct (String.compare (Sqlite.Task.name t) (Sqlite.Task.name t'));
    cbn [CompOpp]; try reflexivity.
  assert (Hdone : Bool.compare (Sqlite.Task.completed t') (Sqlite.Task.completed t)
                  = CompOpp (Bool.compare (Sqlite.Task.completed t)
                                          (Sqlite.Task.completed t')))
    by (destruct (Sqlite.Task.completed t), (Sqlite.Task.completed t'); reflexivity).
  rewrite Hdone.
  destruct (Bool.compare (Sqlite.Task.completed t) (Sqlite.Task.completed t'));
    cbn [CompOpp]; try reflexivity.
  assert (Hat : Sqlite.compare_completed_at (Sqlite.Task.completed_at t')
                  (Sqlite.Task.completed_at t)
                = CompOpp (Sqlite.compare_completed_at (Sqlite.Task.completed_at t)
                             (Sqlite.Task.completed_at t'))).
  { destruct (Sqlite.Task.completed_at t) as [x|], (Sqlite.Task.completed_at t') as [y|];
      cbn [Sqlite.compare_completed_at CompOpp]; try reflexivity.
    apply String.compare_antisym. }
  rewrite Hat.
  destruct (Sqlite.compare_completed_at (Sqlite.Task.completed_at t)
              (Sqlite.Task.completed_at t')); cbn [CompOpp]; try reflexivity.
  apply Z.compare_antisym.
Qed.

Lemma index_before_total (t t' : Sqlite.Task.row) :
  Sqlite.index_before t t' = true \/ Sqlite.index_before t' t = true.
Proof.
  unfold Sqlite.index_before. rewrite (index_compare_antisym t t').
  destruct (Sqlite.index_compare t t'); cbn [CompOpp]; auto.
Qed.

Lemma index_before_name (t t' : Sqlite.Task.row) :
  Sqlite.index_before t t' = true ->
  String.leb (Sqlite.Task.name t) (Sqlite.Task.name t') = true.
Proof.
  unfold Sqlite.index_before, Sqlite.index_compare, String.leb.
  destruct (String.compare (Sqlite.Task.name t) (Sqlite.Task.name t'));
    [reflexivity | reflexivity | discriminate].
Qed.

Lemma insert_task_sorted (t : Sqlite.Task.row) (l : list Sqlite.Task.row) :
  Sorted (fun a b => Sqlite.index_before a b = true) l ->
  Sorted (fun a b => Sqlite.index_before a b = true) (Sqlite.insert_task t l).
Proof.
  induction l as [|v l IH]; cbn [Sqlite.insert_task]; intros Hs.
  - repeat constructor.
  - destruct (Sqlite.index_before t v) eqn:E.
    + constructor; [exact Hs | now constructor].
    + apply Sorted_inv in Hs as [Hs Hhd]. constructor; [now apply IH|].
      assert (Hvt : Sqlite.index_before v t = true)
        by (destruct (index_before_total t v) as [H|H]; [congruence | exact H]).
      destruct l as [|w l]; cbn [Sqlite.insert_task].
      * now constructor.
      * destruct (Sqlite.index_before t w); constructor; [exact Hvt|].
        now apply HdRel_inv in Hhd.
Qed.

Lemma order_by_index_sorted (l : list Sqlite.Task.row) :
  Sorted (fun a b => Sqlite.index_before a b = true) (Sqlite.order_by_index l).
Proof.
  induction l as [|t l IH]; cbn [Sqlite.order_by_index fold_right]; [constructor|].
  now apply insert_task_sorted.
Qed.

Lemma listed_names_sorted (l : list Sqlite.Task.row) :
  Sorted (fun a b => Sqlite.index_before a b = true) l ->
  Sorted (fun a b => String.leb a b = true)
         (map Sqlite.view_name (map Sqlite.view_of l)).
Proof.
  induction 1 as [|t l _ IH Hhd]; cbn [map]; constructor; [exact IH|].
  destruct Hhd as [|v l Hb]; cbn [map]; constructor.
  cbn [Sqlite.view_of Sqlite.view_name]. now apply index_before_name.
Qed.

(** C9.  For every (month, year), getAllUsersStatus resolves with exactly
    one entry per known user: the entries stand one to one against a
    reordering of the users table, each entry carrying its user's name, so
    that the usernames of the entries are those of the table and there are
    as many entries as users.  Each entry's task list is exactly the
    period's tasks whose assigned_to is that user (the same tasks with the
    same multiplicity, listed in name order), each as
    { name, completed, completedAt }; a user without a task in the period
    has an entry with an empty list.  The users table has unique usernames
    (its UNIQUE constraint), none of them a name that plain objects inherit
    (such as "constructor"), and task names are non-empty, as the roster's
    and the catalogs' are. *)
Theorem C9_status_has_one_entry_per_user (month year : Z) (d : Sqlite.db) :
  users_unique d ->
  (forall u, In u (Sqlite.users d) -> JS.inherited (Sqlite.User.username u) = false) ->
  (forall t, In t (Sqlite.tasks d) -> Sqlite.Task.name t <> "") ->
  exists entries ordering,
    Sqlite.getAllUsersStatus month year d = Resolved entries
    /\ Permutation ordering (Sqlite.users d)
    /\ Forall2 (spec_entry month year d) ordering entries
    /\ Permutation (map Sqlite.us_username entries)
                   (map Sqlite.User.username (Sqlite.users d))
    /\ List.length entries = List.length (Sqlite.users d)
    /\ Forall (fun entry =>
                 Sorted (fun a b => String.leb a b = true)
                        (map Sqlite.view_name (Sqlite.us_tasks entry)))
              entries
    /\ (forall u, In u (Sqlite.users d) ->
          spec_tasks month year d u = [] ->
          In {| Sqlite.us_username := Sqlite.User.username u; Sqlite.us_tasks := [] |}
             entries).
Proof.
  intros Hu Hplain Hnames.
  destruct (getAllUsersStatus_groups month year d Hu Hplain) as (entries & Hres & Hperm).
  assert (Hspec : forall u,
             spec_tasks month year d u
             = filter (Sqlite.assigned_in (Sqlite.User.username u) month year)
                      (Sqlite.tasks d)).
  { intros u. unfold spec_tasks. apply filter_ext. intros t.
    unfold Sqlite.assigned_in, Sqlite.in_period. now rewrite andb_assoc. }
  assert (Hall : forall u,
             filter named
               (Sqlite.order_by_index
                  (filter (Sqlite.assigned_in (Sqlite.User.username u) month year)
                          (Sqlite.tasks d)))
             = Sqlite.order_by_index
                 (filter (Sqlite.assigned_in (Sqlite.User.username u) month year)
                         (Sqlite.tasks d))).
  { intros u. apply filter_all. intros t Ht.
    apply (Permutation_in _ (order_by_index_perm _)) in Ht.
    apply filter_In in Ht as [Ht _]. unfold named.
    apply negb_true_iff, String.eqb_neq. now apply Hnames. }
  assert (Hentry : forall u, spec_entry month year d u (grouped_status month year d u)).
  { intros u. unfold spec_entry, grouped_status.
    cbn [Sqlite.us_username Sqlite.us_tasks]. split; [reflexivity|].
    rewrite Hall, Hspec.
    rewrite (map_ext Sqlite.view_of spec_carried) by reflexivity.
    apply Permutation_map, order_by_index_perm. }
  destruct (Permutation_map_inv _ _ Hperm) as (ordering & Hmap & Hord).
  exists entries, ordering. split; [exact Hres|].
  split; [now apply Permutation_sym|]. split; [|split; [|split; [|split]]].
  - rewrite Hmap. clear - Hentry.
    induction ordering as [|u us IH]; cbn [map]; constructor; [apply Hentry | exact IH].
  - eapply perm_trans; [apply Permutation_map, Hperm|].
    rewrite map_map. simpl. apply Permutation_refl.
  - rewrite (Permutation_length Hperm). apply length_map.
  - apply Forall_forall. intros entry Hin.
    apply (Permutation_in _ Hperm) in Hin. apply in_map_iff in Hin as (u & <- & _).
    unfold grouped_status. cbn [Sqlite.us_tasks]. rewrite Hall.
    apply listed_names_sorted, order_by_index_sorted.
  - intros u Hin Hnone.
    eapply Permutation_in; [apply Permutation_sym, Hperm|].
    apply in_map_iff. exists u. split; [|exact Hin].
    unfold grouped_status. rewrite Hall, <- Hspec, Hnone. reflexivity.
Qed.

Lemma C9_witness_january_status :
  users_unique sqlite_january
  /\ Sqlite.getAllUsersStatus 1 2026 sqlite_january
     = Resolved
         [ {| Sqlite.us_username := "deepanshu"; Sqlite.us_tasks := [] |};
           {| Sqlite.us_username := "sachin";
              Sqlite.us_tasks :=
                [ {| Sqlite.view_name := "Pani Lana"; Sqlite.view_completed := false;
                     Sqlite.view_completedAt := None |} ] |};
           {| Sqlite.us_username := "sintu"; Sqlite.us_tasks := [] |};
           {| Sqlite.us_username := "sonu";
              Sqlite.us_tasks :=
                [ {| Sqlite.view_name := "Kachra Fekna"; Sqlite.view_completed := false;
                     Sqlite.view_completedAt := None |} ] |} ]
  /\ exists entries ordering,
       Sqlite.getAllUsersStatus 1 2026 sqlite_january = Resolved entries
       /\ Permutation ordering (Sqlite.users sqlite_january)
       /\ Forall2 (spec_entry 1 2026 sqlite_january) ordering entries.
Proof.
  assert (Hu : users_unique sqlite_january).
  { unfold users_unique. simpl.
    repeat (constructor; [simpl; intros H; repeat destruct H as [H|H];
                          discriminate || exact H|]).
    constructor. }
  assert (Hplain : forall u, In u (Sqlite.users sqlite_january) ->
                             JS.inherited (Sqlite.User.username u) = false).
  { simpl. intros u H. repeat destruct H as [H|H]; subst; try reflexivity.
    contradiction. }
  assert (Hnames : forall t, In t (Sqlite.tasks sqlite_january) ->
                             Sqlite.Task.name t <> "").
  { simpl. intros t H. repeat destruct H as [H|H]; subst; try discriminate.
    contradiction. }
  split; [exact Hu|]. split; [reflexivity|].
  destruct (C9_status_has_one_entry_per_user 1 2026 sqlite_january Hu Hplain Hnames)
    as (entries & ordering & Hres & Hord & Hall & _).
  exists entries, ordering. repeat split; assumption.
Defined.

(** sonu's three tasks were inserted as Kitchen Cleaning, Bathroom Cleaning,
    Hall Sweeping; the status lists them by name. *)
Example getAllUsersStatus_lists_by_name :
  map Sqlite.Task.name (Sqlite.tasks sqlite_three_tasks)
  = ["Kitchen Cleaning"; "Bathroom Cleaning"; "Hall Sweeping"]
  /\ match Sqlite.getAllUsersStatus 1 2026 sqlite_three_tasks with
     | Resolved entries =>
         map (fun entry => (Sqlite.us_username entry,
                            map Sqlite.view_name (Sqlite.us_tasks entry))) entries
     | _ => []
     end
     = [("deepanshu", []); ("sachin", []); ("sintu", []);
        ("sonu", ["Bathroom Cleaning"; "Hall Sweeping"; "Kitchen Cleaning"])].
Proof. split; reflexivity. Qed.

(** * Further properties of the code *)

(** ** Rotation over the months *)

Lemma spec_assignee_congr (month year month' year' i i' : Z) :
  (year * 12 + month + i) mod 4 = (year' * 12 + month' + i') mod 4 ->
  spec_assignee month year i = spec_assignee month' year' i'.
Proof. unfold spec_assignee. simpl (Z.of_nat _). now intros ->. Qed.

Lemma spec_assignments_congr (catalog : list string) (month year month' year' : Z) :
  (year * 12 + month) mod 4 = (year' * 12 + month') mod 4 ->
  spec_assignments catalog month year = spec_assignments catalog month' year'.
Proof.
  intros H. unfold spec_assignments. apply map_ext. intros [i task]. f_equal.
  apply spec_assignee_congr.
  rewrite <- (Z.add_mod_idemp_l (year * 12 + month)) by lia.
  rewrite <- (Z.add_mod_idemp_l (year' * 12 + month')) by lia.
  now rewrite H.
Qed.

(** X1.  The rotation has period four months, and twelve is a multiple of
    four: a calendar month gets the same mapping every year, and the mapping
    of a month is that of the month four months later.  (Both catalogs, on
    non-negative seeds.) *)
Theorem rotation_repeats_every_year (catalog : list string) (month year year' : Z) :
  NoDup catalog ->
  0 <= year * 12 + month -> 0 <= year' * 12 + month ->
  Server.calculateMonthlyAssignments catalog month year
  = Server.calculateMonthlyAssignments catalog month year'
  /\ Server.calculateMonthlyAssignments catalog (month + 4) year
     = Server.calculateMonthlyAssignments catalog month year.
Proof.
  intros Hnd Hs Hs'.
  rewrite !calculateMonthlyAssignments_spec by (assumption || lia).
  split; apply spec_assignments_congr.
  - replace (year * 12 + month) with (month + (3 * year) * 4) by lia.
    replace (year' * 12 + month) with (month + (3 * year') * 4) by lia.
    now rewrite !Z_mod_plus_full.
  - replace (year * 12 + (month + 4)) with (year * 12 + month + 1 * 4) by lia.
    now rewrite Z_mod_plus_full.
Qed.

Lemma rotation_repeats_witness :
  NoDup JsonServer.TASKS
  /\ 0 <= 2026 * 12 + 1 /\ 0 <= 2031 * 12 + 1
  /\ JsonServer.calculateMonthlyAssignments 1 2026
     = JsonServer.calculateMonthlyAssignments 1 2031.
Proof.
  split; [exact NoDup_JsonServer_TASKS|]. split; [lia|]. split; [lia|].
  exact (proj1 (rotation_repeats_every_year JsonServer.TASKS 1 2026 2031
                  NoDup_JsonServer_TASKS ltac:(lia) ltac:(lia))).
Defined.

Lemma next_month_seed (month year : Z) :
  let '(m, y) := next_month month year in y * 12 + m = year * 12 + month + 1.
Proof. unfold next_month. destruct (Z.eqb_spec month 12); lia. Qed.

(** X2.  From one calendar month to the next (December to January
    included) the JSON-file server's list of assignees, in catalog order,
    turns by one place: each task passes to the roommate who held the next
    task of the catalog, and the last task to the one who held the first.
    In the SQLite server the first task passes to the roommate who held the
    second. *)
Theorem rotation_turns_by_one_each_month (month year : Z) :
  0 <= year * 12 + month ->
  let '(m, y) := next_month month year in
  map snd (JsonServer.calculateMonthlyAssignments m y)
  = rotate_left (map snd (JsonServer.calculateMonthlyAssignments month year))
  /\ JS.obj_get (SqliteServer.calculateMonthlyAssignments m y) "Kachra Fekna"
     = JS.obj_get (SqliteServer.calculateMonthlyAssignments month year) "Pani Lana".
Proof.
  intros Hs. pose proof (next_month_seed month year) as Hn.
  destruct (next_month month year) as [m y].
  unfold JsonServer.calculateMonthlyAssignments, SqliteServer.calculateMonthlyAssignments.
  rewrite !calculateMonthlyAssignments_spec
    by (exact NoDup_JsonServer_TASKS || exact NoDup_SqliteServer_TASKS || lia).
  unfold spec_assignments, JsonServer.TASKS, SqliteServer.TASKS, JS.indexed.
  cbn [JS.indexed_from map snd rotate_left app JS.obj_get String.eqb Ascii.eqb
       Bool.eqb].
  assert (E : forall i, spec_assignee m y i = spec_assignee month year (i + 1)).
  { intros i. apply spec_assignee_congr. f_equal. lia. }
  assert (E4 : spec_assignee month year (0 + 1 + 1 + 1 + 1) = spec_assignee month year 0).
  { apply spec_assignee_congr.
    replace (year * 12 + month + (0 + 1 + 1 + 1 + 1))
      with (year * 12 + month + 0 + 1 * 4) by lia.
    now rewrite Z_mod_plus_full. }
  rewrite !E, E4. split; reflexivity.
Qed.

Lemma rotation_turns_witness_december :
  0 <= 2025 * 12 + 12
  /\ map snd (JsonServer.calculateMonthlyAssignments 1 2026)
     = rotate_left (map snd (JsonServer.calculateMonthlyAssignments 12 2025)).
Proof.
  split; [lia|].
  exact (proj1 (rotation_turns_by_one_each_month 12 2025 ltac:(lia))).
Defined.

(** ** What ensureMonthlyTasks creates *)

Lemma Object_entries_plain {V : Type} (o : JS.obj V) :
  (forall e, In e o -> JS.is_array_index (fst e) = false) ->
  JS.Object_entries o = o.
Proof.
  intros H. unfold JS.Object_entries.
  assert (Hidx : JS.index_entries o = []).
  { unfold JS.index_entries. induction o as [|e o IH]; [reflexivity|]. simpl.
    pose proof (H e (or_introl eq_refl)) as He. unfold JS.is_array_index in He.
    destruct (JS.array_index (fst e)); [discriminate|].
    apply IH. intros e' He'. apply H. now right. }
  rewrite Hidx. simpl. apply filter_all.
  intros e He. now rewrite (H e He).
Qed.

Lemma empty_month_has_no_key (now : instant) (d : Sqlite.db) (taskName : string) :
  Sqlite.getCurrentMonthTasks now d = [] ->
  existsb (Sqlite.has_key taskName (getMonth now + 1) (getFullYear now)) (Sqlite.tasks d)
  = false.
Proof.
  unfold Sqlite.getCurrentMonthTasks. intros Hnone.
  destruct (existsb _ _) eqn:E; [|reflexivity].
  apply existsb_exists in E as (t & Ht & Hk).
  unfold Sqlite.has_key in Hk. apply andb_true_iff in Hk as [_ Hp].
  assert (Hin : In t (filter (Sqlite.in_period (getMonth now + 1) (getFullYear now))
                             (Sqlite.tasks d))) by (apply filter_In; auto).
  rewrite Hnone in Hin. contradiction.
Qed.

(** X3.  SQLite server: when the current month has no task yet (and the seed
    is not negative), ensureMonthlyTasks appends exactly the two catalog
    tasks, in catalog order, pending and without completion time, with the
    next two ids, assigned to roster[seed mod 4] and roster[(seed+1) mod 4];
    every other row and table is left as it was, and getCurrentMonthTasks
    then returns these two rows. *)
Theorem ensureMonthlyTasks_creates_the_rotation_sqlite (now : instant) (d : Sqlite.db) :
  Sqlite.getCurrentMonthTasks now d = [] ->
  0 <= getFullYear now * 12 + (getMonth now + 1) ->
  let month := getMonth now + 1 in
  let year := getFullYear now in
  exists u0 u1,
    spec_assignee month year 0 = Some u0
    /\ spec_assignee month year 1 = Some u1
    /\ let created :=
         [ {| Sqlite.Task.id := Sqlite.tasks_seq d + 1;
              Sqlite.Task.name := "Kachra Fekna"; Sqlite.Task.assigned_to := u0;
              Sqlite.Task.month := month; Sqlite.Task.year := year;
              Sqlite.Task.completed := false; Sqlite.Task.completed_at := None |};
           {| Sqlite.Task.id := Sqlite.tasks_seq d + 1 + 1;
              Sqlite.Task.name := "Pani Lana"; Sqlite.Task.assigned_to := u1;
              Sqlite.Task.month := month; Sqlite.Task.year := year;
              Sqlite.Task.completed := false; Sqlite.Task.completed_at := None |} ] in
       SqliteServer.ensureMonthlyTasks now d
       = Sqlite.with_tasks d (Sqlite.tasks d ++ created) (Sqlite.tasks_seq d + 1 + 1)
       /\ Sqlite.getCurrentMonthTasks now (SqliteServer.ensureMonthlyTasks now d)
          = created.
Proof.
  intros Hnone Hseed month year.
  destruct (spec_assignee_some month year 0) as [u0 H0].
  destruct (spec_assignee_some month year 1) as [u1 H1].
  exists u0, u1. split; [exact H0|]. split; [exact H1|]. intros created.
  assert (Hens : SqliteServer.ensureMonthlyTasks now d
                 = Sqlite.with_tasks d (Sqlite.tasks d ++ created)
                     (Sqlite.tasks_seq d + 1 + 1)).
  { unfold SqliteServer.ensureMonthlyTasks, Server.ensureMonthlyTasks.
    rewrite Hnone. cbn [List.length Z.of_nat Z.eqb].
    rewrite (calculateMonthlyAssignments_spec _ _ _ NoDup_SqliteServer_TASKS Hseed).
    fold month year.
    unfold spec_assignments, SqliteServer.TASKS, JS.indexed.
    cbn [JS.indexed_from map]. change (0 + 1) with 1. rewrite H0, H1.
    unfold Sqlite.createMonthlyTasks.
    rewrite Object_entries_plain
      by (intros e [<-|[<-|[]]]; reflexivity).
    cbn [fold_left]. unfold Sqlite.insert_or_ignore_task at 2.
    unfold month, year. rewrite (empty_month_has_no_key now d _ Hnone).
    unfold Sqlite.insert_or_ignore_task.
    cbn [Sqlite.with_tasks Sqlite.tasks Sqlite.tasks_seq Sqlite.users
         Sqlite.task_history Sqlite.monthly_reports Sqlite.task_history_seq
         Sqlite.monthly_reports_seq].
    rewrite existsb_app, (empty_month_has_no_key now d _ Hnone).
    cbn [existsb orb]. unfold Sqlite.has_key at 1.
    cbn [Sqlite.Task.name String.eqb Ascii.eqb Bool.eqb andb].
    unfold Sqlite.with_tasks. cbn [Sqlite.tasks Sqlite.tasks_seq]. subst created.
    now rewrite <- app_assoc. }
  split; [exact Hens|].
  rewrite Hens. unfold Sqlite.getCurrentMonthTasks in *.
  unfold Sqlite.with_tasks. cbn [Sqlite.tasks]. rewrite filter_app, Hnone.
  subst created. cbn [filter app]. unfold Sqlite.in_period.
  cbn [Sqlite.Task.month Sqlite.Task.year]. fold month year.
  now rewrite !Z.eqb_refl.
Qed.

Lemma ensure_creates_witness_sqlite :
  Sqlite.getCurrentMonthTasks jan5 sqlite_fresh = []
  /\ 0 <= getFullYear jan5 * 12 + (getMonth jan5 + 1)
  /\ map Sqlite.Task.assigned_to
         (Sqlite.getCurrentMonthTasks jan5 (SqliteServer.ensureMonthlyTasks jan5 sqlite_fresh))
     = ["sonu"; "sachin"].
Proof.
  split; [reflexivity|]. split; [simpl; lia|].
  destruct (ensureMonthlyTasks_creates_the_rotation_sqlite jan5 sqlite_fresh eq_refl
              ltac:(simpl; lia)) as (u0 & u1 & H0 & H1 & _ & Hcur).
  rewrite Hcur. simpl. vm_compute in H0, H1. inversion H0. inversion H1. reflexivity.
Defined.

(** X4.  JSON-file server: when the current month has no task yet,
    ensureMonthlyTasks appends exactly the four catalog tasks, in catalog
    order, with ids Date.now() + index, status "pending" and no completion
    time, the task at index i assigned to ROOMMATES[(seed + i) % 4]; users
    and reports are left as they were. *)
Theorem ensureMonthlyTasks_creates_the_rotation_json (now : instant) (d : JsonFile.data) :
  JsonFile.getCurrentMonthTasks now d = [] ->
  let month := getMonth now + 1 in
  let year := getFullYear now in
  let created :=
    map (fun '(i, name) =>
           {| JsonFile.Task.id := Date_now now + i; JsonFile.Task.name := name;
              JsonFile.Task.assigned_to :=
                JS.array_get ROOMMATES (JS.rem (year * 12 + month + i) 4);
              JsonFile.Task.month := month; JsonFile.Task.year := year;
              JsonFile.Task.status := "pending";
              JsonFile.Task.completed_at := None |})
        (JS.indexed JsonServer.TASKS) in
  JsonServer.ensureMonthlyTasks now d
  = {| JsonFile.users := JsonFile.users d;
       JsonFile.tasks := JsonFile.tasks d ++ created;
       JsonFile.monthly_reports := JsonFile.monthly_reports d |}
  /\ JsonFile.getCurrentMonthTasks now (JsonServer.ensureMonthlyTasks now d) = created
  /\ List.length created = 4%nat.
Proof.
  intros Hnone month year created.
  assert (Hens : JsonServer.ensureMonthlyTasks now d
                 = {| JsonFile.users := JsonFile.users d;
                      JsonFile.tasks := JsonFile.tasks d ++ created;
                      JsonFile.monthly_reports := JsonFile.monthly_reports d |}).
  { unfold JsonServer.ensureMonthlyTasks, Server.ensureMonthlyTasks.
    rewrite Hnone. cbn [List.length Z.of_nat Z.eqb].
    fold (JsonServer.calculateMonthlyAssignments (getMonth now + 1) (getFullYear now)).
    rewrite JsonServer_assignments_js. fold month year.
    unfold JsonFile.createMonthlyTasks. cbn [snd].
    rewrite Object_entries_plain
      by (intros e [<-|[<-|[<-|[<-|[]]]]]; reflexivity).
    reflexivity. }
  split; [exact Hens|]. split; [|reflexivity].
  rewrite Hens. unfold JsonFile.getCurrentMonthTasks in *. cbn [JsonFile.tasks].
  rewrite filter_app, Hnone. subst created.
  unfold JsonServer.TASKS, JS.indexed. cbn [JS.indexed_from map filter app].
  unfold JsonFile.in_period. cbn [JsonFile.Task.month JsonFile.Task.year].
  fold month year. now rewrite !Z.eqb_refl.
Qed.

Lemma ensure_creates_witness_json :
  JsonFile.getCurrentMonthTasks jan5 json_fresh = []
  /\ map (fun t => (JsonFile.Task.id t, JsonFile.Task.assigned_to t))
         (JsonFile.getCurrentMonthTasks jan5 (JsonServer.ensureMonthlyTasks jan5 json_fresh))
     = [(1767607200000, Some "sonu"); (1767607200001, Some "sachin");
        (1767607200002, Some "sintu"); (1767607200003, Some "deepanshu")].
Proof.
  split; [reflexivity|].
  rewrite (proj1 (proj2 (ensureMonthlyTasks_creates_the_rotation_json jan5 json_fresh
                           eq_refl))).
  reflexivity.
Defined.

(** ** What the task store never does *)

Lemma Forall2_map_same {A : Type} (R : A -> A -> Prop) (f : A -> A) (l : list A) :
  (forall x, R x (f x)) -> Forall2 R l (map f l).
Proof. intros H. induction l; simpl; constructor; auto. Qed.

Lemma task_kept_update (taskName username : string) (month year : Z) (now : instant)
  (t : Sqlite.Task.row) :
  task_kept t (if Sqlite.owned_by taskName username month year t
               then Sqlite.mark_completed now t else t).
Proof.
  unfold task_kept. destruct (Sqlite.owned_by taskName username month year t); simpl;
    repeat split; auto.
Qed.

(** After the UPDATE of a row its key is still found. *)
Lemma updated_row_found (taskName username : string) (month year : Z) (now : instant)
  (ts : list Sqlite.Task.row) :
  filter (Sqlite.owned_by taskName username month year) ts <> [] ->
  find (Sqlite.has_key taskName month year)
       (fst (Sqlite.update_completed taskName username month year now ts))
  <> None.
Proof.
  unfold Sqlite.update_completed. cbn [fst]. intros Hsome.
  rewrite find_map_preserving
    by (intros x; destruct (Sqlite.owned_by taskName username month year x); reflexivity).
  destruct (find (Sqlite.has_key taskName month year) ts) as [t|] eqn:Hfind;
    [discriminate|].
  destruct (filter _ ts) as [|t rest] eqn:Hf; [now destruct Hsome|].
  assert (Ht : In t (filter (Sqlite.owned_by taskName username month year) ts))
    by (rewrite Hf; now left).
  apply filter_In in Ht as [Hin Hown].
  unfold Sqlite.owned_by in Hown. apply andb_true_iff in Hown as [Hkey _].
  pose proof (find_none _ _ Hfind t Hin) as Hno. congruence.
Qed.

(** X5.  completeTask (SQLite), whatever its arguments, the backend's
    errors and its outcome: it touches neither users nor monthly_reports nor
    the id counters of tasks and reports; the tasks table keeps its rows in
    place, each with the same id, name, assignee and period, a completed row
    staying completed and a row outside the WHERE clause staying as it was;
    the history is only appended to, by one row exactly when the call
    resolves.  An error of the UPDATE, or an UPDATE that selects no row,
    rejects and leaves the whole database as it was.  When the UPDATE
    selected a row, the rows are marked completed whatever follows: an
    error of the SELECT or of the INSERT rejects the call with the task
    completed and no history entry; without such an error the call
    resolves. *)
Theorem completeTask_frame (io : Sqlite.complete_faults) (taskName username : string)
  (month year : Z) (now : instant) (d : Sqlite.db) :
  let outcome := Sqlite.completeTask_with io taskName username month year now d in
  let owned := filter (Sqlite.owned_by taskName username month year) (Sqlite.tasks d) in
  let marked :=
    Sqlite.with_tasks d
      (fst (Sqlite.update_completed taskName username month year now (Sqlite.tasks d)))
      (Sqlite.tasks_seq d) in
  Sqlite.users (snd outcome) = Sqlite.users d
  /\ Sqlite.monthly_reports (snd outcome) = Sqlite.monthly_reports d
  /\ Sqlite.tasks_seq (snd outcome) = Sqlite.tasks_seq d
  /\ Sqlite.monthly_reports_seq (snd outcome) = Sqlite.monthly_reports_seq d
  /\ Forall2 task_kept (Sqlite.tasks d) (Sqlite.tasks (snd outcome))
  /\ Forall2 (fun t t' => Sqlite.owned_by taskName username month year t = false -> t' = t)
             (Sqlite.tasks d) (Sqlite.tasks (snd outcome))
  /\ (exists logged,
         Sqlite.task_history (snd outcome) = Sqlite.task_history d ++ logged
         /\ (List.length logged <= 1)%nat
         /\ (fst outcome = Resolved tt <-> List.length logged = 1%nat))
  /\ (forall err, Sqlite.update_err io = Some err -> outcome = (Rejected err, d))
  /\ (Sqlite.update_err io = None -> owned = [] ->
      outcome = (Rejected Sqlite.not_owned_message, d))
  /\ (Sqlite.update_err io = None -> owned <> [] ->
      match Sqlite.lookup_err io, Sqlite.log_err io with
      | Some err, _ => outcome = (Rejected err, marked)
      | None, Some err => outcome = (Rejected err, marked)
      | None, None =>
          fst outcome = Resolved tt /\ Sqlite.tasks (snd outcome) = Sqlite.tasks marked
      end).
Proof.
  intros outcome owned marked. subst outcome owned marked.
  unfold Sqlite.completeTask_with.
  destruct (Sqlite.update_err io) as [err|] eqn:Hupdate.
  { cbn [fst snd]. repeat split; try discriminate.
    - rewrite <- (map_id (Sqlite.tasks d)) at 2.
      apply Forall2_map_same. intros t. unfold task_kept. repeat split; auto.
    - rewrite <- (map_id (Sqlite.tasks d)) at 2.
      apply Forall2_map_same. intros t _. reflexivity.
    - exists []. rewrite app_nil_r. repeat split; simpl; try lia; discriminate.
    - intros e He. now injection He as ->. }
  pose proof (updated_row_found taskName username month year now (Sqlite.tasks d))
    as Hfound.
  unfold Sqlite.update_completed in *. cbn [fst] in Hfound.
  set (upd := fun t => if Sqlite.owned_by taskName username month year t
                       then Sqlite.mark_completed now t else t) in *.
  assert (Hkept : Forall2 task_kept (Sqlite.tasks d) (map upd (Sqlite.tasks d))).
  { apply Forall2_map_same. intros t. apply task_kept_update. }
  assert (Hsame : Forall2 (fun t t' =>
                             Sqlite.owned_by taskName username month year t = false ->
                             t' = t)
                          (Sqlite.tasks d) (map upd (Sqlite.tasks d))).
  { apply Forall2_map_same. intros t H. unfold upd. now rewrite H. }
  destruct (filter (Sqlite.owned_by taskName username month year) (Sqlite.tasks d))
    as [|t0 rest] eqn:Howned.
  - cbn [List.length Z.of_nat Z.eqb fst snd]. unfold Sqlite.with_tasks.
    cbn [Sqlite.users Sqlite.monthly_reports Sqlite.tasks_seq Sqlite.monthly_reports_seq
         Sqlite.tasks Sqlite.task_history].
    assert (Hmap : map upd (Sqlite.tasks d) = Sqlite.tasks d).
    { unfold upd. apply map_if_none. intros x Hx.
      destruct (Sqlite.owned_by taskName username month year x) eqn:E; [|reflexivity].
      assert (Hin : In x (filter (Sqlite.owned_by taskName username month year)
                                 (Sqlite.tasks d))) by (apply filter_In; auto).
      rewrite Howned in Hin. destruct Hin. }
    repeat split; try assumption; try discriminate.
    + exists []. rewrite app_nil_r. repeat split; simpl; try lia; discriminate.
    + intros _ _. rewrite Hmap. destruct d; reflexivity.
    + intros _ Hne. now destruct Hne.
  - specialize (Hfound ltac:(discriminate)).
    replace (Z.of_nat (List.length (t0 :: rest)) =? 0) with false
      by (cbn [List.length]; symmetry; apply Z.eqb_neq; lia).
    destruct (find (Sqlite.has_key taskName month year)
                (Sqlite.tasks (Sqlite.with_tasks d (map upd (Sqlite.tasks d))
                                 (Sqlite.tasks_seq d)))) as [task|] eqn:Hfind;
      [|unfold Sqlite.with_tasks in Hfind; cbn [Sqlite.tasks] in Hfind;
        now destruct Hfound].
    destruct (Sqlite.lookup_err io) as [e1|]; [|destruct (Sqlite.log_err io) as [e2|]];
      cbn [fst snd]; unfold Sqlite.with_history, Sqlite.with_tasks;
      cbn [Sqlite.users Sqlite.monthly_reports Sqlite.tasks_seq
           Sqlite.monthly_reports_seq Sqlite.tasks Sqlite.task_history];
      repeat split; try assumption; try discriminate.
    + exists []. rewrite app_nil_r. repeat split; simpl; try lia; discriminate.
    + exists []. rewrite app_nil_r. repeat split; simpl; try lia; discriminate.
    + eexists. split; [reflexivity|]. simpl. repeat split; auto.
Qed.

(** The backend fails the INSERT into task_history: the call is rejected,
    yet sonu's task is completed, and the history has no entry for it. *)
Example completeTask_rejected_after_update :
  let io := {| Sqlite.update_err := None; Sqlite.lookup_err := None;
               Sqlite.log_err := Some "SQLITE_FULL" |} in
  let outcome :=
    Sqlite.completeTask_with io "Kachra Fekna" "sonu" 1 2026 jan9 sqlite_january in
  fst outcome = Rejected "SQLITE_FULL"
  /\ map (fun t => (Sqlite.Task.name t, Sqlite.Task.completed t, Sqlite.Task.completed_at t))
         (Sqlite.tasks (snd outcome))
     = [("Kachra Fekna", true, Some "2026-01-09 18:30:00"); ("Pani Lana", false, None)]
  /\ Sqlite.task_history (snd outcome) = [].
Proof. repeat split. Qed.


Section OnlyAppends.

Variables month year : Z.

(** One INSERT OR IGNORE draws the next id and adds nothing, or one new
    pending row with that id. *)
Lemma insert_appends (d : Sqlite.db) (e : string * option string) :
  exists added,
    Sqlite.insert_or_ignore_task month year d e
    = Sqlite.with_tasks d (Sqlite.tasks d ++ added) (Sqlite.tasks_seq d + 1)
    /\ (added = [] \/ exists t, added = [t] /\ Sqlite.Task.id t = Sqlite.tasks_seq d + 1)
    /\ Forall (fresh_task month year) added.
Proof.
  destruct e as [n [u|]]; cbn [Sqlite.insert_or_ignore_task].
  - destruct (existsb _ _).
    + exists []. rewrite app_nil_r. repeat split; auto.
    + eexists [_]. split; [reflexivity|]. split.
      * right. eexists. split; reflexivity.
      * constructor; [|constructor]. repeat split.
  - exists []. rewrite app_nil_r. repeat split; auto.
Qed.

Lemma inserts_append (entries : list (string * option string)) :
  forall d : Sqlite.db,
  exists added,
    fold_left (Sqlite.insert_or_ignore_task month year) entries d
    = Sqlite.with_tasks d (Sqlite.tasks d ++ added)
        (Sqlite.tasks_seq d + Z.of_nat (List.length entries))
    /\ (List.length added <= List.length entries)%nat
    /\ Sorted Z.lt (map Sqlite.Task.id added)
    /\ (forall t, In t added ->
          Sqlite.tasks_seq d < Sqlite.Task.id t
          <= Sqlite.tasks_seq d + Z.of_nat (List.length entries))
    /\ Forall (fresh_task month year) added.
Proof.
  induction entries as [|e entries IH]; intros d; cbn [fold_left].
  - exists []. rewrite app_nil_r. cbn [List.length Z.of_nat]. rewrite Z.add_0_r.
    split; [now rewrite with_tasks_same|]. split; [lia|]. split; [constructor|].
    split; [intros t []|constructor].
  - destruct (insert_appends d e) as (a1 & H1 & S1 & F1).
    destruct (IH (Sqlite.insert_or_ignore_task month year d e))
      as (a2 & H2 & L2 & S2 & R2 & F2).
    rewrite H1 in H2, R2. unfold Sqlite.with_tasks in R2.
    cbn [Sqlite.tasks Sqlite.tasks_seq] in R2.
    exists (a1 ++ a2). rewrite H1, H2. unfold Sqlite.with_tasks.
    cbn [Sqlite.tasks Sqlite.tasks_seq Sqlite.users Sqlite.task_history
         Sqlite.monthly_reports Sqlite.task_history_seq Sqlite.monthly_reports_seq].
    rewrite <- app_assoc.
    replace (Sqlite.tasks_seq d + 1 + Z.of_nat (List.length entries))
      with (Sqlite.tasks_seq d + Z.of_nat (List.length (e :: entries)))
      by (cbn [List.length]; lia).
    split; [reflexivity|].
    destruct S1 as [-> | (t & -> & Hid)]; cbn [app List.length map].
    + split; [lia|]. split; [exact S2|]. split; [|exact F2].
      intros t Ht. specialize (R2 t Ht). lia.
    + split; [lia|]. split; [|split].
      * constructor; [exact S2|].
        destruct a2 as [|t2 a2]; cbn [map]; constructor.
        specialize (R2 t2 (or_introl eq_refl)). lia.
      * intros t' [<- | Ht]; [lia|]. specialize (R2 t' Ht). lia.
      * constructor; [now inversion F1 | exact F2].
Qed.

End OnlyAppends.

Lemma increasing_ids_NoDup (ids : list Z) : Sorted Z.lt ids -> NoDup ids.
Proof.
  intros Hs. apply Sorted_StronglySorted in Hs; [|intros x y z; apply Z.lt_trans].
  induction Hs as [|x ids _ IH Hx]; constructor; [|exact IH].
  intros Hin. rewrite Forall_forall in Hx. specialize (Hx x Hin). lia.
Qed.

(** X6.  createMonthlyTasks (SQLite) only appends: the rows already in the
    table stay as they are and in place; what it adds, at most one row per
    assignment, is pending, without completion time and in the given period;
    every assignment draws an id, also one whose row is skipped, so the
    table's counter advances by the number of assignments and the added rows
    carry increasing ids above the old counter and up to the new one; the
    other tables are untouched; distinct ids bounded by the counter stay
    so. *)
Theorem createMonthlyTasks_only_appends (month year : Z)
  (assignments : JS.obj (option string)) (d : Sqlite.db) :
  let d' := Sqlite.createMonthlyTasks month year assignments d in
  (exists added,
      Sqlite.tasks d' = Sqlite.tasks d ++ added
      /\ (List.length added <= List.length assignments)%nat
      /\ Forall (fresh_task month year) added
      /\ Sorted Z.lt (map Sqlite.Task.id added)
      /\ (forall t, In t added ->
            Sqlite.tasks_seq d < Sqlite.Task.id t <= Sqlite.tasks_seq d'))
  /\ Sqlite.tasks_seq d' = Sqlite.tasks_seq d + Z.of_nat (List.length assignments)
  /\ Sqlite.users d' = Sqlite.users d
  /\ Sqlite.task_history d' = Sqlite.task_history d
  /\ Sqlite.monthly_reports d' = Sqlite.monthly_reports d
  /\ (task_ids_wf d -> task_ids_wf d').
Proof.
  intros d'. subst d'. unfold Sqlite.createMonthlyTasks.
  destruct (inserts_append month year (JS.Object_entries assignments) d)
    as (added & Hd & Hlen & Hsorted & Hrange & Hfresh).
  rewrite (Permutation_length (Object_entries_perm assignments)) in Hd, Hlen, Hrange.
  rewrite Hd. unfold Sqlite.with_tasks.
  cbn [Sqlite.tasks Sqlite.tasks_seq Sqlite.users Sqlite.task_history
       Sqlite.monthly_reports].
  split; [|split; [reflexivity|split; [reflexivity|split; [reflexivity|
            split; [reflexivity|]]]]].
  - exists added. repeat split; try assumption; now apply Hrange.
  - intros [Hnd Hle]. unfold task_ids_wf. cbn [Sqlite.tasks Sqlite.tasks_seq]. split.
    + rewrite map_app.
      apply NoDup_app; [exact Hnd | now apply increasing_ids_NoDup |].
      intros x Hx Hx'.
      apply in_map_iff in Hx as (t & <- & Ht).
      apply in_map_iff in Hx' as (t' & Heq & Ht').
      specialize (Hle t Ht). specialize (Hrange t' Ht'). lia.
    + intros t Ht. apply in_app_iff in Ht as [Ht|Ht].
      * specialize (Hle t Ht). lia.
      * specialize (Hrange t Ht). lia.
Qed.

Lemma createMonthlyTasks_only_appends_witness :
  task_ids_wf sqlite_january
  /\ task_ids_wf (Sqlite.createMonthlyTasks 2 2026
                    (SqliteServer.calculateMonthlyAssignments 2 2026) sqlite_january).
Proof.
  assert (H : task_ids_wf sqlite_january).
  { split.
    - simpl. apply NoDup_cons; [simpl; intros [E|[]]; discriminate|].
      apply NoDup_cons; [intros []|constructor].
    - simpl. intros t Ht. repeat destruct Ht as [Ht|Ht]; subst; simpl; lia. }
  split; [exact H|].
  exact (proj2 (proj2 (proj2 (proj2 (proj2
           (createMonthlyTasks_only_appends 2 2026
              (SqliteServer.calculateMonthlyAssignments 2 2026) sqlite_january))))) H).
Defined.

(** ** The read queries: ordering and limits *)

Section OrderBy.

Context {A : Type}.
Variable before : A -> A -> bool.

Lemma insert_by_perm (x : A) (l : list A) :
  Permutation (SqliteQueries.insert_by before x l) (x :: l).
Proof.
  induction l as [|y l IH]; cbn [SqliteQueries.insert_by]; [apply Permutation_refl|].
  destruct (before x y); [apply Permutation_refl|].
  eapply perm_trans; [apply perm_skip, IH | apply perm_swap].
Qed.

Lemma order_by_perm (l : list A) :
  Permutation (SqliteQueries.order_by before l) l.
Proof.
  induction l as [|x l IH]; cbn [SqliteQueries.order_by fold_right]; [constructor|].
  eapply perm_trans; [apply insert_by_perm | now apply perm_skip].
Qed.

Hypothesis before_total : forall x y, before x y = true \/ before y x = true.

Lemma insert_by_sorted (x : A) (l : list A) :
  Sorted (fun a b => before a b = true) l ->
  Sorted (fun a b => before a b = true) (SqliteQueries.insert_by before x l).
Proof.
  induction l as [|y l IH]; cbn [SqliteQueries.insert_by]; intros Hs.
  - repeat constructor.
  - destruct (before x y) eqn:E.
    + constructor; [exact Hs | now constructor].
    + apply Sorted_inv in Hs as [Hs Hhd]. constructor; [now apply IH|].
      assert (Hyx : before y x = true)
        by (destruct (before_total x y) as [H|H]; [congruence | exact H]).
      destruct l as [|z l]; cbn [SqliteQueries.insert_by].
      * now constructor.
      * destruct (before x z); constructor; [exact Hyx|].
        now apply HdRel_inv in Hhd.
Qed.

Lemma order_by_sorted (l : list A) :
  Sorted (fun a b => before a b = true) (SqliteQueries.order_by before l).
Proof.
  induction l as [|x l IH]; cbn [SqliteQueries.order_by fold_right]; [constructor|].
  now apply insert_by_sorted.
Qed.

End OrderBy.

Lemma limit_prefix {A : Type} (n : Z) (rows : list A) :
  exists cut, rows = SqliteQueries.limit n rows ++ cut.
Proof.
  unfold SqliteQueries.limit. destruct (n <? 0).
  - exists []. now rewrite app_nil_r.
  - exists (skipn (Z.to_nat n) rows). now rewrite firstn_skipn.
Qed.

Lemma limit_length {A : Type} (n : Z) (rows : list A) :
  0 <= n -> Z.of_nat (List.length (SqliteQueries.limit n rows)) <= n.
Proof.
  intros Hn. unfold SqliteQueries.limit.
  destruct (Z.ltb_spec n 0); [lia|].
  pose proof (firstn_le_length (Z.to_nat n) rows).
  rewrite length_firstn. lia.
Qed.

Lemma limit_all {A : Type} (n : Z) (rows : list A) :
  n < 0 \/ Z.of_nat (List.length rows) <= n -> SqliteQueries.limit n rows = rows.
Proof.
  unfold SqliteQueries.limit. destruct (Z.ltb_spec n 0); [reflexivity|].
  intros [H'|H']; [lia|]. apply firstn_all2. lia.
Qed.

Lemma Sorted_prefix {A : Type} (R : A -> A -> Prop) (l1 l2 : list A) :
  Sorted R (l1 ++ l2) -> Sorted R l1.
Proof.
  induction l1 as [|x l1 IH]; cbn [app]; intros Hs; [constructor|].
  apply Sorted_inv in Hs as [Hs Hhd]. constructor; [now apply IH|].
  destruct l1; cbn [app] in *; [constructor|].
  apply HdRel_inv in Hhd. now constructor.
Qed.

Lemma limit_sorted {A : Type} (R : A -> A -> Prop) (n : Z) (rows : list A) :
  Sorted R rows -> Sorted R (SqliteQueries.limit n rows).
Proof.
  intros Hs. destruct (limit_prefix n rows) as [cut Hcut].
  rewrite Hcut in Hs. now apply Sorted_prefix in Hs.
Qed.

Lemma limit_In {A : Type} (n : Z) (rows : list A) (x : A) :
  In x (SqliteQueries.limit n rows) -> In x rows.
Proof.
  intros Hin. destruct (limit_prefix n rows) as [cut Hcut].
  rewrite Hcut. apply in_app_iff. now left.
Qed.

Lemma history_join_In (d : Sqlite.db) (r : SqliteQueries.history_row) :
  In r (SqliteQueries.history_join d) <->
  exists th t,
    In th (Sqlite.task_history d) /\ In t (Sqlite.tasks d)
    /\ Sqlite.History.task_id th = Sqlite.Task.id t
    /\ r = SqliteQueries.join_row th t.
Proof.
  unfold SqliteQueries.history_join. rewrite in_flat_map. split.
  - intros (th & Hth & Hr). apply in_map_iff in Hr as (t & <- & Ht).
    apply filter_In in Ht as [Ht Hid]. apply Z.eqb_eq in Hid.
    now exists th, t.
  - intros (th & t & Hth & Ht & Hid & ->). exists th. split; [exact Hth|].
    apply in_map, filter_In. split; [exact Ht | now apply Z.eqb_eq].
Qed.

(** X7.  getTaskHistory (SQLite) returns at most [limit] rows when the limit
    is not negative, and every joined row when it is negative; the rows it
    returns are newest first (each timestamp at least the next one, in the
    byte order of the timestamp text), and each is a history entry joined
    with the task whose id it refers to, carrying that task's name, month
    and year. *)
Theorem getTaskHistory_newest_first_and_bounded (n : Z) (d : Sqlite.db) :
  (0 <= n -> Z.of_nat (List.length (SqliteQueries.getTaskHistory n d)) <= n)
  /\ (n < 0 ->
      Permutation (SqliteQueries.getTaskHistory n d) (SqliteQueries.history_join d))
  /\ Sorted (fun a b => String.leb (SqliteQueries.timestamp b)
                                   (SqliteQueries.timestamp a) = true)
            (SqliteQueries.getTaskHistory n d)
  /\ (forall r, In r (SqliteQueries.getTaskHistory n d) ->
        exists th t,
          In th (Sqlite.task_history d) /\ In t (Sqlite.tasks d)
          /\ Sqlite.History.task_id th = Sqlite.Task.id t
          /\ r = SqliteQueries.join_row th t).
Proof.
  unfold SqliteQueries.getTaskHistory. split; [|split; [|split]].
  - apply limit_length.
  - intros Hn. rewrite limit_all by now left. apply order_by_perm.
  - apply limit_sorted.
    apply (order_by_sorted SqliteQueries.newer_first).
    intros x y. unfold SqliteQueries.newer_first. apply String.leb_total.
  - intros r Hr. apply limit_In in Hr.
    apply (Permutation_in _ (order_by_perm _ _)) in Hr.
    now apply history_join_In.
Qed.

Lemma getTaskHistory_witness :
  let d := snd (Sqlite.completeTask "Kachra Fekna" "sonu" 1 2026 jan5 sqlite_january) in
  0 <= 50
  /\ Z.of_nat (List.length (SqliteQueries.getTaskHistory 50 d)) <= 50
  /\ map SqliteQueries.task_name (SqliteQueries.getTaskHistory 50 d) = ["Kachra Fekna"].
Proof.
  intros d. split; [lia|]. split; [|reflexivity].
  exact (proj1 (getTaskHistory_newest_first_and_bounded 50 d) ltac:(lia)).
Defined.

(** X8.  A completion shows in the history: after completeTask resolves for
    a task (the only row with its key), the unlimited history contains an
    entry with the actor's name, the action "completed", the time of the
    call and the task's name, month and year. *)
Theorem completion_is_logged_in_history (d : Sqlite.db) (t : Sqlite.Task.row)
  (now : instant) :
  tasks_unique d -> In t (Sqlite.tasks d) ->
  exists d',
    Sqlite.completeTask (Sqlite.Task.name t) (Sqlite.Task.assigned_to t)
      (Sqlite.Task.month t) (Sqlite.Task.year t) now d = (Resolved tt, d')
    /\ In {| SqliteQueries.id := Sqlite.task_history_seq d + 1;
             SqliteQueries.task_id := Sqlite.Task.id t;
             SqliteQueries.username := Sqlite.Task.assigned_to t;
             SqliteQueries.action := "completed";
             SqliteQueries.timestamp := CURRENT_TIMESTAMP now;
             SqliteQueries.task_name := Sqlite.Task.name t;
             SqliteQueries.month := Sqlite.Task.month t;
             SqliteQueries.year := Sqlite.Task.year t |}
          (SqliteQueries.getTaskHistory (-1) d').
Proof.
  intros Hu Ht.
  destruct (completeTask_by_assignee d t now Hu Ht)
    as (d' & Hc & _ & Hin & _ & Hh & _).
  exists d'. split; [exact Hc|].
  unfold SqliteQueries.getTaskHistory. rewrite limit_all by (left; lia).
  apply (Permutation_in _ (Permutation_sym (order_by_perm _ _))).
  apply history_join_In.
  eexists. exists (Sqlite.mark_completed now t).
  split; [rewrite Hh; apply in_app_iff; right; left; reflexivity|].
  split; [exact Hin|]. split; reflexivity.
Qed.

Lemma completion_is_logged_witness :
  tasks_unique sqlite_january
  /\ exists d',
       Sqlite.completeTask "Pani Lana" "sachin" 1 2026 jan9 sqlite_january
       = (Resolved tt, d')
       /\ map (fun r => (SqliteQueries.username r, SqliteQueries.task_name r,
                         SqliteQueries.timestamp r))
              (SqliteQueries.getTaskHistory (-1) d')
          = [("sachin", "Pani Lana", "2026-01-09 18:30:00")].
Proof.
  split; [exact sqlite_january_unique|].
  destruct (completion_is_logged_in_history sqlite_january
              {| Sqlite.Task.id := 2; Sqlite.Task.name := "Pani Lana";
                 Sqlite.Task.assigned_to := "sachin"; Sqlite.Task.month := 1;
                 Sqlite.Task.year := 2026; Sqlite.Task.completed := false;
                 Sqlite.Task.completed_at := None |}
              jan9 sqlite_january_unique (or_intror (or_introl eq_refl)))
    as (d' & Hc & _).
  exists d'. split; [exact Hc|].
  vm_compute in Hc. inversion Hc. reflexivity.
Defined.

Lemma later_period_total (a b : Sqlite.Report.row) :
  SqliteQueries.later_period a b = true \/ SqliteQueries.later_period b a = true.
Proof.
  unfold SqliteQueries.later_period.
  destruct (Z.ltb_spec (Sqlite.Report.year b) (Sqlite.Report.year a));
    destruct (Z.ltb_spec (Sqlite.Report.year a) (Sqlite.Report.year b));
    destruct (Z.eqb_spec (Sqlite.Report.year b) (Sqlite.Report.year a));
    destruct (Z.eqb_spec (Sqlite.Report.year a) (Sqlite.Report.year b));
    destruct (Z.leb_spec (Sqlite.Report.month b) (Sqlite.Report.month a));
    destruct (Z.leb_spec (Sqlite.Report.month a) (Sqlite.Report.month b));
    cbn; auto; lia.
Qed.

(** X9.  getUserMonthlyReports (SQLite), for a limit with an integer value
    strictly between -2^63 and 2^63, resolves with reports of the given user
    only, at most [limit] of them when the limit is not negative and all of
    them when it is negative, ordered newest period first: each row's
    (year, month) is not before the next row's.  For any other limit (an
    integer outside that range, as a client can send, or a number that is no
    integer) the query fails and the call is rejected with
    SQLITE_MISMATCH. *)
Theorem getUserMonthlyReports_newest_first (userId : Z) (d : Sqlite.db) :
  (forall n, - 2 ^ 63 < n < 2 ^ 63 ->
     exists rows,
       SqliteQueries.getUserMonthlyReports userId (SqliteQueries.Integer n) d
       = Resolved rows
       /\ (forall r, In r rows ->
             In r (Sqlite.monthly_reports d) /\ Sqlite.Report.user_id r = userId)
       /\ (0 <= n -> Z.of_nat (List.length rows) <= n)
       /\ (n < 0 ->
           Permutation rows
             (filter (fun r => Sqlite.Report.user_id r =? userId)
                     (Sqlite.monthly_reports d)))
       /\ Sorted (fun a b =>
                    Sqlite.Report.year b < Sqlite.Report.year a
                    \/ (Sqlite.Report.year b = Sqlite.Report.year a
                        /\ Sqlite.Report.month b <= Sqlite.Report.month a))
                 rows)
  /\ (forall n, n <= - 2 ^ 63 \/ 2 ^ 63 <= n ->
        SqliteQueries.getUserMonthlyReports userId (SqliteQueries.Integer n) d
        = Rejected SqliteQueries.datatype_mismatch)
  /\ SqliteQueries.getUserMonthlyReports userId SqliteQueries.Not_integer d
     = Rejected SqliteQueries.datatype_mismatch.
Proof.
  unfold SqliteQueries.getUserMonthlyReports, SqliteQueries.limit_value.
  split; [|split; [|reflexivity]].
  - intros n Hn.
    destruct (Z.ltb_spec (- 2 ^ 63) n); [|lia].
    destruct (Z.ltb_spec n (2 ^ 63)); [|lia].
    cbn [andb]. eexists. split; [reflexivity|]. split; [|split; [|split]].
    + intros r Hr. apply limit_In in Hr.
      apply (Permutation_in _ (order_by_perm _ _)) in Hr.
      apply filter_In in Hr as [Hr Hid]. split; [exact Hr | now apply Z.eqb_eq].
    + apply limit_length.
    + intros Hneg. rewrite limit_all by now left. apply order_by_perm.
    + apply limit_sorted.
      pose proof (order_by_sorted SqliteQueries.later_period later_period_total
                    (filter (fun r => Sqlite.Report.user_id r =? userId)
                            (Sqlite.monthly_reports d))) as Hs.
      eapply Sorted_ind with (P := fun l => Sorted _ l); [| |exact Hs].
      * constructor.
      * intros a l _ IH Hhd. constructor; [exact IH|].
        destruct Hhd as [|b l' Hab]; constructor.
        unfold SqliteQueries.later_period in Hab.
        apply orb_true_iff in Hab as [Hab|Hab].
        -- left. now apply Z.ltb_lt.
        -- apply andb_true_iff in Hab as [Hy Hm]. right.
           split; [now apply Z.eqb_eq | now apply Z.leb_le].
  - intros n Hn.
    destruct (Z.ltb_spec (- 2 ^ 63) n); destruct (Z.ltb_spec n (2 ^ 63));
      cbn [andb]; try reflexivity.
    lia.
Qed.

Lemma getUserMonthlyReports_witness :
  let d := snd (Sqlite.generateMonthlyReport Sqlite.no_faults jan9 2 "sonu" 1 2026
                  sqlite_january) in
  (exists rows,
      SqliteQueries.getUserMonthlyReports 2 (SqliteQueries.Integer 12) d = Resolved rows
      /\ Z.of_nat (List.length rows) <= 12)
  /\ SqliteQueries.getUserMonthlyReports 2 (SqliteQueries.Integer (2 ^ 63)) d
     = Rejected SqliteQueries.datatype_mismatch.
Proof.
  intros d. split.
  - destruct (proj1 (getUserMonthlyReports_newest_first 2 d) 12 ltac:(lia))
      as (rows & Hrows & _ & Hlen & _).
    exists rows. split; [exact Hrows | apply Hlen; lia].
  - apply (proj1 (proj2 (getUserMonthlyReports_newest_first 2 d))). right. lia.
Defined.

(** ** Reports: what a generation leaves alone, and the batch as a whole *)

Lemma find_filter_kept {A : Type} (p q : A -> bool) (l : list A) :
  (forall x, p x = true -> q x = true) -> find p (filter q l) = find p l.
Proof.
  intros H. induction l as [|x l IH]; cbn [filter find]; [reflexivity|].
  destruct (q x) eqn:Eq; cbn [find].
  - now rewrite IH.
  - destruct (p x) eqn:Ep; [|exact IH].
    rewrite (H x Ep) in Eq. discriminate.
Qed.

Lemma find_app_last_none {A : Type} (p : A -> bool) (l : list A) (x : A) :
  p x = false -> find p (l ++ [x]) = find p l.
Proof.
  intros Hx. induction l as [|y l IH]; cbn [app find]; [now rewrite Hx|].
  destruct (p y); [reflexivity | exact IH].
Qed.

Lemma report_key_other (k k' : Z * Z * Z) (r : Sqlite.Report.row) :
  k <> k' ->
  Sqlite.report_key (fst (fst k)) (snd (fst k)) (snd k) r = true ->
  Sqlite.report_key (fst (fst k')) (snd (fst k')) (snd k') r = false.
Proof.
  destruct k as [[u m] y], k' as [[u' m'] y']. cbn [fst snd]. intros Hne Hk.
  destruct (Sqlite.report_key u' m' y' r) eqn:E; [|reflexivity].
  apply report_key_true in Hk. apply report_key_true in E. congruence.
Qed.

(** X10.  generateMonthlyReport (SQLite), whatever the backend answers,
    touches only monthly_reports and its counter: users, tasks and history
    stay as they are; the report getMonthlyReport finds for any other
    (user, month, year) is the one it found before; and a rejected
    generation leaves the whole database as it was. *)
Theorem generateMonthlyReport_frame (io : Sqlite.faults) (now : instant)
  (userId : Z) (username : string) (month year : Z) (d : Sqlite.db) :
  let outcome := Sqlite.generateMonthlyReport io now userId username month year d in
  Sqlite.users (snd outcome) = Sqlite.users d
  /\ Sqlite.tasks (snd outcome) = Sqlite.tasks d
  /\ Sqlite.task_history (snd outcome) = Sqlite.task_history d
  /\ Sqlite.tasks_seq (snd outcome) = Sqlite.tasks_seq d
  /\ (forall userId' month' year',
        (userId', month', year') <> (userId, month, year) ->
        Sqlite.getMonthlyReport userId' month' year' (snd outcome)
        = Sqlite.getMonthlyReport userId' month' year' d)
  /\ (forall message, fst outcome = Rejected message -> snd outcome = d).
Proof.
  intros outcome. subst outcome. unfold Sqlite.generateMonthlyReport.
  destruct (Sqlite.select_err io); [repeat split; reflexivity|].
  destruct (Sqlite.insert_err io); [repeat split; reflexivity|].
  cbn [fst snd]. unfold Sqlite.with_reports, Sqlite.getMonthlyReport.
  cbn [Sqlite.users Sqlite.tasks Sqlite.task_history Sqlite.tasks_seq
       Sqlite.monthly_reports].
  repeat split; try discriminate.
  intros userId' month' year' Hne.
  rewrite find_app_last_none.
  - apply find_filter_kept. intros x Hx.
    pose proof (report_key_other (userId', month', year') (userId, month, year) x Hne Hx)
      as Hother.
    cbn [fst snd] in Hother. now rewrite Hother.
  - apply (report_key_other (userId, month, year) (userId', month', year'));
      [congruence|].
    unfold Sqlite.report_key. cbn. now rewrite !Z.eqb_refl.
Qed.

Lemma generateMonthlyReport_frame_witness :
  (3, 1, 2026) <> (2, 1, 2026)
  /\ Sqlite.getMonthlyReport 3 1 2026
       (snd (Sqlite.generateMonthlyReport Sqlite.no_faults jan9 2 "sonu" 1 2026
               (snd (Sqlite.generateMonthlyReport Sqlite.no_faults jan5 3 "sachin" 1 2026
                       sqlite_january))))
     = Sqlite.getMonthlyReport 3 1 2026
         (snd (Sqlite.generateMonthlyReport Sqlite.no_faults jan5 3 "sachin" 1 2026
                 sqlite_january)).
Proof.
  split; [discriminate|].
  exact (proj1 (proj2 (proj2 (proj2 (proj2
           (generateMonthlyReport_frame Sqlite.no_faults jan9 2 "sonu" 1 2026
              (snd (Sqlite.generateMonthlyReport Sqlite.no_faults jan5 3 "sachin" 1 2026
                      sqlite_january)))))))
           3 1 2026 ltac:(discriminate)).
Defined.

Section Batch.

Variable now : instant.
Variables month year : Z.

(** The rows after one generation: the other keys' rows, then the new one. *)
Lemma after_report_rows (d : Sqlite.db) (u : Sqlite.User.row) :
  exists row,
    Sqlite.monthly_reports (after_report now month year d u)
    = filter (fun x => negb (Sqlite.report_key (Sqlite.User.id u) month year x))
             (Sqlite.monthly_reports d) ++ [row]
    /\ Sqlite.Report.user_id row = Sqlite.User.id u
    /\ Sqlite.Report.username row = Sqlite.User.username u
    /\ report_current now month year (Sqlite.tasks d) row
    /\ Sqlite.tasks (after_report now month year d u) = Sqlite.tasks d
    /\ Sqlite.users (after_report now month year d u) = Sqlite.users d.
Proof. eexists. repeat split. Qed.

Lemma batch_is_fold (us : list Sqlite.User.row) :
  forall (acc : list Sqlite.report) (d : Sqlite.db),
    snd (fold_left (Sqlite.report_step (fun _ => Sqlite.no_faults) now month year)
           us (acc, d))
    = fold_left (after_report now month year) us d.
Proof.
  induction us as [|u us IH]; intros acc d; [reflexivity|].
  cbn [fold_left]. unfold Sqlite.report_step at 2.
  unfold Sqlite.generateMonthlyReport at 1. cbn [Sqlite.no_faults Sqlite.select_err
    Sqlite.insert_err]. now rewrite IH.
Qed.

Lemma batch_keeps_tasks (us : list Sqlite.User.row) :
  forall d, Sqlite.tasks (fold_left (after_report now month year) us d) = Sqlite.tasks d.
Proof.
  induction us as [|u us IH]; intros d; [reflexivity|].
  cbn [fold_left]. now rewrite IH.
Qed.

Lemma period_row_key (r : Sqlite.Report.row) (i : Z) :
  SqliteQueries.report_in_period month year r = true ->
  Sqlite.report_key i month year r = (Sqlite.Report.user_id r =? i).
Proof.
  unfold SqliteQueries.report_in_period, Sqlite.report_key.
  intros H. apply andb_true_iff in H as [-> ->].
  now rewrite !andb_true_r.
Qed.

(** Every user of the batch ends with a row for the period. *)
Lemma batch_covers (us : list Sqlite.User.row) :
  forall (d : Sqlite.db) (i : Z),
    In i (map Sqlite.User.id us)
    \/ (exists row, In row (Sqlite.monthly_reports d)
                    /\ Sqlite.report_key i month year row = true) ->
    exists row,
      In row (Sqlite.monthly_reports (fold_left (after_report now month year) us d))
      /\ Sqlite.report_key i month year row = true.
Proof.
  induction us as [|u us IH]; intros d i H; cbn [fold_left map In] in *.
  - destruct H as [[]|H]. exact H.
  - apply IH.
    destruct (after_report_rows d u) as (row & Hrows & Hid & _).
    destruct (Z.eq_dec (Sqlite.User.id u) i) as [Heq|Hne].
    + right. exists row. split.
      * rewrite Hrows. apply in_app_iff. right. now left.
      * destruct (after_report_rows d u) as (row' & Hrows' & _ & _ & Hcur & _).
        rewrite Hrows in Hrows'. apply app_inj_tail in Hrows' as [_ <-].
        destruct Hcur as (Hm & Hy & _).
        apply report_key_true. unfold report_key_of. congruence.
    + destruct H as [[H|H]|(old & Hold & Hkey)]; [contradiction | now left |].
      right. exists old. split; [|exact Hkey].
      rewrite Hrows. apply in_app_iff. left. apply filter_In. split; [exact Hold|].
      destruct (Sqlite.report_key (Sqlite.User.id u) month year old) eqn:E;
        [|reflexivity].
      apply report_key_true in E. apply report_key_true in Hkey. congruence.
Qed.

(** The period's rows of the users already gone through are current; the
    period's rows all belong to users of the table. *)
Lemma batch_refreshes (ts : list Sqlite.Task.row) (ids : list Z)
  (us : list Sqlite.User.row) :
  forall (d : Sqlite.db) (done : list Z),
    Sqlite.tasks d = ts ->
    incl (map Sqlite.User.id us) ids ->
    (forall row, In row (Sqlite.monthly_reports d) ->
       SqliteQueries.report_in_period month year row = true ->
       In (Sqlite.Report.user_id row) ids
       /\ (In (Sqlite.Report.user_id row) done -> report_current now month year ts row)) ->
    forall row,
      In row (Sqlite.monthly_reports (fold_left (after_report now month year) us d)) ->
      SqliteQueries.report_in_period month year row = true ->
      In (Sqlite.Report.user_id row) ids
      /\ (In (Sqlite.Report.user_id row) (done ++ map Sqlite.User.id us) ->
          report_current now month year ts row).
Proof.
  induction us as [|u us IH]; intros d done Ht Hincl Hinv; cbn [fold_left map].
  - rewrite app_nil_r. exact Hinv.
  - intros row Hrow Hper.
    destruct (IH (after_report now month year d u) (done ++ [Sqlite.User.id u]))
      with (row := row) as [Hfk Hcur]; try assumption.
    + intros x Hx. apply Hincl. now right.
    + intros r Hr Hp.
      destruct (after_report_rows d u) as (new & Hrows & Hid & _ & Hnew & _).
      rewrite Hrows in Hr. apply in_app_iff in Hr as [Hr|[<-|[]]].
      * apply filter_In in Hr as [Hr Hk]. destruct (Hinv r Hr Hp) as [Hfk Hc].
        split; [exact Hfk|]. intros Hdone. apply in_app_iff in Hdone as [Hd|[Hd|[]]].
        -- now apply Hc.
        -- rewrite (period_row_key r _ Hp) in Hk.
           apply negb_true_iff, Z.eqb_neq in Hk. congruence.
      * split; [rewrite Hid; apply Hincl; now left|].
        intros _. now rewrite <- Ht.
    + split; [exact Hfk|]. intros Hin. apply Hcur.
      rewrite <- app_assoc. exact Hin.
Qed.

End Batch.

Lemma period_user_ids_NoDup (month year : Z) (l : list Sqlite.Report.row) :
  NoDup (map report_key_of l) ->
  NoDup (map Sqlite.Report.user_id (filter (SqliteQueries.report_in_period month year) l)).
Proof.
  induction l as [|x l IH]; cbn [map filter]; intros Hnd; [constructor|].
  apply NoDup_cons_iff in Hnd as [Hx Hnd].
  destruct (SqliteQueries.report_in_period month year x) eqn:Ex; [|now apply IH].
  cbn [map]. apply NoDup_cons; [|now apply IH].
  intros Hin. apply Hx. apply in_map_iff in Hin as (y & Hid & Hy).
  apply filter_In in Hy as [Hy Ey]. apply in_map_iff. exists y. split; [|exact Hy].
  unfold SqliteQueries.report_in_period in Ex, Ey.
  apply andb_true_iff in Ex as [Exm Exy]. apply andb_true_iff in Ey as [Eym Eyy].
  apply Z.eqb_eq in Exm, Exy, Eym, Eyy. unfold report_key_of. congruence.
Qed.

Lemma batch_database (now : instant) (month year : Z) (d : Sqlite.db) :
  snd (Sqlite.generateAllMonthlyReports None (fun _ => Sqlite.no_faults) now month year d)
  = fold_left (after_report now month year) (Sqlite.order_by_username (Sqlite.users d)) d.
Proof.
  unfold Sqlite.generateAllMonthlyReports. cbn zeta.
  rewrite <- (batch_is_fold now month year (Sqlite.order_by_username (Sqlite.users d))
                [] d).
  now destruct (fold_left _ _ _).
Qed.

Lemma batch_fold_keeps_unique (now : instant) (month year : Z)
  (us : list Sqlite.User.row) :
  forall d, reports_unique d ->
            reports_unique (fold_left (after_report now month year) us d).
Proof.
  induction us as [|u us IH]; intros d Hu; [exact Hu|].
  cbn [fold_left]. apply IH. now apply generateMonthlyReport_keeps_unique.
Qed.

(** X11.  After a batch that met no backend error, on a database whose
    users have distinct ids and whose reports are unique by key and, for the
    period, belong to users of the table, getAllMonthlyReports(month, year)
    lists exactly one report per user, and every listed report is current:
    its counts are those of the task table for its user and period, its
    percentage is computed from them, and it is stamped with the time of the
    batch. *)
Theorem batch_then_getAllMonthlyReports (now : instant) (month year : Z) (d : Sqlite.db) :
  NoDup (map Sqlite.User.id (Sqlite.users d)) ->
  reports_unique d ->
  (forall row, In row (Sqlite.monthly_reports d) ->
     SqliteQueries.report_in_period month year row = true ->
     In (Sqlite.Report.user_id row) (map Sqlite.User.id (Sqlite.users d))) ->
  let d' := snd (Sqlite.generateAllMonthlyReports None (fun _ => Sqlite.no_faults)
                   now month year d) in
  let listed := SqliteQueries.getAllMonthlyReports month year d' in
  Permutation (map Sqlite.Report.user_id listed) (map Sqlite.User.id (Sqlite.users d))
  /\ List.length listed = List.length (Sqlite.users d)
  /\ forall row, In row listed -> report_current now month year (Sqlite.tasks d) row.
Proof.
  intros Hids Huniq Hfk d' listed.
  pose proof (Permutation_map Sqlite.User.id (order_by_username_perm (Sqlite.users d)))
    as Hvisited.
  assert (Hd' : d' = fold_left (after_report now month year)
                       (Sqlite.order_by_username (Sqlite.users d)) d)
    by apply batch_database.
  assert (Huniq' : reports_unique d')
    by (rewrite Hd'; now apply batch_fold_keeps_unique).
  assert (Hlisted : Permutation listed
                      (filter (SqliteQueries.report_in_period month year)
                              (Sqlite.monthly_reports d')))
    by apply order_by_perm.
  assert (Hinv : forall row,
             In row (Sqlite.monthly_reports d') ->
             SqliteQueries.report_in_period month year row = true ->
             In (Sqlite.Report.user_id row) (map Sqlite.User.id (Sqlite.users d))
             /\ (In (Sqlite.Report.user_id row) (map Sqlite.User.id (Sqlite.users d)) ->
                 report_current now month year (Sqlite.tasks d) row)).
  { rewrite Hd'.
    intros row Hrow Hper.
    destruct (batch_refreshes now month year (Sqlite.tasks d)
                (map Sqlite.User.id (Sqlite.users d))
                (Sqlite.order_by_username (Sqlite.users d)) d [])
      with (row := row) as [Hin Hcur]; try assumption; try reflexivity.
    - intros i Hi. exact (Permutation_in _ Hvisited Hi).
    - intros r Hr Hp. split; [now apply Hfk | intros []].
    - split; [exact Hin|]. intros Hi. apply Hcur. cbn [app].
      exact (Permutation_in _ (Permutation_sym Hvisited) Hi). }
  assert (Hperm : Permutation (map Sqlite.Report.user_id listed)
                              (map Sqlite.User.id (Sqlite.users d))).
  { eapply perm_trans; [apply Permutation_map, Hlisted|].
    apply NoDup_Permutation; [now apply period_user_ids_NoDup | exact Hids |].
    intros i. split.
    - intros Hi. apply in_map_iff in Hi as (row & <- & Hrow).
      apply filter_In in Hrow as [Hrow Hper]. now apply Hinv.
    - intros Hi.
      destruct (batch_covers now month year (Sqlite.order_by_username (Sqlite.users d))
                  d i (or_introl (Permutation_in _ (Permutation_sym Hvisited) Hi)))
        as (row & Hrow & Hkey).
      rewrite <- Hd' in Hrow. apply in_map_iff. exists row.
      apply report_key_true in Hkey. unfold report_key_of in Hkey.
      inversion Hkey as [[Hu Hm Hy]]. split; [reflexivity|].
      apply filter_In. split; [exact Hrow|].
      unfold SqliteQueries.report_in_period. now rewrite !Z.eqb_refl. }
  split; [exact Hperm|]. split.
  - rewrite <- (length_map Sqlite.Report.user_id listed),
      (Permutation_length Hperm). apply length_map.
  - intros row Hrow. apply (Permutation_in _ Hlisted) in Hrow.
    apply filter_In in Hrow as [Hrow Hper].
    destruct (Hinv row Hrow Hper) as [Hin Hcur]. now apply Hcur.
Qed.

Lemma batch_then_getAllMonthlyReports_witness :
  NoDup (map Sqlite.User.id (Sqlite.users sqlite_january))
  /\ reports_unique sqlite_january
  /\ List.length
       (SqliteQueries.getAllMonthlyReports 1 2026
          (snd (Sqlite.generateAllMonthlyReports None (fun _ => Sqlite.no_faults)
                  jan9 1 2026 sqlite_january)))
     = 4%nat.
Proof.
  assert (Hids : NoDup (map Sqlite.User.id (Sqlite.users sqlite_january))).
  { simpl. repeat (apply NoDup_cons; [simpl; intuition discriminate|]). constructor. }
  assert (Hu : reports_unique sqlite_january) by constructor.
  split; [exact Hids|]. split; [exact Hu|].
  exact (proj1 (proj2 (batch_then_getAllMonthlyReports jan9 1 2026 sqlite_january
                         Hids Hu (fun row (H : In row []) => match H with end)))).
Defined.

(** ** The SQLite server's report route and end-of-month job *)

Lemma completeTask_keeps_reports (taskName username : string) (month year : Z)
  (now : instant) (d : Sqlite.db) :
  Sqlite.monthly_reports
    (snd (Sqlite.completeTask taskName username month year now d))
  = Sqlite.monthly_reports d.
Proof.
  unfold Sqlite.completeTask, Sqlite.completeTask_with, Sqlite.update_completed.
  cbn [Sqlite.no_complete_faults Sqlite.update_err Sqlite.lookup_err Sqlite.log_err].
  destruct (_ =? 0); [reflexivity|].
  destruct (find _ _); reflexivity.
Qed.

(** X12.  GET /api/reports/current answers from the stored row whenever one
    exists and generates only when none does; so the current-month report is
    frozen at its first request: once generated, a later request in the same
    month answers the stored row with the counts, percentage and time of the
    first request, also after a task was completed in between. *)
Theorem current_report_is_frozen_at_first_request
  (userId : Z) (username : string) (io : Sqlite.faults) (now1 now2 now3 : instant)
  (d : Sqlite.db) (taskName actor : string) :
  same_period now1 now2 -> same_period now1 now3 ->
  Sqlite.getMonthlyReport userId (getMonth now1 + 1) (getFullYear now1) d = None ->
  exists report d1 row,
    SqliteRoutes.get_reports_current (Some (userId, username)) Sqlite.no_faults now1 d
    = (SqliteRoutes.Generated report, d1)
    /\ let d2 := snd (Sqlite.completeTask taskName actor (getMonth now2 + 1)
                        (getFullYear now2) now2 d1) in
       SqliteRoutes.get_reports_current (Some (userId, username)) io now3 d2
       = (SqliteRoutes.Stored row, d2)
       /\ Sqlite.Report.tasks_assigned row = Sqlite.tasksAssigned report
       /\ Sqlite.Report.tasks_completed row = Sqlite.tasksCompleted report
       /\ Sqlite.Report.completion_percentage row = Sqlite.completionPercentage report
       /\ Sqlite.Report.created_at row = CURRENT_TIMESTAMP now1.
Proof.
  intros [Hm2 Hy2] [Hm3 Hy3] Hnone.
  destruct (generateMonthlyReport_upserts now1 userId username (getMonth now1 + 1)
              (getFullYear now1) d)
    as (report & d1 & Hgen & _ & _ & _ & _ & _ & row & Hfind & Ha & Hc & Hp & Ht).
  exists report, d1, row. split.
  - unfold SqliteRoutes.get_reports_current. now rewrite Hnone, Hgen.
  - cbn zeta. split; [|repeat split; assumption].
    unfold SqliteRoutes.get_reports_current, Sqlite.getMonthlyReport in *.
    rewrite completeTask_keeps_reports, <- Hm3, <- Hy3, Hfind. reflexivity.
Qed.

Lemma current_report_frozen_witness :
  same_period jan5 jan9
  /\ Sqlite.getMonthlyReport 2 (getMonth jan5 + 1) (getFullYear jan5) sqlite_january = None
  /\ exists report d1 row,
       SqliteRoutes.get_reports_current (Some (2, "sonu")) Sqlite.no_faults jan5
         sqlite_january = (SqliteRoutes.Generated report, d1)
       /\ SqliteRoutes.get_reports_current (Some (2, "sonu")) Sqlite.no_faults jan9
            (snd (Sqlite.completeTask "Kachra Fekna" "sonu" 1 2026 jan9 d1))
          = (SqliteRoutes.Stored row,
             snd (Sqlite.completeTask "Kachra Fekna" "sonu" 1 2026 jan9 d1))
       /\ Sqlite.Report.tasks_completed row = 0.
Proof.
  assert (Hp : same_period jan5 jan9) by (split; reflexivity).
  split; [exact Hp|]. split; [reflexivity|].
  destruct (current_report_is_frozen_at_first_request 2 "sonu" Sqlite.no_faults
              jan5 jan9 jan9 sqlite_january "Kachra Fekna" "sonu" Hp Hp eq_refl)
    as (report & d1 & row & Hgen & Hget & _ & Hc & _).
  exists report, d1, row. split; [exact Hgen|]. split; [exact Hget|].
  rewrite Hc. vm_compute in Hgen. inversion Hgen. reflexivity.
Defined.

Lemma days_in_month_range (year month0 : Z) :
  28 <= Calendar.days_in_month year month0 <= 31.
Proof.
  unfold Calendar.days_in_month.
  destruct (month0 =? 1); [destruct (Calendar.leap year); lia|].
  destruct (_ || _); lia.
Qed.

(** X13.  The end-of-month job: a month has 28 to 31 days, so its last day
    is among the scheduled days 28 to 31; on a day of the month the job runs
    generateAllMonthlyReports, for the month that is ending, exactly when
    the day is the month's last, and on any other day it leaves the database
    as it was. *)
Theorem monthly_report_job_runs_on_last_day_only (day : Z) (users_err : option string)
  (io_of : Sqlite.User.row -> Sqlite.faults) (now : instant) (d : Sqlite.db) :
  1 <= day <= Calendar.days_in_month (getFullYear now) (getMonth now) ->
  28 <= Calendar.days_in_month (getFullYear now) (getMonth now) <= 31
  /\ (day = Calendar.days_in_month (getFullYear now) (getMonth now) ->
      SqliteRoutes.monthly_report_job day users_err io_of now d
      = (Some (fst (Sqlite.generateAllMonthlyReports users_err io_of now
                      (getMonth now + 1) (getFullYear now) d)),
         snd (Sqlite.generateAllMonthlyReports users_err io_of now
                (getMonth now + 1) (getFullYear now) d)))
  /\ (day <> Calendar.days_in_month (getFullYear now) (getMonth now) ->
      SqliteRoutes.monthly_report_job day users_err io_of now d = (None, d)).
Proof.
  intros Hday. pose proof (days_in_month_range (getFullYear now) (getMonth now)) as Hr.
  split; [exact Hr|].
  unfold SqliteRoutes.monthly_report_job, Calendar.getDate_of_tomorrow. split.
  - intros ->.
    destruct (Z.leb_spec (Calendar.days_in_month (getFullYear now) (getMonth now) + 1)
                (Calendar.days_in_month (getFullYear now) (getMonth now))); [lia|].
    replace (_ + 1 - _) with 1 by lia. cbn [Z.eqb Pos.eqb].
    now destruct (Sqlite.generateAllMonthlyReports _ _ _ _ _ _).
  - intros Hne.
    destruct (Z.leb_spec (day + 1)
                (Calendar.days_in_month (getFullYear now) (getMonth now))); [|lia].
    destruct (Z.eqb_spec (day + 1) 1); [lia | reflexivity].
Qed.

Lemma monthly_report_job_witness :
  let feb28 := {| getMonth := 1; getFullYear := 2026;
                  toISOString := "2026-02-28T23:55:00.000Z";
                  Date_now := 1772322900000;
                  CURRENT_TIMESTAMP := "2026-02-28 23:55:00" |} in
  1 <= 28 <= Calendar.days_in_month (getFullYear feb28) (getMonth feb28)
  /\ Calendar.days_in_month 2026 1 = 28 /\ Calendar.days_in_month 2028 1 = 29
  /\ exists reports d',
       SqliteRoutes.monthly_report_job 28 None (fun _ => Sqlite.no_faults) feb28
         sqlite_january = (Some (Resolved reports), d')
       /\ List.length reports = 4%nat.
Proof.
  intros feb28.
  assert (Hd : 1 <= 28 <= Calendar.days_in_month (getFullYear feb28) (getMonth feb28))
    by (vm_compute; split; discriminate).
  split; [exact Hd|]. split; [reflexivity|]. split; [reflexivity|].
  eexists. eexists.
  rewrite (proj1 (proj2 (monthly_report_job_runs_on_last_day_only 28 None
                           (fun _ => Sqlite.no_faults) feb28 sqlite_january Hd))
                 eq_refl).
  split; reflexivity.
Defined.

(** ** The JSON-file variant: status counts, stored reports, default users *)

Lemma json_run_keeps_status (d : JsonFile.data) (call : json_call) :
  status_wf d -> status_wf (json_run d call).
Proof.
  unfold status_wf. intros Hwf. destruct call as [rt g | m y a now | [id|] now | m y now r];
    cbn [json_run]; try exact Hwf.
  - unfold JsonQueries.createDefaultUsers. now destruct (_ >? 0).
  - cbn [JsonFile.createMonthlyTasks snd JsonFile.tasks].
    apply Forall_app. split; [exact Hwf|].
    apply Forall_forall. intros t Ht. apply in_map_iff in Ht.
    destruct Ht as ([i [n r]] & <- & _). now left.
  - unfold JsonFile.completeTask.
    destruct (find _ _); [|exact Hwf]. cbn [snd JsonFile.tasks].
    induction Hwf as [|t ts Ht Hts IH]; [constructor|].
    cbn [JsonFile.set_completed]. destruct (_ =? id).
    + constructor; [now right | exact Hts].
    + constructor; assumption.
Qed.

Lemma json_calls_keep_status (calls : list json_call) (d : JsonFile.data) :
  status_wf d -> status_wf (fold_left json_run calls d).
Proof.
  revert d. induction calls as [|c calls IH]; intros d Hwf; [exact Hwf|].
  cbn [fold_left]. apply IH, json_run_keeps_status, Hwf.
Qed.

Lemma pending_or_completed (ts : list JsonFile.Task.row) :
  Forall (fun t => JsonFile.Task.status t = "pending"
                   \/ JsonFile.Task.status t = "completed") ts ->
  Z.of_nat (List.length (filter (JsonQueries.has_status "pending") ts))
  + Z.of_nat (List.length (filter (JsonQueries.has_status "completed") ts))
  = Z.of_nat (List.length ts).
Proof.
  induction 1 as [|t ts Ht _ IH]; [reflexivity|].
  cbn [filter].
  assert (Hhead : (JsonQueries.has_status "pending" t = true
                   /\ JsonQueries.has_status "completed" t = false)
                  \/ (JsonQueries.has_status "pending" t = false
                      /\ JsonQueries.has_status "completed" t = true))
    by (unfold JsonQueries.has_status; destruct Ht as [-> | ->]; [left | right];
        split; reflexivity).
  destruct Hhead as [[-> ->] | [-> ->]]; cbn [List.length]; lia.
Qed.

(** X14.  In the JSON-file variant every call that writes data.json keeps
    each task's status "pending" or "completed", so after any sequence of
    such calls the two counts getAllUsersStatus gives for a user add up to
    the number of the month's tasks assigned to that user: no task is
    counted twice or left out. *)
Theorem json_status_counts_add_up (calls : list json_call) (d : JsonFile.data)
  (now : instant) :
  status_wf d ->
  let d' := fold_left json_run calls d in
  status_wf d'
  /\ forall e, In e (JsonQueries.getAllUsersStatus now d') ->
       JsonQueries.pendingTasks e + JsonQueries.completedTasks e
       = Z.of_nat (List.length
                     (filter (JsonFile.assigned_in (JsonQueries.username e)
                                (getMonth now + 1) (getFullYear now))
                             (JsonFile.tasks d'))).
Proof.
  intros Hwf d'. assert (Hwf' : status_wf d') by now apply json_calls_keep_status.
  split; [exact Hwf'|]. intros e He.
  unfold JsonQueries.getAllUsersStatus in He. apply in_map_iff in He.
  destruct He as (user & <- & _).
  cbn [JsonQueries.pendingTasks JsonQueries.completedTasks JsonQueries.username].
  apply pending_or_completed.
  unfold status_wf in Hwf'. rewrite Forall_forall in *.
  intros t Ht. apply filter_In in Ht. now apply Hwf'.
Qed.

Lemma json_status_counts_witness :
  status_wf json_january
  /\ forall e,
       In e (JsonQueries.getAllUsersStatus jan9
               (fold_left json_run
                  [Call_completeTask (Some 1767607200001) jan9;
                   Call_generateAllMonthlyReports 1 2026 jan9 (fun _ => 0%float)]
                  json_january)) ->
       JsonQueries.pendingTasks e + JsonQueries.completedTasks e = 1.
Proof.
  assert (Hwf : status_wf json_january)
    by (unfold status_wf; repeat constructor).
  split; [exact Hwf|]. intros e He.
  rewrite (proj2 (json_status_counts_add_up _ json_january jan9 Hwf) e He).
  vm_compute in He.
  destruct He as [<- | [<- | [<- | [<- | []]]]]; reflexivity.
Defined.

Section CompletionMovesOneCount.

Variables (month year id : Z) (now : instant) (u : string).

Lemma set_completed_counts (ts : list JsonFile.Task.row) (t : JsonFile.Task.row)
  (name : string) :
  find (fun t => JsonFile.Task.id t =? id) ts = Some t ->
  JsonFile.Task.status t = "pending" ->
  JsonFile.Task.assigned_to t = Some u ->
  JsonFile.in_period month year t = true ->
  status_count month year "pending" name (JsonFile.set_completed id now ts)
  = status_count month year "pending" name ts - (if String.eqb name u then 1 else 0)
  /\ status_count month year "completed" name (JsonFile.set_completed id now ts)
     = status_count month year "completed" name ts + (if String.eqb name u then 1 else 0).
Proof.
  intros Hfind Hst Hassigned Hperiod. unfold status_count.
  induction ts as [|t0 ts IH]; [discriminate|].
  cbn [find] in Hfind. cbn [JsonFile.set_completed].
  destruct (JsonFile.Task.id t0 =? id).
  - injection Hfind as ->. cbn [filter].
    unfold JsonFile.in_period in Hperiod.
    unfold JsonFile.assigned_in, JsonFile.mark_completed.
    cbn [JsonFile.Task.assigned_to JsonFile.Task.month JsonFile.Task.year].
    rewrite Hassigned.
    apply andb_prop in Hperiod. destruct Hperiod as [-> ->].
    rewrite !andb_true_r, (String.eqb_sym u name).
    destruct (String.eqb name u).
    + cbn [filter]. unfold JsonQueries.has_status at 1 4 7 10.
      cbn [JsonFile.Task.status]. rewrite Hst.
      simpl (String.eqb _ _). cbn [List.length]. lia.
    + lia.
  - specialize (IH Hfind). cbn [filter].
    destruct (JsonFile.assigned_in name month year t0); [|exact IH].
    cbn [filter].
    destruct (JsonQueries.has_status "pending" t0),
             (JsonQueries.has_status "completed" t0);
      cbn [List.length]; lia.
Qed.

End CompletionMovesOneCount.

(** X15.  In the JSON-file variant, completing a pending task of the
    current month moves exactly one task from the pending count to the
    completed count of its assignee in getAllUsersStatus, and leaves every
    other user's entry as it was. *)
Theorem json_completion_moves_one_count (id : Z) (now now' : instant)
  (d : JsonFile.data) (t : JsonFile.Task.row) (u : string) :
  find (fun t => JsonFile.Task.id t =? id) (JsonFile.tasks d) = Some t ->
  JsonFile.Task.status t = "pending" ->
  JsonFile.Task.assigned_to t = Some u ->
  JsonFile.in_period (getMonth now + 1) (getFullYear now) t = true ->
  fst (JsonFile.completeTask (Some id) now' d) = true
  /\ JsonQueries.getAllUsersStatus now (snd (JsonFile.completeTask (Some id) now' d))
     = map (one_completed u) (JsonQueries.getAllUsersStatus now d).
Proof.
  intros Hfind Hst Hassigned Hperiod.
  unfold JsonFile.completeTask. rewrite Hfind. split; [reflexivity|].
  cbn [snd]. unfold JsonQueries.getAllUsersStatus.
  cbn [JsonFile.users JsonFile.tasks]. rewrite map_map.
  apply map_ext. intros user.
  destruct (set_completed_counts (getMonth now + 1) (getFullYear now) id now' u
              (JsonFile.tasks d) t (JsonFile.User.username user)
              Hfind Hst Hassigned Hperiod) as [Hp Hc].
  unfold status_count in Hp, Hc. rewrite Hp, Hc.
  unfold one_completed. cbn [JsonQueries.username JsonQueries.pendingTasks
                               JsonQueries.completedTasks].
  destruct (String.eqb (JsonFile.User.username user) u).
  - reflexivity.
  - now rewrite Z.sub_0_r, Z.add_0_r.
Qed.

Lemma json_completion_moves_witness :
  JsonQueries.getAllUsersStatus jan9
    (snd (JsonFile.completeTask (Some 1767607200000) jan9 json_january))
  = [ {| JsonQueries.username := "deepanshu"; JsonQueries.pendingTasks := 1;
         JsonQueries.completedTasks := 0 |};
      {| JsonQueries.username := "sonu"; JsonQueries.pendingTasks := 0;
         JsonQueries.completedTasks := 1 |};
      {| JsonQueries.username := "sachin"; JsonQueries.pendingTasks := 1;
         JsonQueries.completedTasks := 0 |};
      {| JsonQueries.username := "sintu"; JsonQueries.pendingTasks := 1;
         JsonQueries.completedTasks := 0 |} ].
Proof.
  rewrite (proj2 (json_completion_moves_one_count 1767607200000 jan9 jan9 json_january
                    {| JsonFile.Task.id := 1767607200000;
                       JsonFile.Task.name := "Kitchen Cleaning";
                       JsonFile.Task.assigned_to := Some "sonu";
                       JsonFile.Task.month := 1; JsonFile.Task.year := 2026;
                       JsonFile.Task.status := "pending";
                       JsonFile.Task.completed_at := None |}
                    "sonu" eq_refl eq_refl eq_refl eq_refl)).
  reflexivity.
Defined.

Lemma find_in_front {A : Type} (hit : A -> bool) (front back : list A) (x : A) :
  find hit front = Some x -> find hit (front ++ back) = Some x.
Proof.
  induction front as [|a front IH]; [discriminate|].
  cbn [find app]. now destruct (hit a).
Qed.

Lemma json_run_keeps_first_report (userId month year : Z) (d : JsonFile.data)
  (call : json_call) (r : JsonFile.Report.row) :
  JsonFile.getMonthlyReport userId month year d = Some r ->
  JsonFile.getMonthlyReport userId month year (json_run d call) = Some r.
Proof.
  unfold JsonFile.getMonthlyReport. intros Hget.
  destruct call as [rt g | m y a now | [id|] now | m y now rnd]; cbn [json_run];
    try exact Hget.
  - unfold JsonQueries.createDefaultUsers. now destruct (_ >? 0).
  - unfold JsonFile.completeTask. now destruct (find _ (JsonFile.tasks d)).
  - cbn [JsonFile.generateAllMonthlyReports snd JsonFile.monthly_reports].
    now apply find_in_front.
Qed.

(** X16.  In the JSON-file variant the report served for a user and month
    is the first one ever stored: once getMonthlyReport finds a row, it
    returns that same row after any sequence of writing calls, later report
    generations for the same month included. *)
Theorem json_first_report_is_served_forever (userId month year : Z)
  (d : JsonFile.data) (r : JsonFile.Report.row) (calls : list json_call) :
  JsonFile.getMonthlyReport userId month year d = Some r ->
  JsonFile.getMonthlyReport userId month year (fold_left json_run calls d) = Some r.
Proof.
  revert d. induction calls as [|c calls IH]; intros d Hget; [exact Hget|].
  cbn [fold_left]. apply IH, json_run_keeps_first_report, Hget.
Qed.

Lemma json_first_report_witness :
  let d1 := snd (JsonFile.generateAllMonthlyReports 1 2026 jan5 (fun _ => 0%float)
                   json_january) in
  exists r,
    JsonFile.getMonthlyReport 2 1 2026 d1 = Some r
    /\ JsonFile.Report.completed_tasks r = 0
    /\ JsonFile.getMonthlyReport 2 1 2026
         (fold_left json_run
            [Call_completeTask (Some 1767607200000) jan9;
             Call_generateAllMonthlyReports 1 2026 jan9 (fun _ => 0%float)] d1)
       = Some r.
Proof.
  intros d1.
  destruct (JsonFile.getMonthlyReport 2 1 2026 d1) as [r|] eqn:Hget;
    [|vm_compute in Hget; discriminate].
  exists r. split; [reflexivity|]. split.
  - vm_compute in Hget. injection Hget as <-. reflexivity.
  - exact (json_first_report_is_served_forever 2 1 2026 d1 r _ Hget).
Defined.

Lemma toy_runtime_accepts_own_hash : bcrypt_accepts_own_hash toy_runtime.
Proof.
  intros password salt. cbn [toy_runtime bcrypt_compare bcrypt_hash].
  induction salt as [|c salt IH].
  - cbn [String.append]. destruct password; cbn [ends_with]; now rewrite String.eqb_refl.
  - cbn [String.append ends_with]. rewrite IH. apply orb_true_r.
Qed.

(** X17.  Default users of the JSON-file variant: on a store without users
    createDefaultUsers makes every default user able to log in through
    POST /api/login with the password of the list, however the name is
    capitalised (the lookup lower-cases what was typed), and the session
    then holds that user's id and name; a second createDefaultUsers changes
    nothing, so the stored hashes are not replaced. *)
Theorem json_default_users_can_log_in (rt : runtime) (genSalt : Z -> string)
  (d : JsonFile.data) (id : Z) (u p typed : string) (session : option (Z * string)) :
  bcrypt_accepts_own_hash rt ->
  JsonFile.users d = [] ->
  In (id, (u, p)) JsonQueries.defaultUsers ->
  typed <> "" ->
  toLowerCase rt typed = u ->
  let d' := JsonQueries.createDefaultUsers rt genSalt d in
  JsonRoutes.post_login rt (Some typed) (Some p) session d'
  = (JsonRoutes.Login_success id u, Some (id, u))
  /\ forall genSalt', JsonQueries.createDefaultUsers rt genSalt' d' = d'.
Proof.
  intros Hbcrypt Hnone Hin Htyped Hlower d'.
  assert (Hd' : JsonFile.users d' <> [] /\
                JsonFile.users d'
                = map (fun '(index, (id, (username, password))) =>
                         {| JsonFile.User.id := id; JsonFile.User.username := username;
                            JsonFile.User.password_hash :=
                              bcrypt_hash rt password (genSalt index) |})
                      (JS.indexed JsonQueries.defaultUsers)).
  { subst d'. unfold JsonQueries.createDefaultUsers. rewrite Hnone.
    split; [discriminate | reflexivity]. }
  destruct Hd' as [Hsome Husers].
  split.
  2:{ intros genSalt'. unfold JsonQueries.createDefaultUsers at 1.
      destruct (JsonFile.users d'); [now destruct Hsome | reflexivity]. }
  clearbody d'.
  unfold JsonRoutes.post_login, JsonQueries.authenticateUser.
  apply String.eqb_neq in Htyped. rewrite Htyped, Hlower, Husers.
  destruct Hin as [H | [H | [H | [H | []]]]]; injection H as <- <- <-;
    simpl; rewrite Hbcrypt; reflexivity.
Qed.

Lemma json_default_login_witness :
  JsonRoutes.post_login toy_runtime (Some "Sonu") (Some "sonu123") None
    (JsonQueries.createDefaultUsers toy_runtime (fun _ => "salt")
       {| JsonFile.users := []; JsonFile.tasks := []; JsonFile.monthly_reports := [] |})
  = (JsonRoutes.Login_success 2 "sonu", Some (2, "sonu")).
Proof.
  refine (proj1 (json_default_users_can_log_in toy_runtime (fun _ => "salt")
                   {| JsonFile.users := []; JsonFile.tasks := [];
                      JsonFile.monthly_reports := [] |}
                   2 "sonu" "sonu123" "Sonu" None
                   toy_runtime_accepts_own_hash eq_refl _ _ eq_refl)).
  - right. left. reflexivity.
  - discriminate.
Defined.

(** ** Accounts in the SQLite variant *)

Section Registration.

Variable rt : runtime.

Lemma blocked_is_noop (salt : string) (t : SqliteAuth.users_table)
  (u m p : string) :
  blocked rt t (u, (m, p)) = true ->
  snd (SqliteAuth.registerUser rt salt u p m t) = t.
Proof.
  unfold blocked, SqliteAuth.registerUser. intros Hb.
  destruct (SqliteAuth.missing_input u p m); [reflexivity|].
  destruct (negb (SqliteAuth.mobileRegex_test m)); [reflexivity|].
  cbn [orb] in Hb. now rewrite Hb.
Qed.

Lemma blocked_after_registering (salt : string) (t : SqliteAuth.users_table)
  (u m p : string) :
  blocked rt (snd (SqliteAuth.registerUser rt salt u p m t)) (u, (m, p)) = true.
Proof.
  unfold blocked, SqliteAuth.registerUser.
  destruct (SqliteAuth.missing_input u p m); [reflexivity|].
  destruct (negb (SqliteAuth.mobileRegex_test m)); [reflexivity|].
  cbn [orb].
  destruct (existsb _ (SqliteAuth.rows t)) eqn:Htaken; cbn [snd]; [exact Htaken|].
  cbn [SqliteAuth.rows]. rewrite existsb_app. cbn [existsb].
  unfold SqliteAuth.taken at 2. cbn [SqliteAuth.username].
  rewrite String.eqb_refl. cbn [orb]. apply orb_true_r.
Qed.

Lemma blocked_stays (salt : string) (t : SqliteAuth.users_table)
  (u m p : string) (entry : string * (string * string)) :
  blocked rt t entry = true ->
  blocked rt (snd (SqliteAuth.registerUser rt salt u p m t)) entry = true.
Proof.
  destruct entry as [u0 [m0 p0]]. unfold blocked, SqliteAuth.registerUser.
  intros Hb.
  destruct (SqliteAuth.missing_input u p m); [exact Hb|].
  destruct (negb (SqliteAuth.mobileRegex_test m)); [exact Hb|].
  destruct (existsb _ (SqliteAuth.rows t)) eqn:Htaken at 1; [exact Hb|].
  cbn [snd SqliteAuth.rows]. rewrite existsb_app.
  destruct (SqliteAuth.missing_input u0 p0 m0); [reflexivity|].
  destruct (negb (SqliteAuth.mobileRegex_test m0)); [reflexivity|].
  cbn [orb] in *. now rewrite Hb.
Qed.

Lemma defaults_blocked_noop (salts : Z -> string)
  (entries : list (Z * (string * (string * string)))) (t : SqliteAuth.users_table) :
  (forall e, In e entries -> blocked rt t (snd e) = true) ->
  fold_left (SqliteAuth.register_default rt salts) entries t = t.
Proof.
  induction entries as [|[i [u [m p]]] entries IH]; intros Hall; [reflexivity|].
  cbn [fold_left SqliteAuth.register_default].
  rewrite (blocked_is_noop _ t u m p) by exact (Hall _ (or_introl eq_refl)).
  apply IH. intros e He. apply Hall. now right.
Qed.

Lemma defaults_blocked_stay (salts : Z -> string)
  (entries : list (Z * (string * (string * string)))) (t : SqliteAuth.users_table)
  (entry : string * (string * string)) :
  blocked rt t entry = true ->
  blocked rt (fold_left (SqliteAuth.register_default rt salts) entries t) entry = true.
Proof.
  revert t. induction entries as [|[i [u [m p]]] entries IH]; intros t Hb; [exact Hb|].
  cbn [fold_left SqliteAuth.register_default]. apply IH, blocked_stays, Hb.
Qed.

Lemma defaults_all_blocked (salts : Z -> string)
  (entries : list (Z * (string * (string * string)))) (t : SqliteAuth.users_table) :
  forall e, In e entries ->
    blocked rt (fold_left (SqliteAuth.register_default rt salts) entries t) (snd e)
    = true.
Proof.
  revert t. induction entries as [|[i [u [m p]]] entries IH]; intros t e He;
    [destruct He|].
  cbn [fold_left SqliteAuth.register_default]. destruct He as [<- | He].
  - apply defaults_blocked_stay. cbn [snd]. apply blocked_after_registering.
  - now apply IH.
Qed.

End Registration.

(** X18.  createDefaultUsers of the SQLite variant is idempotent on every
    users table: a second run, whatever salts bcrypt draws, inserts nothing,
    changes no stored hash and uses up no id, because each default user is
    by then refused by a UNIQUE constraint (or was refused as input before). *)
Theorem sqlite_createDefaultUsers_idempotent (rt : runtime) (salts salts' : Z -> string)
  (t : SqliteAuth.users_table) :
  SqliteAuth.createDefaultUsers rt salts' (SqliteAuth.createDefaultUsers rt salts t)
  = SqliteAuth.createDefaultUsers rt salts t.
Proof.
  unfold SqliteAuth.createDefaultUsers.
  apply defaults_blocked_noop. intros e He. now apply defaults_all_blocked.
Qed.

Lemma name_not_taken (name mobile : string) (rows : list SqliteAuth.user_row) :
  existsb (SqliteAuth.taken name mobile) rows = false ->
  forall row, In row rows -> SqliteAuth.username row <> name.
Proof.
  induction rows as [|r rows IH]; intros Hfree row Hrow; [destruct Hrow|].
  cbn [existsb] in Hfree. apply orb_false_elim in Hfree.
  destruct Hfree as [Hr Hrows]. destruct Hrow as [<- | Hrow]; [|now apply IH].
  unfold SqliteAuth.taken in Hr. apply orb_false_elim in Hr.
  now apply String.eqb_neq.
Qed.

Lemma find_no_such_name (rows : list SqliteAuth.user_row) (name : string) :
  (forall row, In row rows -> SqliteAuth.username row <> name) ->
  find (fun r => String.eqb (SqliteAuth.username r) name) rows = None.
Proof.
  induction rows as [|r rows IH]; intros Hno; [reflexivity|].
  cbn [find]. destruct (String.eqb_spec (SqliteAuth.username r) name) as [E|_].
  - destruct (Hno r (or_introl eq_refl) E).
  - apply IH. intros row Hrow. apply Hno. now right.
Qed.

Lemma find_appended_row (rows : list SqliteAuth.user_row) (name : string)
  (last : SqliteAuth.user_row) :
  find (fun r => String.eqb (SqliteAuth.username r) name) rows = None ->
  find (fun r => String.eqb (SqliteAuth.username r) name) (rows ++ [last])
  = if String.eqb (SqliteAuth.username last) name then Some last else None.
Proof.
  induction rows as [|r rows IH]; [reflexivity|].
  cbn [find app]. destruct (String.eqb (SqliteAuth.username r) name);
    [discriminate | exact IH].
Qed.

(** X19.  registerUser and authenticateUser of the SQLite variant: a
    registration that resolves answers with the name and number as typed
    but stores the lower-cased name, keeping all stored names lower-case;
    authenticating with the lower-cased name and the password then resolves
    with the new id, while the name as typed, when it contains an upper-case
    letter, is rejected. *)
Theorem sqlite_register_then_authenticate (rt : runtime) (salt u p m : string)
  (t t' : SqliteAuth.users_table) (id : Z) (u' m' : string) :
  bcrypt_accepts_own_hash rt ->
  (forall s, toLowerCase rt (toLowerCase rt s) = toLowerCase rt s) ->
  lowercased rt t ->
  SqliteAuth.registerUser rt salt u p m t = (Resolved (id, (u', m')), t') ->
  (u', m') = (u, m)
  /\ id = SqliteAuth.seq t + 1
  /\ lowercased rt t'
  /\ SqliteAuth.authenticateUser rt (toLowerCase rt u) p t'
     = Resolved (id, toLowerCase rt u)
  /\ (u <> toLowerCase rt u ->
      SqliteAuth.authenticateUser rt u p t' = Rejected invalid_login).
Proof.
  intros Hbcrypt Hidem Hlow. unfold SqliteAuth.registerUser.
  destruct (SqliteAuth.missing_input u p m); [discriminate|].
  destruct (negb (SqliteAuth.mobileRegex_test m)); [discriminate|].
  destruct (existsb _ (SqliteAuth.rows t)) eqn:Htaken; [discriminate|].
  intros Heq. injection Heq as <- <- <- <-.
  split; [reflexivity|]. split; [reflexivity|].
  split; [|split].
  - intros row Hrow. cbn [SqliteAuth.rows] in Hrow. apply in_app_iff in Hrow.
    destruct Hrow as [Hrow | [<- | []]]; [now apply Hlow | apply Hidem].
  - unfold SqliteAuth.authenticateUser. cbn [SqliteAuth.rows].
    rewrite find_appended_row.
    + cbn [SqliteAuth.username]. rewrite String.eqb_refl.
      cbn [SqliteAuth.username SqliteAuth.password_hash SqliteAuth.id].
      now rewrite Hbcrypt.
    + apply find_no_such_name. exact (name_not_taken _ _ _ Htaken).
  - intros Hupper. unfold SqliteAuth.authenticateUser. cbn [SqliteAuth.rows].
    rewrite find_appended_row.
    + cbn [SqliteAuth.username].
      destruct (String.eqb_spec (toLowerCase rt u) u) as [E|_]; [|reflexivity].
      now destruct Hupper.
    + apply find_no_such_name. intros row Hrow Hname. apply Hupper.
      rewrite <- Hname. symmetry. now apply Hlow.
Qed.

Lemma sqlite_register_witness :
  lowercased toy_runtime SqliteAuth.empty_table
  /\ SqliteAuth.authenticateUser toy_runtime "sonu" "sonu123"
       (snd (SqliteAuth.registerUser toy_runtime "salt" "Sonu" "sonu123" "8210658796"
               SqliteAuth.empty_table))
     = Resolved (1, "sonu")
  /\ SqliteAuth.authenticateUser toy_runtime "Sonu" "sonu123"
       (snd (SqliteAuth.registerUser toy_runtime "salt" "Sonu" "sonu123" "8210658796"
               SqliteAuth.empty_table))
     = Rejected invalid_login.
Proof.
  assert (Hlow : lowercased toy_runtime SqliteAuth.empty_table)
    by (intros row []).
  assert (Hidem : forall s, toLowerCase toy_runtime (toLowerCase toy_runtime s)
                            = toLowerCase toy_runtime s).
  { cbn [toy_runtime toLowerCase]. induction s as [|c s IH]; [reflexivity|].
    cbn [lower_string]. rewrite IH. f_equal.
    destruct c as [[] [] [] [] [] [] [] []]; reflexivity. }
  split; [exact Hlow|].
  destruct (sqlite_register_then_authenticate toy_runtime "salt" "Sonu" "sonu123"
              "8210658796" SqliteAuth.empty_table _ 1 "Sonu" "8210658796"
              toy_runtime_accepts_own_hash Hidem Hlow eq_refl)
    as (_ & _ & _ & Hok & Hupper).
  split; [exact Hok|]. apply Hupper. discriminate.
Defined.

Lemma find_unique_row (rows : list SqliteAuth.user_row) (row : SqliteAuth.user_row) :
  NoDup (map SqliteAuth.username rows) -> In row rows ->
  find (fun r => String.eqb (SqliteAuth.username r) (SqliteAuth.username row)) rows
  = Some row.
Proof.
  induction rows as [|r rows IH]; intros Hnd Hin; [destruct Hin|].
  cbn [map] in Hnd. apply NoDup_cons_iff in Hnd. destruct Hnd as [Hfresh Hnd].
  cbn [find].
  destruct (String.eqb_spec (SqliteAuth.username r) (SqliteAuth.username row)) as [E|N].
  - destruct Hin as [-> | Hin]; [reflexivity|].
    destruct Hfresh. rewrite E. now apply in_map.
  - destruct Hin as [-> | Hin]; [now destruct N | now apply IH].
Qed.

(** X20.  POST /api/login of the SQLite server reads the body's
    mobileNumber and hands it to authenticateUser, which looks it up in the
    username column: for a registered user whose number is nobody's
    username, the user's mobile number with the right password is answered
    401, and the session is left as it was; the username sent in the
    mobileNumber field logs the user in, with no mobileNumber in the answer. *)
Theorem sqlite_login_looks_up_usernames (rt : runtime) (t : SqliteAuth.users_table)
  (row : SqliteAuth.user_row) (password : string) (session : option (Z * string)) :
  NoDup (map SqliteAuth.username (SqliteAuth.rows t)) ->
  In row (SqliteAuth.rows t) ->
  (forall r, In r (SqliteAuth.rows t) ->
     SqliteAuth.username r <> SqliteAuth.mobile_number row) ->
  SqliteAuth.username row <> "" -> SqliteAuth.mobile_number row <> "" ->
  password <> "" ->
  bcrypt_compare rt password (SqliteAuth.password_hash row) = true ->
  SqliteAuth.post_login rt (Some (SqliteAuth.mobile_number row)) (Some password)
    session t
  = (SqliteAuth.Login_error 401 invalid_login, session)
  /\ SqliteAuth.post_login rt (Some (SqliteAuth.username row)) (Some password)
       session t
     = (SqliteAuth.Login_success (SqliteAuth.username row) None (SqliteAuth.id row),
        Some (SqliteAuth.id row, SqliteAuth.username row)).
Proof.
  intros Hnd Hin Hno Hname Hmobile Hpass Hmatch.
  apply String.eqb_neq in Hname, Hmobile, Hpass.
  unfold SqliteAuth.post_login, SqliteAuth.authenticateUser.
  rewrite Hname, Hmobile, Hpass. cbn [orb]. split.
  - now rewrite (find_no_such_name _ _ Hno).
  - rewrite (find_unique_row _ _ Hnd Hin), Hmatch. reflexivity.
Qed.

Lemma sqlite_login_witness :
  let t := SqliteAuth.createDefaultUsers toy_runtime (fun _ => "salt")
             SqliteAuth.empty_table in
  SqliteAuth.post_login toy_runtime (Some "8210658796") (Some "sonu123") None t
  = (SqliteAuth.Login_error 401 invalid_login, None)
  /\ SqliteAuth.post_login toy_runtime (Some "sonu") (Some "sonu123") None t
     = (SqliteAuth.Login_success "sonu" None 2, Some (2, "sonu")).
Proof.
  intros t.
  refine (sqlite_login_looks_up_usernames toy_runtime t
            {| SqliteAuth.id := 2; SqliteAuth.username := "sonu";
               SqliteAuth.mobile_number := "8210658796";
               SqliteAuth.password_hash := "saltsonu123" |}
            "sonu123" None _ _ _ _ _ _ eq_refl).
  - vm_compute. repeat constructor; cbn [In]; intuition discriminate.
  - vm_compute. right. left. reflexivity.
  - vm_compute. intros r [<- | [<- | [<- | [<- | []]]]]; discriminate.
  - discriminate.
  - discriminate.
  - discriminate.
Defined.
